(** * SnapReads (30Min): the frontend gates and the selection pipeline

    A shallow embedding of the TypeScript frontend under [project/src]
    (stores, API service, and the App, FileUpload, TimeSelector,
    ProcessingLoader and StudyPack components) and of the content-selection
    pipeline of the backend.

    Conventions.
    - A JavaScript [number] that holds a count, an id or a number of minutes
      is a [Z]; one that holds a score or a reading time is a binary64
      [float].
    - [T | null], [T | undefined] and optional fields are [option T];
      truthiness tests ([!x], [x && y], [x || y]) are written out.
    - A React state hook is a field of the component's state record; a
      handler is a function from the state (and from the outcome of the
      network calls it awaits) to the new state, or to the trace of effects
      it performs, in program order. *)

From Stdlib Require Import ZArith Floats Lia Ascii.
From stdpp Require Import base decidable option list sorting strings pretty.

Set Warnings "-inexact-float,-register-all".
Local Open Scope Z_scope.

(** ** JavaScript values *)

Module Js.

(** [!!n] for a number that is an integer: only [0] is falsy. *)
Definition truthy_num (n : Z) : bool := negb (n =? 0).

(** [!!s] for a string: only the empty string is falsy. *)
Definition truthy_str (s : string) : bool :=
  match s with EmptyString => false | _ => true end.

(** [!!x] for [x : number | undefined]. *)
Definition truthy_opt_num (x : option Z) : bool :=
  match x with Some n => truthy_num n | None => false end.

(** [n.toString()] and [`${n}`] for an integer [n]. *)
Definition toString (n : Z) : string := pretty n.

(** [a || b] on strings where [a] may be undefined. *)
Definition or_str (a : option string) (b : string) : string :=
  match a with
  | Some s => if truthy_str s then s else b
  | None => b
  end.

(** [a || []] where [a] may be undefined: every array is truthy. *)
Definition or_nil {A} (a : option (list A)) : list A :=
  match a with Some l => l | None => [] end.

End Js.

(** The browser's [File]: the three attributes the frontend reads. *)
Record File := mkFile {
  file_name : string;
  file_type : string;
  file_size : Z
}.

(** ** stores/authStore.ts *)

Module AuthStore.

Record User := mkUser {
  id : Z;
  email : string;
  name : string;
  picture : option string;
  created_at : string
}.

Record AuthState := mkAuthState {
  user : option User;
  token : option string;
  isAuthenticated : bool;
  isLoading : bool;
  error : option string
}.

Definition initial : AuthState :=
  mkAuthState None None false false None.

(** zustand's [set] merges the given fields into the state: fields that
    an action does not name keep their value. *)
Definition setUser (u : User) (s : AuthState) : AuthState :=
  mkAuthState (Some u) (token s) (isAuthenticated s) (isLoading s) (error s).
Definition setToken (t : string) (s : AuthState) : AuthState :=
  mkAuthState (user s) (Some t) (isAuthenticated s) (isLoading s) (error s).
Definition setLoading (b : bool) (s : AuthState) : AuthState :=
  mkAuthState (user s) (token s) (isAuthenticated s) b (error s).
Definition setError (e : option string) (s : AuthState) : AuthState :=
  mkAuthState (user s) (token s) (isAuthenticated s) (isLoading s) e.
(** [login(user, token)] as the store runs it: it sets whatever it is
    passed. TypeScript's parameter types are not checked at run time;
    [None] is an argument that is [undefined] or [null]. *)
Definition login_with (u : option User) (t : option string) (s : AuthState)
  : AuthState :=
  mkAuthState u t true (isLoading s) None.
(** [login] at a user and a token, as its type asks. *)
Definition login (u : User) (t : string) (s : AuthState) : AuthState :=
  login_with (Some u) (Some t) s.
Definition logout (s : AuthState) : AuthState :=
  mkAuthState None None false (isLoading s) None.
Definition clearError (s : AuthState) : AuthState :=
  mkAuthState (user s) (token s) (isAuthenticated s) (isLoading s) None.

Definition session_expired_message : string :=
  "Your session has expired. Please sign in again.".

Definition handleTokenExpiration (s : AuthState) : AuthState :=
  mkAuthState None None false (isLoading s) (Some session_expired_message).

(** The slice written to local storage under [auth-storage]. *)
Record Persisted := mkPersisted {
  p_user : option User;
  p_token : option string;
  p_isAuthenticated : bool
}.

Definition partialize (s : AuthState) : Persisted :=
  mkPersisted (user s) (token s) (isAuthenticated s).

(** The actions of the store, as data, for callers that schedule them. *)
Inductive Action :=
| ASetUser (u : User)
| ASetToken (t : string)
| ASetLoading (b : bool)
| ASetError (e : option string)
| ALogin (u : User) (t : string)
| ALogout
| AClearError
| AHandleTokenExpiration.

Definition run (a : Action) : AuthState -> AuthState :=
  match a with
  | ASetUser u => setUser u
  | ASetToken t => setToken t
  | ASetLoading b => setLoading b
  | ASetError e => setError e
  | ALogin u t => login u t
  | ALogout => logout
  | AClearError => clearError
  | AHandleTokenExpiration => handleTokenExpiration
  end.

Definition run_all (l : list Action) (s : AuthState) : AuthState :=
  fold_left (fun s a => run a s) l s.

(** The actions with the arguments of any caller, typed or not: a user
    or a token that is passed may be [undefined] or [null]. *)
Inductive Call :=
| CSetUser (u : option User)
| CSetToken (t : option string)
| CSetLoading (b : bool)
| CSetError (e : option string)
| CLogin (u : option User) (t : option string)
| CLogout
| CClearError
| CHandleTokenExpiration.

Definition call (c : Call) (s : AuthState) : AuthState :=
  match c with
  | CSetUser u =>
      mkAuthState u (token s) (isAuthenticated s) (isLoading s) (error s)
  | CSetToken t =>
      mkAuthState (user s) t (isAuthenticated s) (isLoading s) (error s)
  | CSetLoading b => setLoading b s
  | CSetError e => setError e s
  | CLogin u t => login_with u t s
  | CLogout => logout s
  | CClearError => clearError s
  | CHandleTokenExpiration => handleTokenExpiration s
  end.

Definition call_all (l : list Call) (s : AuthState) : AuthState :=
  fold_left (fun s c => call c s) l s.

(** A typed action, as a call. *)
Definition of_action (a : Action) : Call :=
  match a with
  | ASetUser u => CSetUser (Some u)
  | ASetToken t => CSetToken (Some t)
  | ASetLoading b => CSetLoading b
  | ASetError e => CSetError e
  | ALogin u t => CLogin (Some u) (Some t)
  | ALogout => CLogout
  | AClearError => CClearError
  | AHandleTokenExpiration => CHandleTokenExpiration
  end.

(** Every user and token the call passes is present. *)
Definition passes_credentials (c : Call) : bool :=
  match c with
  | CSetUser u => bool_decide (is_Some u)
  | CSetToken t => bool_decide (is_Some t)
  | CLogin u t => bool_decide (is_Some u) && bool_decide (is_Some t)
  | _ => true
  end.

End AuthStore.

(** ** services/api.ts *)

Module Api.

Inductive Method := GET | POST.

(** A [FormData] entry value. *)
Inductive FormValue :=
| FormFile (f : File)
| FormString (s : string).

Inductive Body :=
| NoBody
| FormData (entries : list (string * FormValue)).

Inductive ResponseType := Json | Blob.

Record Request := mkRequest {
  method : Method;
  url : string;
  body : Body;
  headers : list (string * string);
  responseType : ResponseType
}.

(** What the frontend reads of an HTTP response: the status and the
    [detail] member of an error body. *)
Record Response := mkResponse {
  status : Z;
  detail : option string
}.

(** An axios error: [response] is absent on a network failure. *)
Record AxiosError := mkAxiosError {
  response : option Response;
  err_message : string
}.

(** [error.response?.status === n] *)
Definition status_is (n : Z) (e : AxiosError) : bool :=
  match response e with
  | Some r => status r =? n
  | None => false
  end.

(** The response interceptor, rejected branch: the store actions that the
    resolved dynamic import runs; the error is rejected again in every
    case. *)
Definition on_rejected (e : AxiosError) : list AuthStore.Action * AxiosError :=
  (if status_is 401 e then [AuthStore.AHandleTokenExpiration] else [], e).

(** The response interceptor, fulfilled branch: the identity. *)
Definition on_fulfilled (r : Response) : Response := r.

(** Delivery of a response through the interceptor pair. axios settles a
    response by its default [validateStatus]: a status in 200..299
    fulfils, any other rejects with the response attached. *)
Definition deliver (r : Response) (msg : string)
  : list AuthStore.Action * (AxiosError + Response) :=
  if (200 <=? status r) && (status r <? 300)
  then ([], inr (on_fulfilled r))
  else let '(acts, e) := on_rejected (mkAxiosError (Some r) msg) in
       (acts, inl e).

(** [pdfAPI.processPDF(file, timeLimit)]: the request it posts. *)
Definition processPDF (file : File) (timeLimit : Z) : Request :=
  mkRequest POST "/process-pdf"
    (FormData [("file", FormFile file);
               ("time_limit", FormString (Js.toString timeLimit))])
    [("Content-Type", "multipart/form-data")]
    Json.

(** [historyAPI.downloadPDF(historyId)]: the request it issues. *)
Definition downloadPDF (historyId : Z) : Request :=
  mkRequest GET ("/download-pdf/" +:+ Js.toString historyId)
    NoBody [] Blob.

End Api.

(** ** stores/pricingStore.ts *)

Module PricingStore.

Inductive PlanType := free | starter | unlimited.

#[global] Instance PlanType_eq_dec : EqDecision PlanType.
Proof. solve_decision. Defined.

Record UserQuota := mkUserQuota {
  plan_type : PlanType;
  pdfs_used : Z;
  pdf_limit : option Z;
  can_process : bool;
  message : string
}.

(** The fields of the store that the quota actions read and write. *)
Record State := mkState {
  userQuota : option UserQuota;
  isLoading : bool;
  error : option string
}.

Definition initial : State := mkState None false None.

(** The outcome of [GET /pricing/user-quota]: an axios error, or the
    response body (which the callers test for null). *)
Definition FetchOutcome : Type := Api.AxiosError + option UserQuota.

(** [fetchUserQuota]: the final store, and what the promise settles to. *)
Definition fetchUserQuota (o : FetchOutcome) (s : State)
  : State * FetchOutcome :=
  match o with
  | inr data => (mkState data false None, inr data)
  | inl e => (mkState (userQuota s) false (Some "Failed to load user quota"), inl e)
  end.

(** The test that App and ProcessingLoader both write out:
    [q && q.plan_type === 'free' && q.pdf_limit !== null &&
     q.pdfs_used >= q.pdf_limit]. *)
Definition out_of_free_pdfs (q : option UserQuota) : bool :=
  match q with
  | Some q =>
      bool_decide (plan_type q = free) &&
      match pdf_limit q with
      | Some limit => pdfs_used q >=? limit
      | None => false
      end
  | None => false
  end.

(** [userQuota && userQuota.plan_type === 'free'] *)
Definition is_free (q : option UserQuota) : bool :=
  match q with
  | Some q => bool_decide (plan_type q = free)
  | None => false
  end.

(** [userQuota && userQuota.plan_type !== 'free'] *)
Definition is_paid (q : option UserQuota) : bool :=
  match q with
  | Some q => bool_decide (plan_type q <> free)
  | None => false
  end.

End PricingStore.

(** ** components/TimeSelector.tsx *)

Module TimeSelector.

Inductive Icon := Zap | Target | Star | BookOpen.

Record TimeOption := mkTimeOption {
  minutes : Z;
  title : string;
  description : string;
  icon : Icon;
  color : string;
  bgColor : string;
  borderColor : string;
  textColor : string
}.

Definition timeOptions : list TimeOption := [
  mkTimeOption 10 "Quick Review" "Essential highlights and key points"
    Zap "from-[#3BE8B0] to-[#2BC8A0]" "bg-[#0B0F1A]/60" "border-[#2B3A55]"
    "text-[#3BE8B0]";
  mkTimeOption 20 "Focused Study" "Core concepts with detailed summaries"
    Target "from-[#7AA0FF] to-[#5ED3F3]" "bg-[#0B0F1A]/60" "border-[#2B3A55]"
    "text-[#7AA0FF]";
  mkTimeOption 30 "Deep Dive" "Comprehensive analysis with quiz"
    Star "from-[#D877F9] to-[#B85EF3]" "bg-[#0B0F1A]/60" "border-[#2B3A55]"
    "text-[#D877F9]";
  mkTimeOption 60 "Master Class"
    "Complete understanding with minimal summarization"
    BookOpen "from-[#7B61FF] to-[#5ED3F3]" "bg-[#0B0F1A]/60" "border-[#2B3A55]"
    "text-[#7B61FF]"
].

(** One rendered button: its key, whether it is drawn as selected, its
    label, and the argument its click passes to [onTimeSelect]. *)
Record Button := mkButton {
  key : Z;
  isSelected : bool;
  label : Z;
  onClick : Z
}.

Definition render (selectedTime : option Z) : list Button :=
  (fun option =>
     mkButton (minutes option)
              (bool_decide (selectedTime = Some (minutes option)))
              (minutes option)
              (minutes option)) <$> timeOptions.

(** A click on the [i]-th button: the call to [onTimeSelect], if there is
    such a button. *)
Definition click (selectedTime : option Z) (i : nat) : option Z :=
  onClick <$> render selectedTime !! i.

End TimeSelector.

(** ** components/FileUpload.tsx *)

Module FileUpload.

Inductive Effect :=
| PreventDefault
| StopPropagation
| SetDragActive (b : bool)
| OnFileSelect (f : File).

(** [files && files[0]] *)
Definition first_file (files : option (list File)) : option File :=
  files ≫= head.

(** [handleDrop], on the event's [dataTransfer.files]. *)
Definition handleDrop (files : option (list File)) : list Effect :=
  [PreventDefault; StopPropagation; SetDragActive false] ++
  match first_file files with
  | Some f =>
      if bool_decide (file_type f = "application/pdf")
      then [OnFileSelect f] else []
  | None => []
  end.

(** [handleFileSelect], the change handler of the hidden file input, on
    the event's [target.files]. *)
Definition handleFileSelect (files : option (list File)) : list Effect :=
  match first_file files with
  | Some f => [OnFileSelect f]
  | None => []
  end.

(** The files a handler run forwarded to [onFileSelect]. *)
Definition forwarded (t : list Effect) : list File :=
  omap (fun e => match e with OnFileSelect f => Some f | _ => None end) t.

End FileUpload.

(** ** The response of [POST /process-pdf], as the components read it *)

Module Wire.

Record OutlineItem := mkOutlineItem {
  o_title : string;
  o_page_number : Z;
  o_reading_time_minutes : float
}.

(** [headings] and [keywords] are read with [?.] and [||]: they may be
    absent. *)
Record Chunk := mkChunk {
  text : string;
  page_number : Z;
  word_count : Z;
  reading_time_minutes : float;
  importance_score : float;
  headings : option (list string);
  keywords : option (list string)
}.

Record KeyPoint := mkKeyPoint {
  point : string;
  category : string;
  kp_warning : option string
}.

Record QuizQuestion := mkQuizQuestion {
  question : string;
  options : option (list string);
  correct_answer : string;
  explanation : option string
}.

Record ProcessedData := mkProcessedData {
  outline : option (list OutlineItem);
  condensed_content : option (list Chunk);
  key_points : option (list KeyPoint);
  total_reading_time_minutes : option float;
  total_word_count : Z;
  quiz : option (list QuizQuestion);
  original_filename : string;
  processing_notes : option (list string);
  key_points_warning : option string
}.

End Wire.

(** ** components/StudyPack.tsx *)

Module StudyPack.

(** The props that decide what is shown. [timeLimit] only feeds the
    header's minutes label and the name of the saved file, and
    [onStartOver] is the click of the last button. *)
Record Props := mkProps {
  fileName : string;
  processedData : option Wire.ProcessedData;
  historyId : option Z
}.

Record State := mkState {
  expandedSections : list nat;
  showQuiz : bool;
  downloading : bool
}.

Definition initial : State := mkState [0%nat] false false.

Definition toggleSection (index : nat) (s : State) : State :=
  mkState
    (if bool_decide (index ∈ expandedSections s)
     then filter (fun i => i <> index) (expandedSections s)
     else expandedSections s ++ [index])
    (showQuiz s) (downloading s).

(** *** handleDownload *)

Inductive Effect :=
| Alert (msg : string)
| SetDownloading (b : bool)
| Send (r : Api.Request)
| SaveBlob
| ConsoleError.

(** [outcome] is what [historyAPI.downloadPDF] settles to; it is only
    consulted when the request is made. *)
Definition handleDownload (historyId : option Z) (outcome : Api.AxiosError + unit)
  : list Effect :=
  match historyId with
  | Some hid =>
      if Js.truthy_num hid then
        [SetDownloading true; Send (Api.downloadPDF hid)] ++
        match outcome with
        | inr _ => [SaveBlob]
        | inl _ => [ConsoleError; Alert "Failed to download PDF"]
        end ++
        [SetDownloading false]
      else [Alert "Download not available for this session"]
  | None => [Alert "Download not available for this session"]
  end.

(** The requests a handler run issued. *)
Definition requests (t : list Effect) : list Api.Request :=
  omap (fun e => match e with Send r => Some r | _ => None end) t.

(** The [disabled] attribute of the download button. *)
Definition download_disabled (downloading : bool) (historyId : option Z)
    (userQuota : option PricingStore.UserQuota) : bool :=
  downloading || negb (Js.truthy_opt_num historyId)
  || PricingStore.is_free userQuota.

(** *** The data extracted from the response *)

Record PackSection := mkSection {
  title : string;
  importance : string;
  content : string;
  keyPoints : list string;
  readingTime : float
}.

(** [s > 0.7 ? 'High' : s > 0.4 ? 'Medium' : 'Low'] *)
Definition importance_of (s : float) : string :=
  if PrimFloat.ltb 0.7%float s then "High"
  else if PrimFloat.ltb 0.4%float s then "Medium"
  else "Low".

(** [chunk.headings?.[0]] *)
Definition first_heading (chunk : Wire.Chunk) : option string :=
  Wire.headings chunk ≫= head.

(** The callback of [condensed_content.map]. *)
Definition section_of (index : nat) (chunk : Wire.Chunk) : PackSection :=
  mkSection
    (Js.or_str (first_heading chunk)
               ("Section " +:+ Js.toString (Z.of_nat index + 1)))
    (importance_of (Wire.importance_score chunk))
    (Wire.text chunk)
    (Js.or_nil (Wire.keywords chunk))
    (Wire.reading_time_minutes chunk).

Definition outline (pd : option Wire.ProcessedData) : list string :=
  Js.or_nil (fmap (M:=list) Wire.o_title <$> (pd ≫= Wire.outline)).

Definition sections (pd : option Wire.ProcessedData) : list PackSection :=
  Js.or_nil (imap section_of <$> (pd ≫= Wire.condensed_content)).

Definition keyTakeaways (pd : option Wire.ProcessedData) : list Wire.KeyPoint :=
  Js.or_nil (pd ≫= Wire.key_points).

Definition quiz (pd : option Wire.ProcessedData) : list Wire.QuizQuestion :=
  Js.or_nil (pd ≫= Wire.quiz).

Definition processingNotes (pd : option Wire.ProcessedData) : list string :=
  Js.or_nil (pd ≫= Wire.processing_notes).

Definition getImportanceColor (importance : string) : string :=
  if bool_decide (importance = "High") then "bg-red-100 text-red-700 border-red-200"
  else if bool_decide (importance = "Medium") then "bg-yellow-100 text-yellow-700 border-yellow-200"
  else if bool_decide (importance = "Low") then "bg-green-100 text-green-700 border-green-200"
  else "bg-gray-100 text-gray-700 border-gray-200".

(** *** The rendered page *)

(** One entry of the Must-Read list: the section, the colour of its
    badge, whether it is expanded, and the key points listed when it is
    ([slice(0, 5)]). *)
Record SectionView := mkSectionView {
  sv_section : PackSection;
  sv_badge : string;
  sv_expanded : bool;
  sv_points : list string
}.

Definition view_section (st : State) (index : nat) (s : PackSection) : SectionView :=
  mkSectionView s (getImportanceColor (importance s))
    (bool_decide (index ∈ expandedSections st))
    (take 5 (keyPoints s)).

(** The blocks of the page, top to bottom. An empty outline or section
    list is drawn as a placeholder inside its block. *)
Inductive Block :=
| Header (fileName : string) (disabled : bool) (label : string) (subscribeHint : bool)
| StudyOutline (items : list string)
| MustReadSections (views : list SectionView)
| KeyTakeaways (warning : option string) (items : list Wire.KeyPoint)
| KeyTakeawaysUpgradeNotice
| ProcessingNotes (notes : list string)
| KnowledgeCheck (shown : bool) (questions : list Wire.QuizQuestion)
| QuizUpgradeNotice
| StartOverButton.

(** [cond && <block/>] *)
Definition when (cond : bool) (b : Block) : list Block :=
  if cond then [b] else [].

Definition nonempty {A} (l : list A) : bool :=
  match l with [] => false | _ => true end.

Definition render (p : Props) (st : State)
    (userQuota : option PricingStore.UserQuota) : list Block :=
  let pd := processedData p in
  [ Header (fileName p)
      (download_disabled (downloading st) (historyId p) userQuota)
      (if downloading st then "Downloading..." else "Download PDF")
      (PricingStore.is_free userQuota);
    StudyOutline (outline pd);
    MustReadSections (imap (view_section st) (sections pd)) ]
  ++ when (PricingStore.is_paid userQuota && nonempty (keyTakeaways pd))
       (KeyTakeaways (pd ≫= Wire.key_points_warning) (keyTakeaways pd))
  ++ when (PricingStore.is_free userQuota) KeyTakeawaysUpgradeNotice
  ++ when (nonempty (processingNotes pd)) (ProcessingNotes (processingNotes pd))
  ++ when (PricingStore.is_paid userQuota && nonempty (quiz pd))
       (KnowledgeCheck (showQuiz st) (quiz pd))
  ++ when (PricingStore.is_free userQuota) QuizUpgradeNotice
  ++ [StartOverButton].

Definition is_KeyTakeaways (b : Block) : bool :=
  match b with KeyTakeaways _ _ => true | _ => false end.

Definition is_KnowledgeCheck (b : Block) : bool :=
  match b with KnowledgeCheck _ _ => true | _ => false end.

End StudyPack.

(** ** components/History.tsx *)

Module History.

(** [handleDownload(item.id, item.original_filename)], the click of a
    history row's download button; [filename] only names the saved file. *)
Definition handleDownload (historyId : Z) (filename : string)
    (outcome : Api.AxiosError + unit) : list StudyPack.Effect :=
  [StudyPack.Send (Api.downloadPDF historyId)] ++
  match outcome with
  | inr _ => [StudyPack.SaveBlob]
  | inl _ => [StudyPack.ConsoleError; StudyPack.Alert "Failed to download PDF"]
  end.

End History.

(** ** components/ProcessingLoader.tsx *)

Module ProcessingLoader.

Inductive Effect :=
| SetError (e : option string)
| SetIsProcessing (b : bool)
| SetShowSubscribeModal (b : bool)
| SetProgress (p : Z)
| SetCurrentStep (n : Z)
| FetchUserQuota
| Send (r : Api.Request)
| ConsoleError
| OnComplete (data : Wire.ProcessedData)
| SetTimeout (ms : Z) (callback : list Effect)
| Rejected (e : Api.AxiosError).

Definition out_of_pdfs_message : string :=
  "You have used all your free PDFs. Please upgrade to continue.".

(** The [catch] block of [processPDF]. *)
Definition on_catch (err : Api.AxiosError) : list Effect :=
  if Api.status_is 403 err then
    [SetShowSubscribeModal true;
     SetError (Some (Js.or_str (Api.response err ≫= Api.detail)
                               out_of_pdfs_message));
     SetIsProcessing false]
  else
    [ConsoleError;
     SetError (Some (Js.or_str (Api.response err ≫= Api.detail)
                       (Js.or_str (Some (Api.err_message err))
                                  "Failed to process PDF")));
     SetIsProcessing false].

(** [processPDF], the function the mount effect schedules. [userQuota] is
    the value the component read from the pricing store when it
    rendered: both tests below read this captured value, not what the
    awaited [fetchUserQuota] returns. [fetch1], [upload] and [fetch2] are
    what the three awaited calls settle to; each is consulted only if
    control reaches its call. The first [await] stands outside the [try]:
    its rejection rejects [processPDF]. *)
Definition processPDF
    (userQuota : option PricingStore.UserQuota)
    (selectedFile : File) (selectedTime : Z)
    (fetch1 : PricingStore.FetchOutcome)
    (upload : Api.AxiosError + Wire.ProcessedData)
    (fetch2 : PricingStore.FetchOutcome) : list Effect :=
  [SetError None; FetchUserQuota] ++
  match fetch1 with
  | inl e => [Rejected e]
  | inr _ =>
      if PricingStore.out_of_free_pdfs userQuota then
        [SetShowSubscribeModal true; SetIsProcessing false]
      else
        [Send (Api.processPDF selectedFile selectedTime)] ++
        match upload with
        | inl err => on_catch err
        | inr data =>
            [SetProgress 100; SetCurrentStep 3; FetchUserQuota] ++
            match fetch2 with
            | inl err => on_catch err
            | inr _ =>
                (if PricingStore.out_of_free_pdfs userQuota
                 then [SetShowSubscribeModal true] else []) ++
                [SetTimeout 1000 [OnComplete data; SetIsProcessing false]]
            end
        end
  end.

(** What one execution of an effect body comes to. *)
Inductive Execution :=
| Threw
| Ran (effects : list Effect).

(** One execution of the body of the first effect. React executes it
    after the mount and again after every render in which one of
    [selectedFile], [selectedTime], [onComplete], [fetchUserQuota] and
    [userQuota] has changed, the pending timer of the execution before
    being cleared. [setIsProcessing] is a prop: [passed] tells whether
    the parent gave it. When it did not, the first statement calls
    [undefined], and the body throws before it schedules [processPDF];
    [processPDF] above is therefore a run under a parent that passes the
    prop. *)
Definition effect_body (passed : bool)
    (userQuota : option PricingStore.UserQuota)
    (selectedFile : File) (selectedTime : Z)
    (fetch1 : PricingStore.FetchOutcome)
    (upload : Api.AxiosError + Wire.ProcessedData)
    (fetch2 : PricingStore.FetchOutcome) : Execution :=
  if passed then
    Ran [SetIsProcessing true;
         SetTimeout 1000
           (processPDF userQuota selectedFile selectedTime fetch1 upload fetch2)]
  else Threw.

(** The requests a run sent, those of its timer callbacks included. *)
Fixpoint requests_of (e : Effect) : list Api.Request :=
  match e with
  | Send r => [r]
  | SetTimeout _ callback => flat_map requests_of callback
  | _ => []
  end.

Definition requests (t : list Effect) : list Api.Request :=
  flat_map requests_of t.

End ProcessingLoader.

(** ** App.tsx *)

Module App.

Inductive AppState :=
| upload | time_select | processing | results | history | history_item
| auth_required | pricing | subscription.

#[global] Instance AppState_eq_dec : EqDecision AppState.
Proof. solve_decision. Defined.

Record State := mkState {
  currentState : AppState;
  selectedFile : option File;
  selectedTime : option Z;
  processedData : option Wire.ProcessedData;
  currentHistoryId : option Z;
  loadingHistoryItem : bool;
  historyItemData : option Wire.ProcessedData;
  showSubscribeModal : bool;
  quotaError : option string
}.

Definition initial : State :=
  mkState upload None None None None false None false None.

Definition setCurrentState (c : AppState) (s : State) : State :=
  mkState c (selectedFile s) (selectedTime s) (processedData s)
    (currentHistoryId s) (loadingHistoryItem s) (historyItemData s)
    (showSubscribeModal s) (quotaError s).
Definition setSelectedFile (f : option File) (s : State) : State :=
  mkState (currentState s) f (selectedTime s) (processedData s)
    (currentHistoryId s) (loadingHistoryItem s) (historyItemData s)
    (showSubscribeModal s) (quotaError s).
Definition setSelectedTime (t : option Z) (s : State) : State :=
  mkState (currentState s) (selectedFile s) t (processedData s)
    (currentHistoryId s) (loadingHistoryItem s) (historyItemData s)
    (showSubscribeModal s) (quotaError s).
Definition setProcessedData (d : option Wire.ProcessedData) (s : State) : State :=
  mkState (currentState s) (selectedFile s) (selectedTime s) d
    (currentHistoryId s) (loadingHistoryItem s) (historyItemData s)
    (showSubscribeModal s) (quotaError s).
Definition setCurrentHistoryId (h : option Z) (s : State) : State :=
  mkState (currentState s) (selectedFile s) (selectedTime s) (processedData s)
    h (loadingHistoryItem s) (historyItemData s)
    (showSubscribeModal s) (quotaError s).
Definition setLoadingHistoryItem (b : bool) (s : State) : State :=
  mkState (currentState s) (selectedFile s) (selectedTime s) (processedData s)
    (currentHistoryId s) b (historyItemData s)
    (showSubscribeModal s) (quotaError s).
Definition setHistoryItemData (d : option Wire.ProcessedData) (s : State) : State :=
  mkState (currentState s) (selectedFile s) (selectedTime s) (processedData s)
    (currentHistoryId s) (loadingHistoryItem s) d
    (showSubscribeModal s) (quotaError s).
Definition setShowSubscribeModal (b : bool) (s : State) : State :=
  mkState (currentState s) (selectedFile s) (selectedTime s) (processedData s)
    (currentHistoryId s) (loadingHistoryItem s) (historyItemData s)
    b (quotaError s).
Definition setQuotaError (e : option string) (s : State) : State :=
  mkState (currentState s) (selectedFile s) (selectedTime s) (processedData s)
    (currentHistoryId s) (loadingHistoryItem s) (historyItemData s)
    (showSubscribeModal s) e.

(** The component state together with the two stores it reads. *)
Record World := mkWorld {
  auth : AuthStore.AuthState;
  quota : PricingStore.State;
  app : State
}.

Definition initial_world : World :=
  mkWorld AuthStore.initial PricingStore.initial initial.

Definition on_app (f : State -> State) (w : World) : World :=
  mkWorld (auth w) (quota w) (f (app w)).

Definition free_pdfs_used_message : string :=
  "You have used all 3 free PDFs. Please purchase a plan to continue.".

(** [handleFileSelect]. [o] is what the quota request settles to. The
    test reads the value [fetchUserQuota] returned. *)
Definition handleFileSelect (file : File) (o : PricingStore.FetchOutcome)
    (w : World) : World :=
  let '(store, settled) := PricingStore.fetchUserQuota o (quota w) in
  mkWorld (auth w) store
    match settled with
    | inr q =>
        if PricingStore.out_of_free_pdfs q then
          setShowSubscribeModal true
            (setQuotaError (Some free_pdfs_used_message) (app w))
        else if negb (AuthStore.isAuthenticated (auth w)) then
          setCurrentState auth_required
            (setSelectedFile (Some file) (app w))
        else
          setCurrentState time_select
            (setSelectedFile (Some file) (app w))
    | inl _ =>
        setShowSubscribeModal true
          (setQuotaError (Some "An error occurred. Please try again.") (app w))
    end.

Definition handleTimeSelect (time : Z) (s : State) : State :=
  setCurrentState processing (setSelectedTime (Some time) s).

Definition handleProcessingComplete (data : Wire.ProcessedData) (s : State) : State :=
  setCurrentState results (setProcessedData (Some data) s).

Definition handleStartOver (s : State) : State :=
  setCurrentHistoryId None
    (setProcessedData None
       (setSelectedTime None
          (setSelectedFile None
             (setCurrentState upload s)))).

Definition handleShowHistory (w : World) : World :=
  if negb (AuthStore.isAuthenticated (auth w))
  then on_app (setCurrentState auth_required) w
  else on_app (setCurrentState history) w.

Definition handleViewHistoryItem (historyId : Z) (s : State) : State :=
  setCurrentState history_item (setCurrentHistoryId (Some historyId) s).

Definition handleBackFromHistory : State -> State := setCurrentState upload.

Definition handleAuthSuccess (s : State) : State :=
  match selectedFile s with
  | Some _ => setCurrentState time_select s
  | None => setCurrentState upload s
  end.

Definition removeFile (s : State) : State :=
  setCurrentState upload (setSelectedFile None s).

(** [loadHistoryItem], on what [historyAPI.getHistoryItem] settles to. *)
Definition loadHistoryItem (o : Api.AxiosError + Wire.ProcessedData)
    (s : State) : State :=
  if Js.truthy_opt_num (currentHistoryId s) then
    setLoadingHistoryItem false
      match o with
      | inr data => setHistoryItemData (Some data) (setLoadingHistoryItem true s)
      | inl _ => setCurrentState history (setLoadingHistoryItem true s)
      end
  else s.

Definition handleShowPricing : State -> State := setCurrentState pricing.
Definition handleShowSubscription : State -> State := setCurrentState subscription.
Definition handleBackFromPricing : State -> State := setCurrentState upload.
Definition handleBackFromSubscription : State -> State := setCurrentState upload.

Definition handlePricingClick (hasActiveSubscription : bool) : State -> State :=
  if hasActiveSubscription then handleShowSubscription else handleShowPricing.

(** What can happen to the page: the callbacks its children invoke, the
    buttons it draws itself, and store updates made elsewhere. *)
Inductive Event :=
| FileSelected (file : File) (o : PricingStore.FetchOutcome)
| FileRemoved
| TimeButtonClicked (i : nat)
| ProcessingCompleted (data : Wire.ProcessedData)
| StartOverClicked
| ShowHistoryClicked
| HistoryItemViewed (historyId : Z)
| HistoryItemLoaded (o : Api.AxiosError + Wire.ProcessedData)
| HistoryItemClosed
| BackFromHistory
| AuthSucceeded
| GoTo (c : AppState)
| PricingClicked (hasActiveSubscription : bool)
| ModalViewPlans
| ModalMaybeLater
| AuthChanged (a : AuthStore.Action)
| QuotaFetched (o : PricingStore.FetchOutcome).

(** The inline [setCurrentState] buttons of the page: Cancel, the logo
    and Home go to [upload], Login goes to [auth_required]. *)
Definition inline_target (c : AppState) : bool :=
  bool_decide (c = upload) || bool_decide (c = auth_required).

(** One event. A time button reaches [handleTimeSelect] only through
    [TimeSelector]; the [rendered] guards of the JSX are left out, so the
    states reachable here include all those of the page. *)
Definition step (e : Event) (w : World) : World :=
  match e with
  | FileSelected file o => handleFileSelect file o w
  | FileRemoved => on_app removeFile w
  | TimeButtonClicked i =>
      match TimeSelector.click (selectedTime (app w)) i with
      | Some time => on_app (handleTimeSelect time) w
      | None => w
      end
  | ProcessingCompleted data => on_app (handleProcessingComplete data) w
  | StartOverClicked => on_app handleStartOver w
  | ShowHistoryClicked => handleShowHistory w
  | HistoryItemViewed h => on_app (handleViewHistoryItem h) w
  | HistoryItemLoaded o => on_app (loadHistoryItem o) w
  | HistoryItemClosed => on_app (setCurrentState history) w
  | BackFromHistory => on_app handleBackFromHistory w
  | AuthSucceeded => on_app handleAuthSuccess w
  | GoTo c => if inline_target c then on_app (setCurrentState c) w else w
  | PricingClicked b => on_app (handlePricingClick b) w
  | ModalViewPlans =>
      on_app (fun s => setCurrentState pricing (setShowSubscribeModal false s)) w
  | ModalMaybeLater => on_app (setShowSubscribeModal false) w
  | AuthChanged a => mkWorld (AuthStore.run a (auth w)) (quota w) (app w)
  | QuotaFetched o =>
      mkWorld (auth w) (fst (PricingStore.fetchUserQuota o (quota w))) (app w)
  end.

Definition run (es : list Event) (w : World) : World :=
  fold_left (fun w e => step e w) es w.

(** The ProcessingLoader the page mounts: drawn when
    [currentState === 'processing' && selectedFile && selectedTime], with
    the quota the pricing store holds at that render. The page passes it
    [onComplete], [selectedFile] and [selectedTime], and no
    [setIsProcessing]. *)
Definition mounted_loader (w : World)
  : option (option PricingStore.UserQuota * File * Z) :=
  match currentState (app w), selectedFile (app w), selectedTime (app w) with
  | processing, Some file, Some time =>
      if Js.truthy_num time
      then Some (PricingStore.userQuota (quota w), file, time)
      else None
  | _, _, _ => None
  end.

End App.

(** ** The selection pipeline (backend/pdf_processor.py)

    The backend's sources are not part of the tree that is verified here:
    the definitions of this module follow the written specification of the
    pipeline, component by component. Scores and reading times are
    binary64 numbers, as the specification gives them (sections 3 and 6).
    The heuristic components (text extraction, chunking, scoring, the two
    language-model calls, word counting, paraphrasing and caveat detection)
    are parameters of the pipeline. *)

Module Pipeline.

Local Open Scope float_scope.

(** Modelled from the spec: the Chunk of section 3, the unit of selection.
    Its estimated reading time is derived from the word count below. *)
Record Chunk := mkChunk {
  text : string;
  page_number : nat;
  word_count : nat;
  headings : list string;
  keywords : list string;
  importance_score : float
}.

(** Modelled from the spec: the configuration the hosting environment
    supplies (section 6). *)
Record Config := mkConfig {
  words_per_minute : float;
  condense_ceiling : float;
  max_summary_input : nat;
  key_point_count : nat;
  high_importance : float
}.

(** Modelled from the spec: a word count as a binary64 number, for the
    division of section 3; the conversion is exact below 2^53. *)
Definition float_of_nat (n : nat) : float :=
  PrimFloat.of_uint63 (Uint63.of_Z (Z.of_nat n)).

(** Modelled from the spec: estimated reading time, word count divided by
    the configured reading speed (section 3). *)
Definition reading_time (cfg : Config) (c : Chunk) : float :=
  float_of_nat (word_count c) / words_per_minute cfg.

(** Modelled from the spec: a total estimated reading time (section 3),
    the sum of the reading times taken from left to right. *)
Definition sum_in_order (cfg : Config) (l : list Chunk) : float :=
  fold_left (fun acc c => acc + reading_time cfg c) l 0.

Definition total_words (l : list Chunk) : nat :=
  foldr (fun c acc => (word_count c + acc)%nat) 0%nat l.

(** Modelled from the spec: the stable sort that section 4.4 asks for. An
    element is put before the first element it is not after, so elements
    that compare equal keep their order. *)
Fixpoint insert_by {A} (le : A -> A -> bool) (x : A) (l : list A) : list A :=
  match l with
  | [] => [x]
  | y :: l' => if le x y then x :: y :: l' else y :: insert_by le x l'
  end.

Definition sort_by {A} (le : A -> A -> bool) (l : list A) : list A :=
  foldr (insert_by le) [] l.

(** A candidate: a chunk with its position in the document. *)
Definition Candidate : Type := nat * Chunk.

Definition indexed (chunks : list Chunk) : list Candidate := imap pair chunks.

Definition by_score_desc (a b : Candidate) : bool :=
  importance_score (snd b) <=? importance_score (snd a).

Definition by_position (a b : Candidate) : bool := (fst a <=? fst b)%nat.

(** Modelled from the spec: the SelectionResult of section 3. The total
    estimated reading time is the selector's bookkeeping: the running
    total of its greedy pass. *)
Record SelectionResult := mkSelectionResult {
  selected : list Chunk;
  total_reading_time : float;
  total_word_count : nat;
  warnings : list string
}.

Definition budget_too_small_warning : string :=
  "The time budget was too small for any complete chunk.".

(** Modelled from the spec: the greedy pass of the Budget Selector
    (section 4.4). Candidates are taken in the given order; one is
    accepted while the running total stays at or under the budget, and
    one that would exceed it is skipped and the pass goes on. The pass
    yields what it accepted, in the order of acceptance, and its running
    total. *)
Fixpoint accept (cfg : Config) (budget total : float) (cands : list Candidate)
  : list Candidate * float :=
  match cands with
  | [] => ([], total)
  | c :: rest =>
      let total' := total + reading_time cfg (snd c) in
      if total' <=? budget
      then let pass := accept cfg budget total' rest in
           (c :: fst pass, snd pass)
      else accept cfg budget total rest
  end.

(** The first candidate of least reading time. *)
Fixpoint smallest (cfg : Config) (cands : list Candidate) : option Candidate :=
  match cands with
  | [] => None
  | c :: rest =>
      match smallest cfg rest with
      | Some m =>
          if reading_time cfg (snd c) <=? reading_time cfg (snd m)
          then Some c else Some m
      | None => Some c
      end
  end.

(** Modelled from the spec: the Budget Selector (section 4.4). When the
    smallest chunk already exceeds the budget it is selected alone, with
    a warning. Otherwise the chunks are ranked by score, highest first
    and ties in document order, the greedy pass runs over the ranking,
    and what it accepted is put back into document order. *)
Definition select (cfg : Config) (budget : float) (chunks : list Chunk)
  : SelectionResult :=
  match smallest cfg (indexed chunks) with
  | Some m =>
      if reading_time cfg (snd m) <=? budget then
        let pass :=
          accept cfg budget 0 (sort_by by_score_desc (indexed chunks)) in
        let chosen := snd <$> sort_by by_position (fst pass) in
        mkSelectionResult chosen (snd pass) (total_words chosen) []
      else
        mkSelectionResult [snd m] (reading_time cfg (snd m))
          (word_count (snd m)) [budget_too_small_warning]
  | None => mkSelectionResult [] 0 0 []
  end.

(** Modelled from the spec: the terminal failures of the Text Extractor
    (section 4.1). *)
Inductive ExtractionError :=
| InvalidPdf | Unreadable | NoExtractableText.

(** Modelled from the spec: how a call to the external language-model
    service can end without a result (sections 4.5 and 5): it fails, or
    its timeout expires. *)
Inductive CallFailure :=
| CallFailed (reason : string)
| CallTimedOut.

(** Modelled from the spec: what a stage of the pipeline can raise, the
    extractor's terminal error (section 4.1) or the failure of an
    external call (section 7). *)
Inductive PipelineError :=
| Extraction (e : ExtractionError)
| ExternalCall (f : CallFailure).

(** Modelled from the spec: a stage either raises or returns, and a
    raise passes through every later stage unless it is caught
    (section 7, propagation policy). *)
Definition Result : Type -> Type := sum PipelineError.

#[global] Instance Result_ret : MRet Result := fun A a => inr a.

#[global] Instance Result_bind : MBind Result := fun A B f r =>
  match r with
  | inl e => inl e
  | inr a => f a
  end.

(** Modelled from the spec: local recovery (section 7), the handler runs
    on what the body raised. *)
Definition catch {A} (body : Result A) (handler : PipelineError -> Result A)
  : Result A :=
  match body with
  | inl e => handler e
  | inr a => inr a
  end.

(** Modelled from the spec: an external call inside the pipeline
    (section 5); a call that ends without a result raises. *)
Definition external {A} (outcome : CallFailure + A) : Result A :=
  match outcome with
  | inl f => inl (ExternalCall f)
  | inr a => inr a
  end.

Definition extraction {A} (outcome : ExtractionError + A) : Result A :=
  match outcome with
  | inl e => inl (Extraction e)
  | inr a => inr a
  end.

Inductive Category := normal | important | warning.

Record OutlineItem := mkOutlineItem {
  o_title : string;
  o_page_number : nat
}.

Record KeyPoint := mkKeyPoint {
  point : string;
  category : Category
}.

Record QuizQuestion := mkQuizQuestion {
  question : string;
  options : list string;
  correct_answer : string;
  explanation : string
}.

(** Modelled from the spec: the StudyPack of section 3. *)
Record StudyPack := mkStudyPack {
  outline : list OutlineItem;
  condensed_content : list Chunk;
  key_points : list KeyPoint;
  quiz : list QuizQuestion;
  pack_reading_time : float;
  pack_word_count : nat;
  original_filename : string;
  processing_notes : list string
}.

Definition condensation_skipped_note : string :=
  "Summarization was unavailable: a section is shown in full.".

Definition quiz_skipped_note : string :=
  "Quiz generation was unavailable.".

Section Run.

Variable cfg : Config.

(** The Text Extractor: the pages of a PDF, or a terminal error. *)
Variable extract : list Byte.byte -> ExtractionError + list (nat * string).
(** The Chunker. *)
Variable chunker : list (nat * string) -> list Chunk.
(** The Importance Scorer: the score of a chunk within its document. *)
Variable score : list Chunk -> Chunk -> float.
(** The summarization call, with how it ended. *)
Variable summarize : string -> CallFailure + string.
(** The quiz call, with how it ended. *)
Variable generate_quiz : list Chunk -> CallFailure + list QuizQuestion.
Variable count_words : string -> nat.
Variable paraphrase : Chunk -> string.
Variable has_caveat : string -> bool.

Definition with_score (s : float) (c : Chunk) : Chunk :=
  mkChunk (text c) (page_number c) (word_count c) (headings c) (keywords c) s.

Definition score_all (chunks : list Chunk) : list Chunk :=
  (fun c => with_score (score chunks c) c) <$> chunks.

(** Modelled from the spec: a chunk is handed to the Condenser when its
    reading time exceeds the per-chunk ceiling (section 4.5). *)
Definition oversized (c : Chunk) : bool :=
  condense_ceiling cfg <? reading_time cfg c.

(** Modelled from the spec: the text sent to the summarizer, cut to the
    maximum input length (section 4.5). *)
Definition summary_input (c : Chunk) : string :=
  String.substring 0 (max_summary_input cfg) (text c).

(** Modelled from the spec: the chunk that replaces [c] when its summary
    came back (section 4.5): shortened text, same headings and keywords,
    word count taken again. *)
Definition shortened (c : Chunk) (short : string) : Chunk :=
  mkChunk short (page_number c) (count_words short)
    (headings c) (keywords c) (importance_score c).

(** Modelled from the spec: the Condenser (section 4.5). It catches what
    the summarization call raises: the chunk is then returned as it was,
    with a note. *)
Definition condense (c : Chunk) : Result (Chunk * list string) :=
  if oversized c then
    catch
      (short ← external (summarize (summary_input c));
       mret (shortened c short, []))
      (fun _ => mret (c, [condensation_skipped_note]))
  else mret (c, []).

(** Modelled from the spec: what the Condenser returns for a chunk, by
    how the call ended (section 4.5). *)
Definition condensed (c : Chunk) : Chunk * list string :=
  if oversized c then
    match summarize (summary_input c) with
    | inr short => (shortened c short, [])
    | inl _ => (c, [condensation_skipped_note])
    end
  else (c, []).

(** Modelled from the spec: the outline, one entry for each distinct
    heading, in document order (section 4.6). *)
Fixpoint outline_of (seen : list string) (l : list (string * nat))
  : list OutlineItem :=
  match l with
  | [] => []
  | (h, p) :: rest =>
      if bool_decide (h ∈ seen) then outline_of seen rest
      else mkOutlineItem h p :: outline_of (h :: seen) rest
  end.

Definition headings_of (chunks : list Chunk) : list (string * nat) :=
  chunks ≫= (fun c => (fun h => (h, page_number c)) <$> headings c).

(** Modelled from the spec: the key points, from the top-K chunks by
    importance (section 4.6). *)
Definition key_point_of (c : Chunk) : KeyPoint :=
  mkKeyPoint (paraphrase c)
    (if has_caveat (text c) then warning
     else if high_importance cfg <? importance_score c
          then important else normal).

Definition key_points_of (chunks : list Chunk) : list KeyPoint :=
  key_point_of <$>
    take (key_point_count cfg)
      (snd <$> sort_by by_score_desc (indexed chunks)).

(** Modelled from the spec: quiz generation (section 4.6), with the
    fallback of the Condenser: a call that raises leaves an empty quiz
    and a note. *)
Definition make_quiz (allow_quiz : bool) (chunks : list Chunk)
  : Result (list QuizQuestion * list string) :=
  if allow_quiz then
    catch
      (qs ← external (generate_quiz chunks); mret (qs, []))
      (fun _ => mret ([], [quiz_skipped_note]))
  else mret ([], []).

(** Modelled from the spec: the Pack Assembler (section 4.6). *)
Definition assemble (filename : string) (allow_key_points : bool)
    (sel : SelectionResult) (condensed : list (Chunk * list string))
    (quiz_result : list QuizQuestion * list string) : StudyPack :=
  let chunks := fst <$> condensed in
  mkStudyPack
    (outline_of [] (headings_of chunks))
    chunks
    (if allow_key_points then key_points_of chunks else [])
    (fst quiz_result)
    (sum_in_order cfg chunks)
    (total_words chunks)
    filename
    (warnings sel ++ (condensed ≫= snd) ++ snd quiz_result).

(** Modelled from the spec: the pipeline Extract, Chunk, Score, Select,
    Condense, Assemble (section 4). *)
Definition run (pdf : list Byte.byte) (filename : string) (budget : float)
    (allow_key_points allow_quiz : bool) : Result StudyPack :=
  pages ← extraction (extract pdf);
  let sel := select cfg budget (score_all (chunker pages)) in
  condensed ← mapM condense (selected sel);
  quiz_result ← make_quiz allow_quiz (fst <$> condensed);
  mret (assemble filename allow_key_points sel condensed quiz_result).

End Run.

End Pipeline.

(** ** services/api.ts: the request interceptor *)

Module RequestInterceptor.

(** What [localStorage.getItem('auth-storage')] yields once it is parsed.
    [Malformed] is a text on which [JSON.parse] throws, or whose value has
    no readable [state] (the thrown error is caught and logged);
    [Parsed state] is a value whose [state] member is [state]. The item
    itself is absent, or the empty string, when the outer option is
    [None]. *)
Inductive Stored :=
| Malformed
| Parsed (state : option AuthStore.Persisted).

(** zustand's [persist] keeps under the store's name the object
    [{ state: partialize(state), version }]. *)
Definition persisted (s : AuthStore.AuthState) : option Stored :=
  Some (Parsed (Some (AuthStore.partialize s))).

(** [headers[k]] *)
Fixpoint get_header (k : string) (h : list (string * string)) : option string :=
  match h with
  | [] => None
  | (k', v) :: rest => if String.eqb k k' then Some v else get_header k rest
  end.

(** [headers[k] = v]: the member is overwritten where it stands, or added. *)
Fixpoint set_header (k v : string) (h : list (string * string))
  : list (string * string) :=
  match h with
  | [] => [(k, v)]
  | (k', v') :: rest =>
      if String.eqb k k' then (k, v) :: rest
      else (k', v') :: set_header k v rest
  end.

(** The fulfilled branch of the request interceptor. *)
Definition on_request (authStorage : option Stored) (config : Api.Request)
  : Api.Request :=
  match authStorage with
  | Some (Parsed state) =>
      match state ≫= AuthStore.p_token with
      | Some token =>
          if Js.truthy_str token then
            Api.mkRequest (Api.method config) (Api.url config) (Api.body config)
              (set_header "Authorization" ("Bearer " +:+ token) (Api.headers config))
              (Api.responseType config)
          else config
      | None => config
      end
  | Some Malformed => config
  | None => config
  end.

End RequestInterceptor.

(** ** stores/settingsStore.ts *)

Module SettingsStore.

Inductive FontSize := small | medium | large.
Inductive Theme := light | dark | auto.

Record UserSettings := mkUserSettings {
  darkMode : bool;
  readingSpeed : Z;
  autoDownload : bool;
  showNotifications : bool;
  fontSize : FontSize;
  theme : Theme
}.

Definition defaultSettings : UserSettings :=
  mkUserSettings false 250 false true medium auto.

Definition toggleDarkMode (s : UserSettings) : UserSettings :=
  mkUserSettings (negb (darkMode s)) (readingSpeed s) (autoDownload s)
    (showNotifications s) (fontSize s) (theme s).
Definition setReadingSpeed (speed : Z) (s : UserSettings) : UserSettings :=
  mkUserSettings (darkMode s) speed (autoDownload s)
    (showNotifications s) (fontSize s) (theme s).
Definition setAutoDownload (enabled : bool) (s : UserSettings) : UserSettings :=
  mkUserSettings (darkMode s) (readingSpeed s) enabled
    (showNotifications s) (fontSize s) (theme s).
Definition setShowNotifications (enabled : bool) (s : UserSettings) : UserSettings :=
  mkUserSettings (darkMode s) (readingSpeed s) (autoDownload s)
    enabled (fontSize s) (theme s).
Definition setFontSize (size : FontSize) (s : UserSettings) : UserSettings :=
  mkUserSettings (darkMode s) (readingSpeed s) (autoDownload s)
    (showNotifications s) size (theme s).
Definition setTheme (t : Theme) (s : UserSettings) : UserSettings :=
  mkUserSettings (darkMode s) (readingSpeed s) (autoDownload s)
    (showNotifications s) (fontSize s) t.
Definition resetSettings (s : UserSettings) : UserSettings := defaultSettings.

Inductive Action :=
| ToggleDarkMode
| SetReadingSpeed (speed : Z)
| SetAutoDownload (enabled : bool)
| SetShowNotifications (enabled : bool)
| SetFontSize (size : FontSize)
| SetTheme (t : Theme)
| ResetSettings.

Definition run (a : Action) : UserSettings -> UserSettings :=
  match a with
  | ToggleDarkMode => toggleDarkMode
  | SetReadingSpeed speed => setReadingSpeed speed
  | SetAutoDownload enabled => setAutoDownload enabled
  | SetShowNotifications enabled => setShowNotifications enabled
  | SetFontSize size => setFontSize size
  | SetTheme t => setTheme t
  | ResetSettings => resetSettings
  end.

Definition run_all (l : list Action) (s : UserSettings) : UserSettings :=
  fold_left (fun s a => run a s) l s.

End SettingsStore.

(** ** App.tsx: the appearance effect *)

Module Appearance.

(** What the effect leaves on the document's root element: the font size
    and whether the class [dark] is set. *)
Record Root := mkRoot {
  font_size : string;
  dark_class : bool
}.

(** The effect that runs when [settings.theme] or [settings.fontSize]
    changes. [prefersDark] is what the media query
    [(prefers-color-scheme: dark)] answers. The class is added or removed,
    so what was on the root before does not matter. *)
Definition apply (settings : SettingsStore.UserSettings) (prefersDark : bool)
  : Root :=
  mkRoot
    match SettingsStore.fontSize settings with
    | SettingsStore.small => "14px"
    | SettingsStore.large => "18px"
    | SettingsStore.medium => "16px"
    end
    match SettingsStore.theme settings with
    | SettingsStore.dark => true
    | SettingsStore.auto => prefersDark
    | SettingsStore.light => false
    end.

End Appearance.

(** ** components/GoogleLogin.tsx *)

Module GoogleLogin.

(** The body of a successful [POST /auth/google]. *)
Record AuthResult := mkAuthResult {
  result_user : AuthStore.User;
  access_token : string
}.

(** [handleCredentialResponse], on what [authAPI.googleAuth] settles to:
    the store actions it runs, in order, and whether it calls [onSuccess]
    ([onSuccess] tells whether the prop was given). *)
Definition handleCredentialResponse
    (o : Api.AxiosError + AuthResult) (onSuccess : bool)
  : list AuthStore.Action * bool :=
  match o with
  | inr result =>
      ([AuthStore.ASetLoading true; AuthStore.ASetError None;
        AuthStore.ALogin (result_user result) (access_token result);
        AuthStore.ASetLoading false],
       onSuccess)
  | inl e =>
      ([AuthStore.ASetLoading true; AuthStore.ASetError None;
        AuthStore.ASetError
          (Some (Js.or_str (Api.response e ≫= Api.detail) "Authentication failed"));
        AuthStore.ASetLoading false],
       false)
  end.

(** The body of a [POST /auth/google] that was answered with success, as
    it comes: [response.data] is not checked, so either field may be
    missing. *)
Record AuthBody := mkAuthBody {
  body_user : option AuthStore.User;
  body_access_token : option string
}.

(** [handleCredentialResponse] on any answer: the calls it makes on the
    store, in order. A success without a body makes [result.user] throw
    inside the [try]; that error has no [response]. *)
Definition credential_calls (o : Api.AxiosError + option AuthBody)
  : list AuthStore.Call :=
  [AuthStore.CSetLoading true; AuthStore.CSetError None] ++
  match o with
  | inr (Some result) =>
      [AuthStore.CLogin (body_user result) (body_access_token result)]
  | inr None => [AuthStore.CSetError (Some "Authentication failed")]
  | inl e =>
      [AuthStore.CSetError
         (Some (Js.or_str (Api.response e ≫= Api.detail) "Authentication failed"))]
  end ++
  [AuthStore.CSetLoading false].

End GoogleLogin.

(** ** stores/pricingStore.ts: the whole store *)

Module PricingActions.

Record PricingPlan := mkPricingPlan {
  plan_id : string;
  plan_name : string;
  price : Z;
  plan_pdf_limit : option Z;
  features : list string;
  popular : bool
}.

Record SubscriptionStatus := mkSubscriptionStatus {
  has_subscription : bool;
  status_plan_type : string;
  status : option string;
  current_period_start : option string;
  current_period_end : option string;
  cancel_at_period_end : option bool;
  days_remaining : option Z;
  status_message : string
}.

Record CouponValidation := mkCouponValidation {
  valid : bool;
  discount_amount : Z;
  coupon_message : string
}.

Record SubscriptionOrder := mkSubscriptionOrder {
  subscription_id : option string;
  customer_id : option string;
  order_plan_id : option string;
  order_status : option string;
  current_start : option Z;
  current_end : option Z;
  key : option string;
  prefill : option (string * string);
  is_free : option bool;
  order_id : option string;
  order_message : option string
}.

Record Store := mkStore {
  plans : option (list (string * PricingPlan));
  userQuota : option PricingStore.UserQuota;
  subscriptionStatus : option SubscriptionStatus;
  selectedPlan : string;
  couponCode : string;
  couponValidation : option CouponValidation;
  isLoading : bool;
  error : option string
}.

Definition initial : Store := mkStore None None None "" "" None false None.

(** [set({ isLoading: true, error: null })], the first statement of every
    request action. *)
Definition begin (s : Store) : Store :=
  mkStore (plans s) (userQuota s) (subscriptionStatus s) (selectedPlan s)
    (couponCode s) (couponValidation s) true None.

(** [set({ error: msg, isLoading: false })], the [catch] of every request
    action. *)
Definition failed (msg : string) (s : Store) : Store :=
  mkStore (plans s) (userQuota s) (subscriptionStatus s) (selectedPlan s)
    (couponCode s) (couponValidation s) false (Some msg).

(** [set({ isLoading: false })] *)
Definition done_loading (s : Store) : Store :=
  mkStore (plans s) (userQuota s) (subscriptionStatus s) (selectedPlan s)
    (couponCode s) (couponValidation s) false (error s).

(** What the promise of an action rejects with: the error of its failed
    request, or the TypeError of reading a field of a body that is
    [null] or [undefined]. *)
Inductive Thrown :=
| RequestError (e : Api.AxiosError)
| BodyTypeError.

(** The body of [GET /pricing/plans]. *)
Record PlansBody := mkPlansBody {
  body_plans : option (list (string * PricingPlan))
}.

(** Each request action is given what its request settles to and yields
    the store it leaves; the actions that rethrow also yield what their
    promise settles to. A request that succeeded settles to the body of
    its response, [None] when there is none. [fetchPlans] and
    [createSubscription] read a field of the body inside their [try]:
    without a body that read throws, and the [catch] runs. *)
Definition fetchPlans (o : Api.AxiosError + option PlansBody) (s : Store)
  : Store :=
  match o with
  | inr (Some body) =>
      let s := begin s in
      mkStore (body_plans body) (userQuota s) (subscriptionStatus s)
        (selectedPlan s) (couponCode s) (couponValidation s) false (error s)
  | inr None => failed "Failed to load pricing plans" (begin s)
  | inl _ => failed "Failed to load pricing plans" (begin s)
  end.

Definition fetchUserQuota (o : PricingStore.FetchOutcome) (s : Store)
  : Store * PricingStore.FetchOutcome :=
  match o with
  | inr data =>
      let s := begin s in
      (mkStore (plans s) data (subscriptionStatus s) (selectedPlan s)
         (couponCode s) (couponValidation s) false (error s),
       inr data)
  | inl e => (failed "Failed to load user quota" (begin s), inl e)
  end.

Definition fetchSubscriptionStatus
    (o : Api.AxiosError + option SubscriptionStatus) (s : Store) : Store :=
  match o with
  | inr data =>
      let s := begin s in
      mkStore (plans s) (userQuota s) data (selectedPlan s)
        (couponCode s) (couponValidation s) false (error s)
  | inl _ => failed "Failed to load subscription status" (begin s)
  end.

Definition validateCoupon
    (o : Api.AxiosError + option CouponValidation) (s : Store) : Store :=
  match o with
  | inr data =>
      let s := begin s in
      mkStore (plans s) (userQuota s) (subscriptionStatus s) (selectedPlan s)
        (couponCode s) data false (error s)
  | inl _ => failed "Failed to validate coupon" (begin s)
  end.

Definition createSubscription
    (o : Api.AxiosError + option SubscriptionOrder) (s : Store)
  : Store * (Thrown + SubscriptionOrder) :=
  match o with
  | inr (Some order) => (done_loading (begin s), inr order)
  | inr None =>
      (failed "Failed to create subscription" (done_loading (begin s)),
       inl BodyTypeError)
  | inl e =>
      (failed "Failed to create subscription" (begin s), inl (RequestError e))
  end.

(** [post] is what the action's own request settles to and [refresh] what
    the status request of the nested [fetchSubscriptionStatus] settles to;
    the nested action does not rethrow. *)
Definition verifySubscription
    (post : Api.AxiosError + unit)
    (refresh : Api.AxiosError + option SubscriptionStatus) (s : Store)
  : Store * option Api.AxiosError :=
  match post with
  | inr _ => (done_loading (fetchSubscriptionStatus refresh (begin s)), None)
  | inl e => (failed "Failed to verify subscription" (begin s), Some e)
  end.

Definition cancelSubscription
    (post : Api.AxiosError + unit)
    (refresh : Api.AxiosError + option SubscriptionStatus) (s : Store)
  : Store * option Api.AxiosError :=
  match post with
  | inr _ => (done_loading (fetchSubscriptionStatus refresh (begin s)), None)
  | inl e => (failed "Failed to cancel subscription" (begin s), Some e)
  end.

Definition setSelectedPlan (plan : string) (s : Store) : Store :=
  mkStore (plans s) (userQuota s) (subscriptionStatus s) plan
    (couponCode s) (couponValidation s) (isLoading s) (error s).

Definition setCouponCode (code : string) (s : Store) : Store :=
  mkStore (plans s) (userQuota s) (subscriptionStatus s) (selectedPlan s)
    code (couponValidation s) (isLoading s) (error s).

Definition clearError (s : Store) : Store :=
  mkStore (plans s) (userQuota s) (subscriptionStatus s) (selectedPlan s)
    (couponCode s) (couponValidation s) (isLoading s) None.

(** A call of a request action, with what its requests settle to. *)
Inductive Call :=
| FetchPlans (o : Api.AxiosError + option PlansBody)
| FetchUserQuota (o : PricingStore.FetchOutcome)
| FetchSubscriptionStatus (o : Api.AxiosError + option SubscriptionStatus)
| ValidateCoupon (o : Api.AxiosError + option CouponValidation)
| CreateSubscription (o : Api.AxiosError + option SubscriptionOrder)
| VerifySubscription (post : Api.AxiosError + unit)
    (refresh : Api.AxiosError + option SubscriptionStatus)
| CancelSubscription (post : Api.AxiosError + unit)
    (refresh : Api.AxiosError + option SubscriptionStatus).

(** The store a call leaves, and what its promise rejects with, if it
    rejects. *)
Definition perform (c : Call) (s : Store) : Store * option Thrown :=
  match c with
  | FetchPlans o => (fetchPlans o s, None)
  | FetchUserQuota o =>
      let '(s', settled) := fetchUserQuota o s in
      (s', match settled with inl e => Some (RequestError e) | inr _ => None end)
  | FetchSubscriptionStatus o => (fetchSubscriptionStatus o s, None)
  | ValidateCoupon o => (validateCoupon o s, None)
  | CreateSubscription o =>
      let '(s', settled) := createSubscription o s in
      (s', match settled with inl t => Some t | inr _ => None end)
  | VerifySubscription post refresh =>
      let '(s', rejected) := verifySubscription post refresh s in
      (s', RequestError <$> rejected)
  | CancelSubscription post refresh =>
      let '(s', rejected) := cancelSubscription post refresh s in
      (s', RequestError <$> rejected)
  end.

(** What was thrown inside the [try] blocks of a call, in order: the
    errors of its failed requests, and the TypeError of a body that could
    not be read. *)
Definition thrown (c : Call) : list Thrown :=
  let request {A} (o : Api.AxiosError + A) : list Thrown :=
    match o with inl e => [RequestError e] | inr _ => [] end in
  let body_of {A} (o : Api.AxiosError + option A) : list Thrown :=
    match o with
    | inl e => [RequestError e]
    | inr None => [BodyTypeError]
    | inr (Some _) => []
    end in
  match c with
  | FetchPlans o => body_of o
  | FetchUserQuota o => request o
  | FetchSubscriptionStatus o => request o
  | ValidateCoupon o => request o
  | CreateSubscription o => body_of o
  | VerifySubscription post refresh
  | CancelSubscription post refresh =>
      match post with inl e => [RequestError e] | inr _ => request refresh end
  end.

(** The part of the store that the quota gate reads. *)
Definition quota_slice (s : Store) : PricingStore.State :=
  PricingStore.mkState (userQuota s) (isLoading s) (error s).

End PricingActions.

(** ** components/ProcessingLoader.tsx: the progress bar and the steps *)

Module LoaderTimers.

Definition steps : list (string * string) := [
  ("Analyzing PDF Structure",
   "Scanning headings, sections, and content hierarchy");
  ("AI Content Processing",
   "Identifying key concepts and important information");
  ("Generating Study Pack",
   "Creating personalized summaries and takeaways");
  ("Ready to Study!",
   "Your personalized study pack is complete")
].

(** The two counters, and whether the interval that drives each has not
    been cleared yet. *)
Record State := mkState {
  progress : Z;
  progress_timer : bool;
  currentStep : Z;
  step_timer : bool
}.

Definition initial : State := mkState 0 true 0 true.

Inductive Event :=
| ProgressTick       (* the 100 ms interval fires *)
| StepTick           (* the 1500 ms interval fires *)
| UploadCompleted.   (* [setProgress(100); setCurrentStep(3)] in processPDF *)

Definition step (e : Event) (st : State) : State :=
  match e with
  | ProgressTick =>
      if progress_timer st then
        if progress st >=? 90
        then mkState 90 false (currentStep st) (step_timer st)
        else mkState (progress st + 2) true (currentStep st) (step_timer st)
      else st
  | StepTick =>
      if step_timer st then
        if currentStep st <? Z.of_nat (length steps) - 2
        then mkState (progress st) (progress_timer st) (currentStep st + 1) true
        else mkState (progress st) (progress_timer st) (currentStep st) false
      else st
  | UploadCompleted =>
      mkState 100 (progress_timer st) 3 (step_timer st)
  end.

Definition run (es : list Event) (st : State) : State :=
  fold_left (fun st e => step e st) es st.

(** [if (error) return <Processing Failed/>] *)
Definition shows_failure (error : option string) : bool :=
  match error with Some e => Js.truthy_str e | None => false end.

End LoaderTimers.

(** ** App.tsx: what is on screen *)

Module Screen.

(** The TimeSelector is drawn in the main layout when the state is
    [time-select], unless the subscription modal replaces the content. *)
Definition time_selector_shown (w : App.World) : bool :=
  bool_decide (App.currentState (App.app w) = App.time_select)
  && negb (App.showSubscribeModal (App.app w)).

(** The worlds the page can be in: every event of [App.step] may occur at
    any time, except a click on a time button, which needs the
    TimeSelector on screen. *)
Inductive reachable : App.World -> Prop :=
| reachable_initial : reachable App.initial_world
| reachable_step (e : App.Event) (w : App.World) :
    reachable w ->
    (forall i, e = App.TimeButtonClicked i -> time_selector_shown w = true) ->
    reachable (App.step e w).

(** [<GoogleLogin onSuccess={handleAuthSuccess} />] settling on the
    sign-in screen: the store actions run, then the callback if it is
    called. *)
Definition credential_response
    (o : Api.AxiosError + GoogleLogin.AuthResult) (w : App.World) : App.World :=
  let '(actions, called) := GoogleLogin.handleCredentialResponse o true in
  let w' := App.mkWorld (AuthStore.run_all actions (App.auth w))
              (App.quota w) (App.app w) in
  if called then App.step App.AuthSucceeded w' else w'.

End Screen.

(** ** components/ProcessingLoader.tsx: reading a run *)

Module LoaderTrace.

(** The data a run passed to [onComplete], those of its timer callbacks
    included. *)
Fixpoint completions_of (e : ProcessingLoader.Effect) : list Wire.ProcessedData :=
  match e with
  | ProcessingLoader.OnComplete data => [data]
  | ProcessingLoader.SetTimeout _ callback => flat_map completions_of callback
  | _ => []
  end.

Definition completions (t : list ProcessingLoader.Effect)
  : list Wire.ProcessedData :=
  flat_map completions_of t.

(** The [error] state after the effects of a run, from [null]. *)
Definition error_after (t : list ProcessingLoader.Effect) : option string :=
  fold_left
    (fun error e =>
       match e with ProcessingLoader.SetError x => x | _ => error end)
    t None.

(** The [showSubscribeModal] state after the effects of a run, from the
    value it had before. *)
Definition modal_flag_after (t : list ProcessingLoader.Effect) (before : bool)
  : bool :=
  fold_left
    (fun flag e =>
       match e with ProcessingLoader.SetShowSubscribeModal b => b | _ => flag end)
    t before.

(** What the component returns: with an error, the Processing Failed
    screen and nothing else; without one, the progress page, and over it
    the subscription modal when [showSubscribeModal] is set. *)
Inductive Screen :=
| ProcessingFailed (msg : string)
| ProgressPage (subscribeModal : bool).

Definition render (error : option string) (showSubscribeModal : bool)
  : Screen :=
  match error with
  | Some (String c msg) => ProcessingFailed (String c msg)
  | _ => ProgressPage showSubscribeModal
  end.

End LoaderTrace.

(** ** components/StudyPack.tsx: cleanEquation *)

Module CleanEquation.

(** A text is the sequence of its UTF-8 bytes. The two patterns mention
    ASCII characters only, and no byte of a longer UTF-8 sequence is
    ASCII, so matching on bytes agrees with matching on characters. *)

Definition is_space (c : Ascii.ascii) : bool := Ascii.eqb c " "%char.

Definition is_newline (c : Ascii.ascii) : bool := Ascii.eqb c "010"%char.

(** The class [[=+\-*/^()\dA-Za-z,.]]. *)
Definition is_equation_char (c : Ascii.ascii) : bool :=
  let n := Ascii.N_of_ascii c in
  ((48 <=? n) && (n <=? 57))%N || ((65 <=? n) && (n <=? 90))%N
  || ((97 <=? n) && (n <=? 122))%N
  || existsb (Ascii.eqb c) ["="; "+"; "-"; "*"; "/"; "^"; "("; ")"; ","; "."]%char.

(** [.replace(/ {2,}/g, ' ')]: every maximal run of spaces becomes one
    space. [after_space] tells that the previous character was a space,
    which has been written. *)
Fixpoint collapse_spaces (after_space : bool) (s : string) : string :=
  match s with
  | EmptyString => EmptyString
  | String c rest =>
      if is_space c then
        if after_space then collapse_spaces true rest
        else String c (collapse_spaces true rest)
      else String c (collapse_spaces false rest)
  end.

(** Where the scan of the second pattern stands: outside a run of
    equation characters, inside a run that can still open a match, or
    inside a run that a match has taken as its second group. *)
Inductive Mode := Outside | InRun | InJoined.

(** [.replace(/(C+)\n(C+)/g, '$1 $2')] for the class C above. Both groups
    are greedy, so a match is a whole run, a line feed and the whole next
    run; the scan resumes after the second run, which therefore cannot
    open the next match. *)
Fixpoint join_lines (m : Mode) (s : string) : string :=
  match s with
  | EmptyString => EmptyString
  | String c rest =>
      if is_equation_char c then
        String c (join_lines (match m with Outside => InRun | _ => m end) rest)
      else if is_newline c
              && match m with InRun => true | _ => false end
              && match rest with
                 | String c' _ => is_equation_char c'
                 | EmptyString => false
                 end
      then String " "%char (join_lines InJoined rest)
      else String c (join_lines Outside rest)
  end.

Definition cleanEquation (text : string) : string :=
  join_lines Outside (collapse_spaces false text).

(** No two spaces in a row; [after_space] tells that a space precedes. *)
Fixpoint single_spaced (after_space : bool) (s : string) : bool :=
  match s with
  | EmptyString => true
  | String c rest =>
      if is_space c then negb after_space && single_spaced true rest
      else single_spaced false rest
  end.

(** The text holds no line feed. *)
Fixpoint one_line (s : string) : bool :=
  match s with
  | EmptyString => true
  | String c rest => negb (is_newline c) && one_line rest
  end.

End CleanEquation.

(** ** components/History.tsx: loading the list *)

Module HistoryList.

Record HistoryItem := mkHistoryItem {
  id : Z;
  original_filename : string;
  time_limit : Z;
  total_reading_time : float;
  total_word_count : Z;
  created_at : string
}.

Record State := mkState {
  history : list HistoryItem;
  loading : bool;
  error : option string
}.

Definition initial : State := mkState [] true None.

(** [setLoading(true)], the state while the request is pending. *)
Definition pending (s : State) : State := mkState (history s) true (error s).

(** [loadHistory], run on mount and by the Retry button; [o] is what
    [historyAPI.getUserHistory()] settles to, [response.history] on
    success. *)
Definition loadHistory (o : Api.AxiosError + list HistoryItem) (s : State)
  : State :=
  let s := pending s in
  match o with
  | inr items => mkState items false (error s)
  | inl err =>
      mkState (history s) false
        (Some (Js.or_str (Api.response err ≫= Api.detail)
                 "Failed to load history"))
  end.

Definition run (os : list (Api.AxiosError + list HistoryItem)) (s : State)
  : State :=
  fold_left (fun s o => loadHistory o s) os s.

(** What the component returns: the spinner, the error with its Retry
    button, or the list. *)
Inductive View :=
| Spinner
| ErrorView (msg : string)
| ListView (items : list HistoryItem).

Definition render (s : State) : View :=
  if loading s then Spinner
  else match error s with
       | Some msg => if Js.truthy_str msg then ErrorView msg
                     else ListView (history s)
       | None => ListView (history s)
       end.

Definition is_failure (o : Api.AxiosError + list HistoryItem) : bool :=
  match o with inl _ => true | inr _ => false end.

End HistoryList.

(** ** components/Subscription.tsx *)

Module Subscription.

Record State := mkState {
  store : PricingActions.Store;
  showCancelConfirm : bool
}.

Definition cancelled_at_period_end : string :=
  "Subscription will be cancelled at the end of the current period.".

Definition cancelled_immediately : string :=
  "Subscription cancelled immediately.".

Definition cancel_failed : string :=
  "Failed to cancel subscription. Please try again.".

(** [handleCancelSubscription(cancelAtPeriodEnd)]: the state it leaves and
    the text of its alert. [post] and [refresh] are what the two requests
    of the store's [cancelSubscription] settle to. *)
Definition handleCancelSubscription (cancelAtPeriodEnd : bool)
    (post : Api.AxiosError + unit)
    (refresh : Api.AxiosError + option PricingActions.SubscriptionStatus)
    (s : State) : State * string :=
  match PricingActions.cancelSubscription post refresh (store s) with
  | (store', None) =>
      (mkState store' false,
       if cancelAtPeriodEnd then cancelled_at_period_end
       else cancelled_immediately)
  | (store', Some _) => (mkState store' (showCancelConfirm s), cancel_failed)
  end.

(** The Retry button of the error screen: [clearError();
    fetchSubscriptionStatus()]. *)
Definition retry
    (o : Api.AxiosError + option PricingActions.SubscriptionStatus)
    (s : State) : State :=
  mkState
    (PricingActions.fetchSubscriptionStatus o
       (PricingActions.clearError (store s)))
    (showCancelConfirm s).

Inductive Button :=
| CancelSubscription
| CancelImmediately
| Back
| CancelAtPeriodEnd
| KeepSubscription.

(** [!!status.cancel_at_period_end] *)
Definition cancels_at_period_end (st : PricingActions.SubscriptionStatus)
  : bool :=
  match PricingActions.cancel_at_period_end st with
  | Some b => b
  | None => false
  end.

Definition card_buttons (st : PricingActions.SubscriptionStatus)
  : list Button :=
  (if PricingActions.has_subscription st && negb (cancels_at_period_end st)
   then [CancelSubscription] else []) ++
  (if PricingActions.has_subscription st && cancels_at_period_end st
   then [CancelImmediately] else []) ++
  [Back].

Inductive View :=
| Loading
| ErrorScreen (msg : string)
| NoData
| Page (status : PricingActions.SubscriptionStatus)
       (card : list Button) (modal : list Button).

Definition render (s : State) : View :=
  if PricingActions.isLoading (store s) then Loading
  else
    match PricingActions.error (store s) with
    | Some (String c msg) => ErrorScreen (String c msg)
    | _ =>
        match PricingActions.subscriptionStatus (store s) with
        | None => NoData
        | Some st =>
            Page st (card_buttons st)
              (if showCancelConfirm s
               then [CancelAtPeriodEnd; CancelImmediately; KeepSubscription]
               else [])
        end
    end.

End Subscription.

(** ** components/Pricing.tsx: handlePayment *)

Module Pricing.

(** What the checkout passes to its [handler] after a payment. *)
Record CheckoutResponse := mkCheckoutResponse {
  razorpay_payment_id : option string;
  razorpay_subscription_id : option string;
  razorpay_signature : option string
}.

Inductive Effect :=
| Alert (msg : string)
| ConsoleError
| SetIsProcessingPayment (b : bool)
| ClearError
| CreateSubscription (planType : string) (couponCode : option string)
| VerifySubscription (paymentId subscriptionId signature : option string)
    (planType : string)
| SetSelectedPlan (plan : string)
| SetCouponCode (code : string)
| SetShowCouponInput (b : bool)
| FetchSubscriptionStatus
| OpenCheckout (key subscription_id : option string) (description : string)
    (prefill : option (string * string))
    (handler : option CheckoutResponse -> option Api.AxiosError -> list Effect)
    (ondismiss : list Effect).

(** [couponCode || undefined] *)
Definition coupon_argument (couponCode : string) : option string :=
  if Js.truthy_str couponCode then Some couponCode else None.

(** [if (subscriptionData.is_free)] *)
Definition order_is_free (order : PricingActions.SubscriptionOrder) : bool :=
  match PricingActions.is_free order with
  | Some b => b
  | None => false
  end.

(** The [catch] and [finally] blocks of [handlePayment]. *)
Definition on_catch : list Effect :=
  [ConsoleError; Alert "Failed to initiate payment. Please try again.";
   SetIsProcessingPayment false].

Definition verification_failed : string :=
  "Subscription verification failed. Please contact support.".

(** The [handler] of the checkout options, which the checkout calls after
    a payment. [response] is its argument: reading a field of a response
    that is [null] or [undefined] throws inside the [try]. [rejected] is
    what the store's [verifySubscription] rejects with, if it rejects. *)
Definition payment_handler (plan : PricingActions.PricingPlan)
    (response : option CheckoutResponse) (rejected : option Api.AxiosError)
  : list Effect :=
  match response with
  | Some r =>
      [VerifySubscription (razorpay_payment_id r) (razorpay_subscription_id r)
         (razorpay_signature r) (PricingActions.plan_id plan)] ++
      match rejected with
      | None =>
          [Alert "Subscription activated successfully!";
           SetSelectedPlan ""; SetCouponCode ""; SetShowCouponInput false]
      | Some _ => [Alert verification_failed]
      end
  | None => [Alert verification_failed]
  end.

(** [modal.ondismiss] of the checkout options. *)
Definition on_dismiss : list Effect := [SetIsProcessingPayment false].

(** [handlePayment(plan)]. [created] is what the store's
    [createSubscription] settles to. [checkout_loaded] tells whether the
    checkout script has defined [window.Razorpay]; when it has not,
    [new window.Razorpay(options)] throws inside the [try]. The first
    test stands before the [try], so its [return] skips the [finally];
    the [return] of the free branch does not. *)
Definition handlePayment (user : option AuthStore.User)
    (plan : PricingActions.PricingPlan) (couponCode : string)
    (created : PricingActions.Thrown + PricingActions.SubscriptionOrder)
    (checkout_loaded : bool) : list Effect :=
  match user with
  | None => [Alert "Please login to purchase a plan"]
  | Some _ =>
      [SetIsProcessingPayment true; ClearError;
       CreateSubscription (PricingActions.plan_id plan)
         (coupon_argument couponCode)] ++
      match created with
      | inl _ => on_catch
      | inr order =>
          if order_is_free order then
            [Alert (Js.or_str (PricingActions.order_message order)
                      "Free plan activated successfully!");
             SetSelectedPlan ""; SetCouponCode ""; SetShowCouponInput false;
             FetchSubscriptionStatus;
             SetIsProcessingPayment false;
             SetIsProcessingPayment false]
          else if checkout_loaded then
            [OpenCheckout (PricingActions.key order)
               (PricingActions.subscription_id order)
               (PricingActions.plan_name plan +:+ " - Monthly Subscription")
               (PricingActions.prefill order)
               (payment_handler plan) on_dismiss;
             SetIsProcessingPayment false]
          else on_catch
      end
  end.

End Pricing.

(** * Properties *)

Example toString_60 : Js.toString 60 = "60".
Proof. reflexivity. Qed.

(** ** The 401 interceptor and the auth store *)

Section AuthReset.
Import AuthStore.

Lemma handleTokenExpiration_persisted (s : AuthState) :
  partialize (handleTokenExpiration s) = mkPersisted None None false.
Proof. reflexivity. Qed.

Lemma handleTokenExpiration_keeps_loading (s : AuthState) :
  isLoading (handleTokenExpiration s) = isLoading s.
Proof. reflexivity. Qed.

Lemma on_rejected_401 (e : Api.AxiosError) :
  Api.status_is 401 e = true ->
  Api.on_rejected e = ([AHandleTokenExpiration], e).
Proof. unfold Api.on_rejected. now intros ->. Qed.

Lemma on_rejected_other (e : Api.AxiosError) :
  Api.status_is 401 e = false -> Api.on_rejected e = ([], e).
Proof. unfold Api.on_rejected. now intros ->. Qed.

Lemma deliver_401 (r : Api.Response) (msg : string) :
  Api.status r = 401 ->
  Api.deliver r msg =
    ([AHandleTokenExpiration], inl (Api.mkAxiosError (Some r) msg)).
Proof.
  intros H. unfold Api.deliver. rewrite H.
  rewrite on_rejected_401; [reflexivity |].
  unfold Api.status_is. cbn. now rewrite H.
Qed.

End AuthReset.

(** C10: whenever a response with status 401 arrives through the API
    client, the interceptor runs the store's token-expiration action: after
    it the user and the token are null, isAuthenticated is false and the
    error is the session-expired message, so the persisted slice of the
    state (user, token, isAuthenticated) holds nothing of the old session.
    The request still fails with the same error. *)
Theorem unauthorized_response_resets_auth
    (r : Api.Response) (msg : string) (s : AuthStore.AuthState) :
  Api.status r = 401 ->
  let '(actions, settled) := Api.deliver r msg in
  let s' := AuthStore.run_all actions s in
  AuthStore.user s' = None /\
  AuthStore.token s' = None /\
  AuthStore.isAuthenticated s' = false /\
  AuthStore.error s' = Some "Your session has expired. Please sign in again." /\
  AuthStore.partialize s' = AuthStore.mkPersisted None None false /\
  settled = inl (Api.mkAxiosError (Some r) msg).
Proof.
  intros H. rewrite (deliver_401 r msg H). cbn. repeat split.
Qed.

Lemma unauthorized_response_resets_auth_witness :
  let r := Api.mkResponse 401 (Some "Could not validate credentials") in
  let s := AuthStore.login
             (AuthStore.mkUser 7 "ada@example.org" "Ada" None "2025-01-01")
             "eyJhbGciOi" AuthStore.initial in
  Api.status r = 401 /\
  AuthStore.token s = Some "eyJhbGciOi" /\
  AuthStore.token
    (AuthStore.run_all (fst (Api.deliver r "Request failed")) s) = None.
Proof.
  split; [reflexivity | split; [reflexivity |]].
  pose proof (unauthorized_response_resets_auth
                (Api.mkResponse 401 (Some "Could not validate credentials"))
                "Request failed"
                (AuthStore.login
                   (AuthStore.mkUser 7 "ada@example.org" "Ada" None "2025-01-01")
                   "eyJhbGciOi" AuthStore.initial)
                eq_refl) as H.
  cbv beta iota zeta in H.
  destruct (Api.deliver _ _) as [actions settled].
  exact (proj1 (proj2 H)).
Defined.

(** ** FileUpload: the drop zone and the file picker *)

Section Upload.
Import FileUpload.

Lemma forwarded_handleDrop (files : option (list File)) :
  forwarded (handleDrop files) =
    match first_file files with
    | Some f => if bool_decide (file_type f = "application/pdf") then [f] else []
    | None => []
    end.
Proof.
  unfold handleDrop. destruct (first_file files) as [f|]; [| reflexivity].
  now destruct (bool_decide _).
Qed.

Lemma forwarded_handleFileSelect (files : option (list File)) :
  forwarded (handleFileSelect files) =
    match first_file files with Some f => [f] | None => [] end.
Proof. unfold handleFileSelect. now destruct (first_file files). Qed.

End Upload.

(** C8: a dropped file reaches onFileSelect exactly when it is the first
    file of the drop and its type is 'application/pdf'; a file chosen in
    the browse dialog reaches onFileSelect whenever it is the first chosen
    file, whatever its type. So some file that is not a PDF is forwarded by
    the picker and dropped without a trace by the drop zone. *)
Theorem drop_checks_type_picker_does_not :
  (forall files f,
      f ∈ FileUpload.forwarded (FileUpload.handleDrop files) <->
      FileUpload.first_file files = Some f /\ file_type f = "application/pdf") /\
  (forall files f,
      f ∈ FileUpload.forwarded (FileUpload.handleFileSelect files) <->
      FileUpload.first_file files = Some f) /\
  (exists f,
      file_type f <> "application/pdf" /\
      FileUpload.handleFileSelect (Some [f]) = [FileUpload.OnFileSelect f] /\
      FileUpload.handleDrop (Some [f]) =
        [FileUpload.PreventDefault; FileUpload.StopPropagation;
         FileUpload.SetDragActive false]).
Proof.
  split; [| split].
  - intros files f. rewrite forwarded_handleDrop.
    destruct (FileUpload.first_file files) as [g|].
    + case_bool_decide as Hty.
      * rewrite list_elem_of_singleton. split.
        -- now intros ->.
        -- intros [[= ->] _]. reflexivity.
      * split; [intros H; inversion H |].
        intros [[= ->] H]. contradiction.
    + split; [intros H; inversion H | intros [[=] _]].
  - intros files f. rewrite forwarded_handleFileSelect.
    destruct (FileUpload.first_file files) as [g|].
    + rewrite list_elem_of_singleton. split; [now intros -> | now intros [= ->]].
    + split; [intros H; inversion H | intros [=]].
  - exists (mkFile "notes.txt" "text/plain" 2048).
    split; [discriminate | split; reflexivity].
Qed.

(** ** StudyPack: download *)

Section Download.
Import StudyPack.

Lemma handleDownload_requests (h : option Z) (o : Api.AxiosError + unit) :
  requests (handleDownload h o) =
    match h with
    | Some hid => if Js.truthy_num hid then [Api.downloadPDF hid] else []
    | None => []
    end.
Proof.
  destruct h as [hid|]; [| reflexivity]. unfold handleDownload.
  destruct (Js.truthy_num hid); [| reflexivity]. now destruct o.
Qed.

End Download.

(** C9: handleDownload issues no download request without a history id:
    with an undefined id it only alerts 'Download not available for this
    session', and every request it does issue is the download of the id it
    was given; the other download button of the frontend, on a history
    row, requests the row's own id. The study pack's download button is
    disabled whenever a download is in progress, or there is no history id,
    or the quota's plan is 'free'. *)
Theorem download_needs_history_id
    (downloading : bool) (historyId : option Z)
    (userQuota : option PricingStore.UserQuota) (o : Api.AxiosError + unit) :
  (historyId = None ->
     StudyPack.handleDownload historyId o =
       [StudyPack.Alert "Download not available for this session"]) /\
  (forall r, r ∈ StudyPack.requests (StudyPack.handleDownload historyId o) ->
     exists hid, historyId = Some hid /\ r = Api.downloadPDF hid) /\
  (forall item_id filename,
     StudyPack.requests (History.handleDownload item_id filename o) =
       [Api.downloadPDF item_id]) /\
  (downloading = true \/ historyId = None \/
   (exists q, userQuota = Some q /\ PricingStore.plan_type q = PricingStore.free) ->
     StudyPack.download_disabled downloading historyId userQuota = true).
Proof.
  split; [| split; [| split]].
  - now intros ->.
  - intros r. rewrite handleDownload_requests.
    destruct historyId as [hid|]; [| intros H; inversion H].
    destruct (Js.truthy_num hid); [| intros H; inversion H].
    rewrite list_elem_of_singleton. intros ->. now exists hid.
  - intros item_id filename. unfold History.handleDownload. now destruct o.
  - unfold StudyPack.download_disabled.
    intros [-> | [-> | (q & -> & Hq)]].
    + reflexivity.
    + now rewrite orb_true_r.
    + simpl. rewrite bool_decide_eq_true_2 by exact Hq. now rewrite orb_true_r.
Qed.

Lemma download_needs_history_id_witness :
  StudyPack.handleDownload None (inr tt) =
    [StudyPack.Alert "Download not available for this session"] /\
  StudyPack.download_disabled false (Some 12)
    (Some (PricingStore.mkUserQuota PricingStore.free 1 (Some 3) true "2 left")) = true.
Proof.
  split.
  - exact (proj1 (download_needs_history_id false None None (inr tt)) eq_refl).
  - apply (proj2 (proj2 (proj2 (download_needs_history_id false (Some 12)
             (Some (PricingStore.mkUserQuota PricingStore.free 1 (Some 3) true "2 left"))
             (inr tt))))).
    right. right. eexists. split; reflexivity.
Defined.


(** ** StudyPack: the plan gates *)

Section PlanGates.
Import StudyPack.

Lemma is_free_Some (q : PricingStore.UserQuota) :
  PricingStore.plan_type q = PricingStore.free ->
  PricingStore.is_free (Some q) = true /\ PricingStore.is_paid (Some q) = false.
Proof.
  intros H. unfold PricingStore.is_free, PricingStore.is_paid.
  rewrite bool_decide_eq_true_2 by exact H.
  rewrite bool_decide_eq_false_2 by (intros Hne; now apply Hne). done.
Qed.

Lemma is_paid_Some (q : PricingStore.UserQuota) :
  PricingStore.plan_type q <> PricingStore.free ->
  PricingStore.is_free (Some q) = false /\ PricingStore.is_paid (Some q) = true.
Proof.
  intros H. unfold PricingStore.is_free, PricingStore.is_paid.
  rewrite bool_decide_eq_false_2 by exact H.
  rewrite bool_decide_eq_true_2 by exact H. done.
Qed.

Lemma nonempty_true {A} (l : list A) : l <> [] -> nonempty l = true.
Proof. now destruct l. Qed.

End PlanGates.

(** C5: on a rendered study pack, when the user's quota has plan 'free'
    no block of the page is the Key Takeaways section or the quiz section,
    whatever the response's key_points and quiz hold, and the two upgrade
    notices are on the page; when the plan is not 'free', the Key Takeaways
    section is on the page, with the response's key_points, whenever
    key_points is a non-empty list, the quiz section, with the response's
    quiz, whenever quiz is a non-empty list, and neither upgrade notice
    is. *)
Theorem plan_gates
    (p : StudyPack.Props) (st : StudyPack.State) (q : PricingStore.UserQuota) :
  let page := StudyPack.render p st (Some q) in
  (PricingStore.plan_type q = PricingStore.free ->
     Forall (fun b => StudyPack.is_KeyTakeaways b = false /\
                      StudyPack.is_KnowledgeCheck b = false) page /\
     StudyPack.KeyTakeawaysUpgradeNotice ∈ page /\
     StudyPack.QuizUpgradeNotice ∈ page) /\
  (PricingStore.plan_type q <> PricingStore.free ->
     (forall pd kps,
        StudyPack.processedData p = Some pd ->
        Wire.key_points pd = Some kps -> kps <> [] ->
        StudyPack.KeyTakeaways (Wire.key_points_warning pd) kps ∈ page) /\
     (forall pd qs,
        StudyPack.processedData p = Some pd ->
        Wire.quiz pd = Some qs -> qs <> [] ->
        StudyPack.KnowledgeCheck (StudyPack.showQuiz st) qs ∈ page) /\
     (StudyPack.KeyTakeawaysUpgradeNotice ∉ page) /\
     (StudyPack.QuizUpgradeNotice ∉ page)).
Proof.
  cbv zeta. unfold StudyPack.render. split.
  - intros Hfree. destruct (is_free_Some q Hfree) as [-> ->]. cbn [andb].
    unfold StudyPack.when.
    destruct (StudyPack.nonempty (StudyPack.processingNotes _)); cbn.
    + split; [repeat constructor |].
      split; [do 3 right; left | do 5 right; left].
    + split; [repeat constructor |].
      split; [do 3 right; left | do 4 right; left].
  - intros Hpaid. destruct (is_paid_Some q Hpaid) as [-> ->]. cbn [andb].
    split; [| split; [| split]].
    + intros pd kps Hpd Hkps Hne. rewrite Hpd.
      unfold StudyPack.keyTakeaways. cbn [mbind option_bind]. rewrite Hkps.
      cbn [Js.or_nil]. rewrite (nonempty_true _ Hne).
      unfold StudyPack.when at 1. cbn. do 3 right. left.
    + intros pd qs Hpd Hqs Hne. rewrite Hpd.
      unfold StudyPack.quiz. cbn [mbind option_bind]. rewrite Hqs.
      cbn [Js.or_nil]. rewrite (nonempty_true _ Hne).
      rewrite !elem_of_app. right. right. right. right. left. left.
    + unfold StudyPack.when.
      rewrite !elem_of_app, !elem_of_cons.
      intros [[H | [H | [H | H]]] | [H | [H | [H | [H | [H | H]]]]]];
        try discriminate H; try (now inversion H);
        repeat match type of H with
               | _ ∈ (if ?c then _ else _) => destruct c
               end;
        try (now inversion H);
        apply list_elem_of_singleton in H; discriminate H.
    + unfold StudyPack.when.
      rewrite !elem_of_app, !elem_of_cons.
      intros [[H | [H | [H | H]]] | [H | [H | [H | [H | [H | H]]]]]];
        try discriminate H; try (now inversion H);
        repeat match type of H with
               | _ ∈ (if ?c then _ else _) => destruct c
               end;
        try (now inversion H);
        apply list_elem_of_singleton in H; discriminate H.
Qed.

Lemma plan_gates_witness :
  let kp := Wire.mkKeyPoint "Entropy never decreases." "important" None in
  let qq := Wire.mkQuizQuestion "What is entropy?" (Some ["A"; "B"]) "A" None in
  let pd := Wire.mkProcessedData None None (Some [kp]) None 120 (Some [qq])
              "thermo.pdf" None None in
  let p := StudyPack.mkProps "thermo.pdf" (Some pd) (Some 4) in
  let free_q := PricingStore.mkUserQuota PricingStore.free 1 (Some 3) true "" in
  let paid_q := PricingStore.mkUserQuota PricingStore.starter 1 (Some 30) true "" in
  StudyPack.KeyTakeawaysUpgradeNotice ∈ StudyPack.render p StudyPack.initial (Some free_q) /\
  StudyPack.KeyTakeaways None [kp] ∈ StudyPack.render p StudyPack.initial (Some paid_q) /\
  StudyPack.KnowledgeCheck false [qq] ∈ StudyPack.render p StudyPack.initial (Some paid_q).
Proof.
  intros kp qq pd p free_q paid_q.
  assert (Hpaid : PricingStore.plan_type paid_q <> PricingStore.free) by discriminate.
  assert (Hkp : [kp] <> []) by discriminate.
  assert (Hqq : [qq] <> []) by discriminate.
  split; [| split].
  - exact (proj1 (proj2 (proj1 (plan_gates p StudyPack.initial free_q) eq_refl))).
  - exact (proj1 (proj2 (plan_gates p StudyPack.initial paid_q) Hpaid)
             pd [kp] eq_refl eq_refl Hkp).
  - exact (proj1 (proj2 (proj2 (plan_gates p StudyPack.initial paid_q) Hpaid))
             pd [qq] eq_refl eq_refl Hqq).
Defined.

(** ** StudyPack: the section list *)

Section Floats.

Lemma SFcompare_antisym (x y : spec_float) :
  SFcompare y x = option_map CompOpp (SFcompare x y).
Proof.
  destruct x as [sx | sx | | sx mx ex], y as [sy | sy | | sy my ey];
    try reflexivity; try (now destruct sx); try (now destruct sy);
    try (now destruct sx, sy).
  cbn. destruct sx, sy; try reflexivity; f_equal;
    rewrite (Z.compare_antisym ey ex); destruct (ey ?= ex)%Z; cbn; try reflexivity;
    rewrite (Pos.compare_cont_antisym mx my Eq); reflexivity.
Qed.

Lemma SFcompare_nan_r (x : spec_float) : SFcompare x S754_nan = None.
Proof. now destruct x. Qed.

Lemma SFcompare_defined (x y : spec_float) :
  x <> S754_nan -> y <> S754_nan -> SFcompare x y <> None.
Proof. destruct x, y; intros Hx Hy; cbn; congruence. Qed.

(** For a number [s] that is above something, and so is not NaN: [s] is
    not above [c] exactly when it is at most [c]. *)
Lemma SF_not_above_iff_le (a c s : spec_float) :
  c <> S754_nan -> SFltb a s = true ->
  (SFltb c s = false <-> SFleb s c = true).
Proof.
  intros Hc Ha.
  assert (Hs : s <> S754_nan).
  { intros ->. unfold SFltb in Ha. now rewrite SFcompare_nan_r in Ha. }
  pose proof (SFcompare_defined c s Hc Hs) as Hd.
  unfold SFltb, SFleb. rewrite (SFcompare_antisym c s).
  destruct (SFcompare c s) as [[]|]; cbn; try congruence; split; congruence.
Qed.

Lemma not_above_iff_le (a c s : float) :
  Prim2SF c <> S754_nan -> (a <? s)%float = true ->
  ((c <? s)%float = false <-> (s <=? c)%float = true).
Proof. rewrite !ltb_spec, leb_spec. apply SF_not_above_iff_le. Qed.

Lemma seven_tenths_is_a_number : Prim2SF 0.7%float <> S754_nan.
Proof. vm_compute. discriminate. Qed.

End Floats.

Section SectionList.
Import StudyPack.
Local Open Scope float_scope.

Lemma above_not_le (c s : float) : (c <? s) = true -> (s <=? c) = false.
Proof.
  rewrite ltb_spec, leb_spec. unfold SFltb, SFleb.
  rewrite (SFcompare_antisym (Prim2SF c) (Prim2SF s)).
  now destruct (SFcompare (Prim2SF c) (Prim2SF s)) as [[]|].
Qed.

(** The three tiers, by the comparisons of the score with 0.7 and 0.4. *)
Lemma importance_of_cases (x : float) :
  (importance_of x = "High" <-> (0.7 <? x) = true) /\
  (importance_of x = "Medium" <-> (0.4 <? x) = true /\ (x <=? 0.7) = true) /\
  (importance_of x = "Low" <->
     (0.7 <? x) <> true /\ ~ ((0.4 <? x) = true /\ (x <=? 0.7) = true)).
Proof.
  unfold importance_of.
  destruct (0.7 <? x) eqn:E7; [| destruct (0.4 <? x) eqn:E4].
  - pose proof (above_not_le _ _ E7) as Hle.
    split; [done | split; split].
    + discriminate.
    + intros [_ Hx]. congruence.
    + discriminate.
    + intros [Hx _]. congruence.
  - pose proof (proj1 (not_above_iff_le 0.4 0.7 x seven_tenths_is_a_number E4) E7)
      as Hle.
    split; [split; discriminate | split; split].
    + intros _. split; [reflexivity | exact Hle].
    + reflexivity.
    + discriminate.
    + intros [_ Hn]. exfalso. apply Hn. split; [reflexivity | exact Hle].
  - split; [split; discriminate | split; split].
    + discriminate.
    + intros [Hx _]. discriminate.
    + intros _. split; [discriminate | intros [Hx _]; discriminate].
    + reflexivity.
Qed.

Lemma sections_of_content (pd : Wire.ProcessedData) (cc : list Wire.Chunk) :
  Wire.condensed_content pd = Some cc ->
  sections (Some pd) = imap section_of cc.
Proof. unfold sections. cbn. now intros ->. Qed.

Lemma title_of_section (i : nat) (chunk : Wire.Chunk) :
  title (section_of i chunk) =
    match first_heading chunk with
    | Some h => if bool_decide (h = "") then "Section " +:+ Js.toString (Z.of_nat i + 1) else h
    | None => "Section " +:+ Js.toString (Z.of_nat i + 1)
    end.
Proof.
  cbn. destruct (first_heading chunk) as [h|]; [| reflexivity].
  cbn. now destruct h.
Qed.

End SectionList.

(** C7, as stated, fails: a chunk whose first heading is the empty string
    has a heading, and its section is titled 'Section i+1'. *)
Lemma section_title_counterexample :
  ~ (forall (pd : Wire.ProcessedData) (cc : list Wire.Chunk) (i : nat)
            (chunk : Wire.Chunk) (h : string) (rest : list string),
        Wire.condensed_content pd = Some cc ->
        cc !! i = Some chunk ->
        Wire.headings chunk = Some (h :: rest) ->
        StudyPack.title <$> StudyPack.sections (Some pd) !! i = Some h).
Proof.
  intros H.
  pose (chunk := Wire.mkChunk "Body text." 3 2 0.1%float 0.5%float
                   (Some [""; "Methods"]) (Some ["body"])).
  pose (pd := Wire.mkProcessedData None (Some [chunk]) None None 2 None
                "paper.pdf" None None).
  specialize (H pd [chunk] 0%nat chunk "" ["Methods"] eq_refl eq_refl eq_refl).
  vm_compute in H. discriminate H.
Qed.

(** C7, amended: the section list is the in-order image of
    condensed_content. The i-th section's title is the chunk's first
    heading when that heading is a non-empty string, and 'Section i+1'
    when the chunk has no first heading or it is the empty string; its
    content is the chunk's text; its key points are the chunk's keywords
    (none when absent); its tier is 'High' exactly when the score is above
    0.7, 'Medium' exactly when it is above 0.4 and at most 0.7, and 'Low'
    otherwise. *)
Theorem sections_in_order_image
    (pd : Wire.ProcessedData) (cc : list Wire.Chunk) :
  Wire.condensed_content pd = Some cc ->
  length (StudyPack.sections (Some pd)) = length cc /\
  forall (i : nat) (chunk : Wire.Chunk),
    cc !! i = Some chunk ->
    exists s,
      StudyPack.sections (Some pd) !! i = Some s /\
      (forall h, StudyPack.first_heading chunk = Some h -> h <> "" ->
                 StudyPack.title s = h) /\
      (StudyPack.first_heading chunk = None \/
       StudyPack.first_heading chunk = Some "" ->
         StudyPack.title s = "Section " +:+ Js.toString (Z.of_nat i + 1)) /\
      StudyPack.content s = Wire.text chunk /\
      StudyPack.keyPoints s = Js.or_nil (Wire.keywords chunk) /\
      let score := Wire.importance_score chunk in
      (StudyPack.importance s = "High" <-> (0.7 <? score)%float = true) /\
      (StudyPack.importance s = "Medium" <->
         (0.4 <? score)%float = true /\ (score <=? 0.7)%float = true) /\
      (StudyPack.importance s = "Low" <->
         (0.7 <? score)%float <> true /\
         ~ ((0.4 <? score)%float = true /\ (score <=? 0.7)%float = true)).
Proof.
  intros Hcc. rewrite (sections_of_content pd cc Hcc). split.
  - apply length_imap.
  - intros i chunk Hi. exists (StudyPack.section_of i chunk).
    rewrite list_lookup_imap, Hi. split; [reflexivity |].
    split; [| split; [| split; [reflexivity | split; [reflexivity |]]]].
    + intros h Hh Hne. rewrite title_of_section, Hh.
      now rewrite bool_decide_eq_false_2.
    + intros [Hh | Hh]; rewrite title_of_section, Hh; reflexivity.
    + apply importance_of_cases.
Qed.

Lemma sections_in_order_image_witness :
  let c0 := Wire.mkChunk "Heat flows from hot to cold." 1 6 0.1%float 0.9%float
              (Some ["Second law"]) (Some ["heat"; "entropy"]) in
  let c1 := Wire.mkChunk "An aside." 2 2 0.1%float 0.5%float None None in
  let pd := Wire.mkProcessedData None (Some [c0; c1]) None None 8 None
              "thermo.pdf" None None in
  StudyPack.title <$> StudyPack.sections (Some pd) = ["Second law"; "Section 2"] /\
  length (StudyPack.sections (Some pd)) = 2%nat.
Proof.
  intros c0 c1 pd. split; [reflexivity |].
  exact (proj1 (sections_in_order_image pd [c0; c1] eq_refl)).
Defined.

(** ** The reading time that reaches the backend *)

Section TimeLimit.
Import App.

Lemma click_in_options (sel : option Z) (i : nat) (t : Z) :
  TimeSelector.click sel i = Some t -> t ∈ [10; 20; 30; 60].
Proof.
  unfold TimeSelector.click, TimeSelector.render.
  rewrite list_lookup_fmap.
  do 4 (destruct i as [|i]; [cbn; intros [= <-]; repeat constructor |]).
  cbn. discriminate.
Qed.






Lemma loader_requests uq file t f1 up f2 :
  ProcessingLoader.requests (ProcessingLoader.processPDF uq file t f1 up f2) =
    match f1 with
    | inl _ => []
    | inr _ => if PricingStore.out_of_free_pdfs uq then []
               else [Api.processPDF file t]
    end.
Proof.
  unfold ProcessingLoader.processPDF. destruct f1 as [e | q]; [reflexivity |].
  cbn. destruct (PricingStore.out_of_free_pdfs uq) eqn:Hq; [reflexivity |].
  cbn. f_equal. destruct up as [err | data].
  - unfold ProcessingLoader.on_catch. now destruct (Api.status_is 403 err).
  - cbn. destruct f2 as [err | q2]; [| reflexivity].
    unfold ProcessingLoader.on_catch. now destruct (Api.status_is 403 err).
Qed.

End TimeLimit.




(** ** The free-quota gate *)

Section QuotaGate.
Import PricingStore.

Lemma out_of_free_pdfs_true (q : UserQuota) (limit : Z) :
  plan_type q = free -> pdf_limit q = Some limit -> limit <= pdfs_used q ->
  out_of_free_pdfs (Some q) = true.
Proof.
  intros Hplan Hlimit Hused. unfold out_of_free_pdfs.
  rewrite bool_decide_eq_true_2 by exact Hplan. rewrite Hlimit. cbn.
  apply Z.geb_le. exact Hused.
Qed.

Lemma out_of_free_pdfs_inv (q : option UserQuota) :
  out_of_free_pdfs q = true ->
  exists uq limit, q = Some uq /\ plan_type uq = free /\
                   pdf_limit uq = Some limit /\ limit <= pdfs_used uq.
Proof.
  destruct q as [uq|]; [| discriminate]. unfold out_of_free_pdfs.
  intros [Hplan Hrest]%andb_true_iff.
  destruct (pdf_limit uq) as [limit|] eqn:Hlimit; [| discriminate].
  exists uq, limit. split; [reflexivity |].
  split; [now apply bool_decide_eq_true in Hplan |].
  split; [exact Hlimit | now apply Z.geb_le].
Qed.

Lemma fetchUserQuota_stores (data : option UserQuota) (s : State) :
  userQuota (fst (fetchUserQuota (inr data) s)) = data.
Proof. reflexivity. Qed.

(** The loader tests the quota it captured when it rendered. When that one
    is under the limit, the upload is sent even though the quota that the
    awaited fetch returned is over it. *)
Remark loader_tests_captured_quota :
  let captured := mkUserQuota free 2 (Some 3) true "1 left" in
  let fetched := mkUserQuota free 3 (Some 3) false "0 left" in
  let file := mkFile "thermo.pdf" "application/pdf" 90000 in
  forall up f2,
    ProcessingLoader.requests
      (ProcessingLoader.processPDF (Some captured) file 20
         (inr (Some fetched)) up f2) = [Api.processPDF file 20].
Proof. intros captured fetched file up f2. now rewrite loader_requests. Qed.

End QuotaGate.

(** C6: when the quota fetched for a file selection has plan 'free', a
    non-null pdf_limit and pdfs_used at or over it, handleFileSelect only
    sets the quota error and opens the subscription modal: the page's state
    and selected file are as before, so from the upload screen the page is
    neither in time-select nor in processing and mounts no loader. The
    pricing store now holds that quota, and a ProcessingLoader that renders
    with it sends no upload request, whatever its own calls return, and
    opens its subscription modal once its quota fetch returns. *)
Theorem out_of_free_pdfs_blocks_selection
    (w : App.World) (file : File) (q : PricingStore.UserQuota) (limit : Z) :
  PricingStore.plan_type q = PricingStore.free ->
  PricingStore.pdf_limit q = Some limit ->
  limit <= PricingStore.pdfs_used q ->
  let w' := App.handleFileSelect file (inr (Some q)) w in
  App.app w' =
    App.setShowSubscribeModal true
      (App.setQuotaError
         (Some "You have used all 3 free PDFs. Please purchase a plan to continue.")
         (App.app w)) /\
  App.currentState (App.app w') = App.currentState (App.app w) /\
  App.selectedFile (App.app w') = App.selectedFile (App.app w) /\
  App.showSubscribeModal (App.app w') = true /\
  (App.currentState (App.app w) = App.upload ->
     App.currentState (App.app w') <> App.time_select /\
     App.currentState (App.app w') <> App.processing /\
     App.mounted_loader w' = None) /\
  PricingStore.userQuota (App.quota w') = Some q /\
  forall file' time f1 up f2,
    let trace := ProcessingLoader.processPDF
                   (PricingStore.userQuota (App.quota w')) file' time f1 up f2 in
    ProcessingLoader.requests trace = [] /\
    (forall fetched, f1 = inr fetched ->
       trace = [ProcessingLoader.SetError None; ProcessingLoader.FetchUserQuota;
                ProcessingLoader.SetShowSubscribeModal true;
                ProcessingLoader.SetIsProcessing false]).
Proof.
  intros Hplan Hlimit Hused.
  pose proof (out_of_free_pdfs_true q limit Hplan Hlimit Hused) as Hout.
  intros w'.
  assert (Happ : App.app w' =
            App.setShowSubscribeModal true
              (App.setQuotaError (Some App.free_pdfs_used_message) (App.app w))).
  { unfold w', App.handleFileSelect. cbn -[PricingStore.out_of_free_pdfs].
    now rewrite Hout. }
  assert (Hq : PricingStore.userQuota (App.quota w') = Some q) by reflexivity.
  split; [exact Happ |].
  split; [now rewrite Happ |]. split; [now rewrite Happ |].
  split; [now rewrite Happ |]. split.
  - intros Hup. unfold App.mounted_loader. rewrite Happ. cbn. rewrite Hup.
    now repeat split.
  - split; [exact Hq |]. rewrite Hq. intros file' time f1 up f2. split.
    + rewrite loader_requests. destruct f1; [reflexivity |]. now rewrite Hout.
    + intros fetched ->. unfold ProcessingLoader.processPDF. now rewrite Hout.
Qed.

Lemma out_of_free_pdfs_blocks_selection_witness :
  let q := PricingStore.mkUserQuota PricingStore.free 3 (Some 3) false
             "You have used all free PDFs" in
  let file := mkFile "thermo.pdf" "application/pdf" 90000 in
  let w := App.step
             (App.AuthChanged
                (AuthStore.ALogin
                   (AuthStore.mkUser 7 "ada@example.org" "Ada" None "2025-01-01")
                   "eyJhbGciOi"))
             App.initial_world in
  (3 <= PricingStore.pdfs_used q) /\
  App.currentState (App.app (App.handleFileSelect file (inr (Some q)) w)) = App.upload /\
  App.showSubscribeModal (App.app (App.handleFileSelect file (inr (Some q)) w)) = true.
Proof.
  intros q file w.
  assert (Hused : 3 <= PricingStore.pdfs_used q) by (cbn; lia).
  pose proof (out_of_free_pdfs_blocks_selection w file q 3 eq_refl eq_refl Hused)
    as (_ & Hstate & _ & Hmodal & _).
  split; [exact Hused |]. split; [exact Hstate | exact Hmodal].
Defined.

(** ** The Budget Selector *)

Section Sorting.
Context {A : Type}.

Lemma insert_by_Permutation (le : A -> A -> bool) (x : A) (l : list A) :
  Pipeline.insert_by le x l ≡ₚ x :: l.
Proof.
  induction l as [| y l IH]; cbn; [reflexivity |].
  destruct (le x y); [reflexivity |].
  rewrite IH. apply Permutation_swap.
Qed.

Lemma sort_by_Permutation (le : A -> A -> bool) (l : list A) :
  Pipeline.sort_by le l ≡ₚ l.
Proof.
  induction l as [| x l IH]; cbn; [reflexivity |].
  fold (Pipeline.sort_by le l). now rewrite insert_by_Permutation, IH.
Qed.

Variable key : A -> nat.

Lemma insert_by_key_sorted (x : A) (l : list A) :
  StronglySorted (fun a b => (key a <= key b)%nat) l ->
  StronglySorted (fun a b => (key a <= key b)%nat)
    (Pipeline.insert_by (fun a b => (key a <=? key b)%nat) x l).
Proof.
  induction 1 as [| y l Hl IH Hy]; cbn.
  - repeat constructor.
  - destruct (Nat.leb_spec (key x) (key y)) as [Hle | Hgt].
    + constructor; [now constructor |]. constructor; [exact Hle |].
      eapply Forall_impl; [exact Hy |]. cbn. intros z Hz. lia.
    + constructor; [exact IH |].
      rewrite insert_by_Permutation. constructor; [lia | exact Hy].
Qed.

Lemma sort_by_key_sorted (l : list A) :
  StronglySorted (fun a b => (key a <= key b)%nat)
    (Pipeline.sort_by (fun a b => (key a <=? key b)%nat) l).
Proof.
  induction l as [| x l IH]; cbn; [constructor |].
  now apply insert_by_key_sorted.
Qed.

(** A list sorted by key whose elements come, without repetition, from a
    list that is strictly sorted by key, is a sublist of it: the two list
    the common elements in the same order. *)
Lemma sorted_submseteq_sublist (l1 l2 : list A) :
  StronglySorted (fun a b => (key a < key b)%nat) l2 ->
  StronglySorted (fun a b => (key a <= key b)%nat) l1 ->
  l1 ⊆+ l2 -> l1 `sublist_of` l2.
Proof.
  intros Hs2. revert l1.
  induction Hs2 as [| y l2 Hs2 IH Hy]; intros l1 Hs1 Hsub.
  { apply submseteq_nil_r in Hsub as ->. constructor. }
  destruct l1 as [| x l1]; [apply sublist_nil_l |].
  rewrite Forall_forall in Hy.
  assert (Hx : x ∈ y :: l2) by (eapply elem_of_submseteq; [left | exact Hsub]).
  apply StronglySorted_inv in Hs1 as [Hs1 Hx1]. rewrite Forall_forall in Hx1.
  apply submseteq_cons_r in Hsub as [Hsub | (l' & Hperm & Hsub)].
  - (* the head of [l2] is not used *)
    apply sublist_cons, IH; [| exact Hsub]. now constructor; [| apply Forall_forall].
  - (* the head of [l2] is in [l1]: it is the head of [l1] *)
    assert (Hy1 : y ∈ x :: l1) by (rewrite Hperm; left).
    assert (x = y) as ->.
    { apply elem_of_cons in Hx as [-> | Hx]; [reflexivity |].
      apply elem_of_cons in Hy1 as [-> | Hy1]; [reflexivity |].
      specialize (Hy _ Hx). specialize (Hx1 _ Hy1). lia. }
    apply Permutation_cons_inv in Hperm.
    apply sublist_skip, IH; [exact Hs1 |]. now rewrite Hperm.
Qed.

End Sorting.

Section FloatOrder.
Local Open Scope float_scope.


Lemma SFlt_le_trans (a b c : spec_float) :
  SFltb a b = true -> SFleb b c = true -> SFltb a c = true.
Proof.
  unfold SFltb, SFleb.
  destruct a as [sa | sa | | sa ma ea], b as [sb | sb | | sb mb eb],
           c as [sc | sc | | sc mc ec]; cbn;
    try discriminate; try reflexivity;
    try (destruct sa, sb, sc; cbn; (discriminate || reflexivity || idtac); fail).
  all: destruct sa, sb, sc; cbn; try discriminate; try reflexivity.
  all: destruct (Z.compare_spec ea eb), (Z.compare_spec eb ec), (Z.compare_spec ea ec);
    cbn; try discriminate; try reflexivity; try lia; subst.
  all: rewrite ?Pos.compare_cont_spec; cbn;
       destruct (Pos.compare_spec ma mb), (Pos.compare_spec mb mc),
                (Pos.compare_spec ma mc);
       cbn; try discriminate; try reflexivity; try lia.
Qed.

Lemma ltb_leb_trans (a b c : float) :
  (a <? b) = true -> (b <=? c) = true -> (a <? c) = true.
Proof. rewrite !ltb_spec, leb_spec. apply SFlt_le_trans. Qed.

Lemma ltb_leb (a b : float) : (a <? b) = true -> (a <=? b) = true.
Proof.
  rewrite ltb_spec, leb_spec. unfold SFltb, SFleb.
  now destruct (SFcompare (Prim2SF a) (Prim2SF b)) as [[]|].
Qed.

Lemma ltb_irrefl (a : float) : (a <? a) = false.
Proof.
  rewrite ltb_spec. unfold SFltb.
  pose proof (SFcompare_antisym (Prim2SF a) (Prim2SF a)) as H.
  destruct (SFcompare (Prim2SF a) (Prim2SF a)) as [[]|]; try reflexivity.
  discriminate H.
Qed.

End FloatOrder.

Section Selection.
Import Pipeline.
Local Open Scope float_scope.

Variable cfg : Config.

Lemma accept_sublist (budget total : float) (cands : list Candidate) :
  fst (accept cfg budget total cands) `sublist_of` cands.
Proof.
  revert total. induction cands as [| c cands IH]; intros total; cbn [accept].
  - constructor.
  - destruct (_ <=? budget); cbn [fst];
      [apply sublist_skip | apply sublist_cons]; apply IH.
Qed.




Lemma smallest_None (cands : list Candidate) :
  smallest cfg cands = None -> cands = [].
Proof.
  destruct cands as [| c cands]; [reflexivity |]. cbn [smallest].
  destruct (smallest cfg cands); [| discriminate].
  now destruct (_ <=? _).
Qed.

(** No candidate has a reading time below that of the smallest. *)
Lemma smallest_least (cands : list Candidate) (m : Candidate) :
  smallest cfg cands = Some m ->
  m ∈ cands /\
  forall c, c ∈ cands ->
    (reading_time cfg (snd c) <? reading_time cfg (snd m)) = false.
Proof.
  revert m. induction cands as [| c cands IH]; intros m; cbn [smallest];
    [discriminate |].
  destruct (smallest cfg cands) as [m' |] eqn:Hm'.
  - destruct (IH m' eq_refl) as [Hin Hleast].
    destruct (reading_time cfg (snd c) <=? reading_time cfg (snd m')) eqn:E;
      intros [= <-].
    + split; [left |].
      intros c' [-> | Hc']%elem_of_cons; [apply ltb_irrefl |].
      destruct (reading_time cfg (snd c') <? reading_time cfg (snd c)) eqn:Hlt;
        [| reflexivity].
      rewrite <- (Hleast c' Hc'). symmetry. exact (ltb_leb_trans _ _ _ Hlt E).
    + split; [now right |].
      intros c' [-> | Hc']%elem_of_cons; [| now apply Hleast].
      destruct (reading_time cfg (snd c) <? reading_time cfg (snd m')) eqn:Hlt;
        [| reflexivity].
      rewrite <- E. symmetry. exact (ltb_leb _ _ Hlt).
  - apply smallest_None in Hm' as ->. intros [= <-]. split; [left |].
    intros c' [-> | Hc']%elem_of_cons; [apply ltb_irrefl | inversion Hc'].
Qed.

Lemma indexed_snd (chunks : list Chunk) : snd <$> indexed chunks = chunks.
Proof.
  unfold indexed. rewrite fmap_imap.
  etrans; [apply (imap_const id) | apply list_fmap_id].
Qed.

Lemma elem_of_indexed (chunks : list Chunk) (c : Candidate) :
  c ∈ indexed chunks -> snd c ∈ chunks.
Proof.
  intros H. rewrite <- (indexed_snd chunks). now apply list_elem_of_fmap_2.
Qed.

Lemma imap_key_sorted (f : nat -> nat) (l : list Chunk) :
  (forall i j, (i < j)%nat -> (f i < f j)%nat) ->
  StronglySorted (fun a b : Candidate => (fst a < fst b)%nat)
    (imap (fun i c => (f i, c)) l).
Proof.
  revert f. induction l as [| x l IH]; intros f Hf; [constructor |].
  rewrite imap_cons. constructor.
  - apply (IH (f ∘ S)). intros i j Hij. cbn. apply Hf. lia.
  - apply Forall_forall. intros y (i & c & -> & _)%elem_of_lookup_imap.
    cbn. apply Hf. lia.
Qed.

Lemma indexed_sorted (chunks : list Chunk) :
  StronglySorted (fun a b : Candidate => (fst a < fst b)%nat) (indexed chunks).
Proof. apply (imap_key_sorted id). auto. Qed.

(** What the greedy pass accepted, put back into document order, is a
    sublist of the candidates. *)
Lemma presentation_sublist (budget : float) (ranked : list Candidate)
    (chunks : list Chunk) :
  ranked ≡ₚ indexed chunks ->
  sort_by by_position (fst (accept cfg budget 0 ranked))
    `sublist_of` indexed chunks.
Proof.
  intros Hranked.
  apply (sorted_submseteq_sublist fst).
  - apply indexed_sorted.
  - apply (sort_by_key_sorted fst).
  - rewrite sort_by_Permutation, <- Hranked.
    apply sublist_submseteq, accept_sublist.
Qed.

End Selection.




Section Presentation.
Import StudyPack.

Lemma elem_of_when (c : bool) (b x : Block) : x ∈ when c b -> x = b.
Proof.
  unfold when. destruct c; [| intros H; inversion H].
  now intros ->%list_elem_of_singleton.
Qed.

Lemma view_section_forgets (st : State) (l : list PackSection) :
  sv_section <$> imap (view_section st) l = l.
Proof.
  rewrite fmap_imap. etrans; [apply (imap_const id) | apply list_fmap_id].
Qed.

Lemma rendered_sections (p : Props) (st : State)
    (q : option PricingStore.UserQuota) (views : list SectionView) :
  MustReadSections views ∈ render p st q ->
  views = imap (view_section st) (sections (processedData p)).
Proof.
  unfold render. rewrite !elem_of_app, !elem_of_cons.
  intros [[H | [H | [H | H]]] | [H | [H | [H | [H | [H | H]]]]]];
    try discriminate H; try (apply elem_of_when in H; discriminate H);
    try (now inversion H).
Qed.

(** The Must-Read block is the third block of every page. *)
Lemma must_read_is_drawn (p : Props) (st : State)
    (q : option PricingStore.UserQuota) :
  render p st q !! 2%nat =
    Some (MustReadSections (imap (view_section st) (sections (processedData p)))).
Proof. reflexivity. Qed.

End Presentation.

(** C3: the chunks of a selection are a sublist of the document's chunks:
    they are presented in document order, whatever their scores. The
    frontend keeps that order: the i-th section is made from the i-th
    element of condensed_content; every page draws the Must-Read block,
    once, and the block lists one entry for each element of
    condensed_content, the i-th entry showing the section made from the
    i-th element. *)
Theorem presentation_order_is_document_order :
  (forall (cfg : Pipeline.Config) (budget : float) (chunks : list Pipeline.Chunk),
      Pipeline.selected (Pipeline.select cfg budget chunks) `sublist_of` chunks) /\
  (forall (pd : Wire.ProcessedData) (cc : list Wire.Chunk) (i : nat),
      Wire.condensed_content pd = Some cc ->
      StudyPack.sections (Some pd) !! i = StudyPack.section_of i <$> cc !! i) /\
  (forall p st q,
      exists views,
        StudyPack.MustReadSections views ∈ StudyPack.render p st q /\
        (forall views', StudyPack.MustReadSections views' ∈ StudyPack.render p st q ->
                        views' = views) /\
        StudyPack.sv_section <$> views = StudyPack.sections (StudyPack.processedData p) /\
        forall pd cc i,
          StudyPack.processedData p = Some pd ->
          Wire.condensed_content pd = Some cc ->
          StudyPack.sv_section <$> views !! i = StudyPack.section_of i <$> cc !! i).
Proof.
  split; [| split].
  - intros cfg budget chunks. unfold Pipeline.select.
    destruct (Pipeline.smallest cfg (Pipeline.indexed chunks)) as [m |] eqn:Hm;
      [| apply sublist_nil_l].
    destruct (_ <=? budget)%float.
    + cbn [Pipeline.selected].
      rewrite <- (indexed_snd chunks) at 2. apply (fmap_sublist snd).
      apply presentation_sublist. apply sort_by_Permutation.
    + cbn [Pipeline.selected].
      apply singleton_sublist_l, elem_of_indexed.
      now destruct (smallest_least cfg _ _ Hm).
  - intros pd cc i Hcc. rewrite (sections_of_content pd cc Hcc).
    apply list_lookup_imap.
  - intros p st q.
    exists (imap (StudyPack.view_section st)
              (StudyPack.sections (StudyPack.processedData p))).
    split; [apply (list_elem_of_lookup_2 _ 2%nat), must_read_is_drawn |].
    split; [intros views'; apply rendered_sections |].
    split; [apply view_section_forgets |].
    intros pd cc i Hpd Hcc.
    rewrite <- list_lookup_fmap, view_section_forgets, Hpd.
    rewrite (sections_of_content pd cc Hcc). apply list_lookup_imap.
Qed.

Lemma presentation_order_is_document_order_witness :
  let cfg := Pipeline.mkConfig 250 5 3000 5 0.7 in
  let c0 := Pipeline.mkChunk "a" 1 500 ["Intro"] [] 0.2 in
  let c1 := Pipeline.mkChunk "b" 2 600 [] [] 0.5 in
  let c2 := Pipeline.mkChunk "c" 3 500 ["Results"] [] 0.9 in
  let w0 := Wire.mkChunk "Heat flows from hot to cold." 1 6 0.1%float 0.2%float
              (Some ["Second law"]) None in
  let w1 := Wire.mkChunk "An aside." 2 2 0.1%float 0.9%float None None in
  let pd := Wire.mkProcessedData None (Some [w0; w1]) None None 8 None
              "thermo.pdf" None None in
  let p := StudyPack.mkProps "thermo.pdf" (Some pd) None in
  (Pipeline.selected (Pipeline.select cfg 4 [c0; c1; c2]) = [c0; c2] /\
   [c0; c2] `sublist_of` [c0; c1; c2]) /\
  exists views,
    StudyPack.MustReadSections views ∈ StudyPack.render p StudyPack.initial None /\
    StudyPack.title <$> (StudyPack.sv_section <$> views) = ["Second law"; "Section 2"].
Proof.
  intros cfg c0 c1 c2 w0 w1 pd p. split.
  - assert (Hsel : Pipeline.selected (Pipeline.select cfg 4 [c0; c1; c2]) = [c0; c2])
      by (vm_compute; reflexivity).
    split; [exact Hsel |]. rewrite <- Hsel.
    exact (proj1 presentation_order_is_document_order cfg 4%float [c0; c1; c2]).
  - destruct (proj2 (proj2 presentation_order_is_document_order)
                p StudyPack.initial None) as (views & Hin & _ & Hsec & _).
    exists views. split; [exact Hin |]. rewrite Hsec. reflexivity.
Defined.

(** ** The Condenser's fallback *)

Section Fallback.
Import Pipeline.

Variable cfg : Config.
Variable summarize : string -> CallFailure + string.
Variable count_words : string -> nat.




Hypothesis unavailable : forall t, exists f, summarize t = inl f.




End Fallback.



(** A run whose extraction fails does raise: the error is the
    extractor's, whatever the other stages would do. *)
Example extraction_failure_leaves_the_pipeline :
  Pipeline.run (Pipeline.mkConfig 250 2 3000 5 0.7)
    (fun _ => inl Pipeline.NoExtractableText) (fun _ => [])
    (fun _ c => Pipeline.importance_score c)
    (fun _ => inl Pipeline.CallTimedOut) (fun _ => inl Pipeline.CallTimedOut)
    (fun _ => 0%nat) Pipeline.text (fun _ => false)
    [] "scan.pdf" 10%float true true
  = inl (Pipeline.Extraction Pipeline.NoExtractableText).
Proof. reflexivity. Qed.

(** * Further properties of the frontend *)

(** ** The auth store *)

Section AuthInvariant.
Import AuthStore.

Lemma call_keeps_credentials (c : Call) (s : AuthState) :
  passes_credentials c = true ->
  (isAuthenticated s = true -> is_Some (user s) /\ is_Some (token s)) ->
  isAuthenticated (call c s) = true ->
  is_Some (user (call c s)) /\ is_Some (token (call c s)).
Proof.
  intros Hc Hs. destruct c; cbn in *; try exact Hs; try discriminate.
  - apply bool_decide_eq_true in Hc. intros H. destruct (Hs H). eauto.
  - apply bool_decide_eq_true in Hc. intros H. destruct (Hs H). eauto.
  - apply andb_true_iff in Hc as [Hu Ht].
    apply bool_decide_eq_true in Hu, Ht. eauto.
Qed.

Lemma call_all_keeps_credentials (l : list Call) (s : AuthState) :
  Forall (fun c => passes_credentials c = true) l ->
  (isAuthenticated s = true -> is_Some (user s) /\ is_Some (token s)) ->
  isAuthenticated (call_all l s) = true ->
  is_Some (user (call_all l s)) /\ is_Some (token (call_all l s)).
Proof.
  intros Hl. revert s. induction Hl as [| c l Hc Hl IH]; intros s Hs; [exact Hs |].
  apply (IH (call c s)). now apply call_keeps_credentials.
Qed.

Lemma call_of_action (a : Action) (s : AuthState) :
  call (of_action a) s = run a s /\ passes_credentials (of_action a) = true.
Proof. destruct a; split; reflexivity. Qed.

End AuthInvariant.

(** X1: as long as every call of the store passes the user and the token
    it is meant to pass, the store holds both whenever it says the user
    is authenticated; the typed actions are such calls. The store itself
    checks nothing: login with neither, which handleCredentialResponse
    performs when a successful response has no user and no access_token,
    leaves isAuthenticated true with no user and no token. *)
Theorem authenticated_has_credentials (calls : list AuthStore.Call) :
  (Forall (fun c => AuthStore.passes_credentials c = true) calls ->
   AuthStore.isAuthenticated (AuthStore.call_all calls AuthStore.initial) = true ->
   is_Some (AuthStore.user (AuthStore.call_all calls AuthStore.initial)) /\
   is_Some (AuthStore.token (AuthStore.call_all calls AuthStore.initial))) /\
  (forall actions s,
     AuthStore.call_all (AuthStore.of_action <$> actions) s =
       AuthStore.run_all actions s /\
     Forall (fun c => AuthStore.passes_credentials c = true)
       (AuthStore.of_action <$> actions)) /\
  (forall s,
     let s' := AuthStore.call_all
                 (GoogleLogin.credential_calls
                    (inr (Some (GoogleLogin.mkAuthBody None None)))) s in
     AuthStore.isAuthenticated s' = true /\
     AuthStore.user s' = None /\ AuthStore.token s' = None).
Proof.
  split; [| split].
  - intros Hcalls. apply call_all_keeps_credentials; [exact Hcalls |].
    discriminate.
  - intros actions. induction actions as [| a actions IH]; intros s.
    + split; [reflexivity | constructor].
    + rewrite fmap_cons. destruct (call_of_action a s) as [Hrun Hpass].
      destruct (IH (AuthStore.run a s)) as [Hall Hfor]. split.
      * cbn. cbn in Hrun. rewrite Hrun. exact Hall.
      * now constructor.
  - intros s. cbn. repeat split.
Qed.

Lemma authenticated_has_credentials_witness :
  let u := AuthStore.mkUser 7 "ada@example.org" "Ada" None "2025-01-01" in
  let calls := GoogleLogin.credential_calls
                 (inr (Some (GoogleLogin.mkAuthBody (Some u) (Some "eyJhbGciOi")))) in
  is_Some (AuthStore.token (AuthStore.call_all calls AuthStore.initial)).
Proof.
  intros u calls.
  assert (Hcalls : Forall (fun c => AuthStore.passes_credentials c = true) calls).
  { repeat constructor. }
  exact (proj2 (proj1 (authenticated_has_credentials calls) Hcalls eq_refl)).
Defined.

(** ** The request interceptor *)

Section Authorization.
Import RequestInterceptor.

Lemma get_set_header (k v : string) (h : list (string * string)) :
  get_header k (set_header k v h) = Some v.
Proof.
  induction h as [| [k' v'] h IH]; cbn.
  - now rewrite String.eqb_refl.
  - destruct (String.eqb k k') eqn:E; cbn; rewrite ?String.eqb_refl, ?E; auto.
Qed.

Lemma get_set_header_other (k k' v : string) (h : list (string * string)) :
  k' <> k -> get_header k' (set_header k v h) = get_header k' h.
Proof.
  intros Hne. apply String.eqb_neq in Hne.
  induction h as [| [k0 v0] h IH]; cbn.
  - now rewrite Hne.
  - destruct (String.eqb k k0) eqn:E; cbn.
    + apply String.eqb_eq in E as <-. now rewrite Hne.
    + now rewrite IH.
Qed.

Lemma truthy_str_nonempty (s : string) : s <> "" -> Js.truthy_str s = true.
Proof. now destruct s. Qed.

Lemma on_request_cases (storage : option Stored) (config : Api.Request) :
  on_request storage config = config \/
  exists token,
    token <> "" /\
    on_request storage config =
      Api.mkRequest (Api.method config) (Api.url config) (Api.body config)
        (set_header "Authorization" ("Bearer " +:+ token) (Api.headers config))
        (Api.responseType config).
Proof.
  unfold on_request. destruct storage as [[| state] |]; auto.
  destruct (state ≫= AuthStore.p_token) as [token |]; auto.
  destruct token as [| c token]; cbn; auto.
  right. eexists. split; [| reflexivity]. discriminate.
Qed.

End Authorization.

(** X2: the request interceptor reads the persisted slice of the auth
    store. After logout, after a token expiration, and on a fresh store, a
    request leaves as it was given, with no Authorization header added;
    after login with a non-empty token it carries 'Bearer' and that
    token. *)
Theorem stored_token_drives_authorization
    (s : AuthStore.AuthState) (u : AuthStore.User) (t : string)
    (config : Api.Request) :
  RequestInterceptor.on_request
    (RequestInterceptor.persisted (AuthStore.logout s)) config = config /\
  RequestInterceptor.on_request
    (RequestInterceptor.persisted (AuthStore.handleTokenExpiration s)) config
    = config /\
  RequestInterceptor.on_request
    (RequestInterceptor.persisted AuthStore.initial) config = config /\
  (t <> "" ->
   RequestInterceptor.get_header "Authorization"
     (Api.headers
        (RequestInterceptor.on_request
           (RequestInterceptor.persisted (AuthStore.login u t s)) config))
   = Some ("Bearer " +:+ t)).
Proof.
  repeat split. intros Ht. cbn.
  rewrite (truthy_str_nonempty t Ht). cbn. apply get_set_header.
Qed.

Lemma stored_token_drives_authorization_witness :
  let u := AuthStore.mkUser 7 "ada@example.org" "Ada" None "2025-01-01" in
  RequestInterceptor.get_header "Authorization"
    (Api.headers
       (RequestInterceptor.on_request
          (RequestInterceptor.persisted (AuthStore.login u "abc" AuthStore.initial))
          (Api.downloadPDF 4)))
  = Some "Bearer abc".
Proof.
  intros u.
  apply (proj2 (proj2 (proj2 (stored_token_drives_authorization
           AuthStore.initial u "abc" (Api.downloadPDF 4))))).
  discriminate.
Defined.

(** X3: the request interceptor never changes the method, the URL, the
    body or the response type of a request, nor any header other than
    Authorization; and when the stored item is missing, cannot be parsed,
    or holds no token or an empty one, the request passes unchanged. *)
Theorem on_request_only_sets_authorization
    (storage : option RequestInterceptor.Stored) (config : Api.Request) :
  let sent := RequestInterceptor.on_request storage config in
  Api.method sent = Api.method config /\
  Api.url sent = Api.url config /\
  Api.body sent = Api.body config /\
  Api.responseType sent = Api.responseType config /\
  (forall k, k <> "Authorization" ->
     RequestInterceptor.get_header k (Api.headers sent) =
     RequestInterceptor.get_header k (Api.headers config)) /\
  (storage = None \/ storage = Some RequestInterceptor.Malformed \/
   (exists persisted,
      storage = Some (RequestInterceptor.Parsed persisted) /\
      (persisted ≫= AuthStore.p_token = None \/
       persisted ≫= AuthStore.p_token = Some "")) ->
   sent = config).
Proof.
  cbv zeta.
  assert (Hlast :
    storage = None \/ storage = Some RequestInterceptor.Malformed \/
    (exists persisted,
       storage = Some (RequestInterceptor.Parsed persisted) /\
       (persisted ≫= AuthStore.p_token = None \/
        persisted ≫= AuthStore.p_token = Some "")) ->
    RequestInterceptor.on_request storage config = config).
  { unfold RequestInterceptor.on_request.
    intros [-> | [-> | (p & -> & [Hp | Hp])]]; try reflexivity; now rewrite Hp. }
  destruct (on_request_cases storage config) as [Heq | (token & Ht & Heq)].
  - rewrite Heq. repeat split; auto.
  - split; [now rewrite Heq |]. split; [now rewrite Heq |].
    split; [now rewrite Heq |]. split; [now rewrite Heq |].
    split; [| exact Hlast].
    intros k Hk. rewrite Heq. cbn. now apply get_set_header_other.
Qed.

Lemma on_request_only_sets_authorization_witness :
  let u := AuthStore.mkUser 7 "ada@example.org" "Ada" None "2025-01-01" in
  let file := mkFile "thermo.pdf" "application/pdf" 90000 in
  RequestInterceptor.get_header "Content-Type"
    (Api.headers
       (RequestInterceptor.on_request
          (RequestInterceptor.persisted (AuthStore.login u "abc" AuthStore.initial))
          (Api.processPDF file 20)))
  = Some "multipart/form-data".
Proof.
  intros u file.
  rewrite (proj1 (proj2 (proj2 (proj2 (proj2
             (on_request_only_sets_authorization
                (RequestInterceptor.persisted (AuthStore.login u "abc" AuthStore.initial))
                (Api.processPDF file 20)))))) "Content-Type") by discriminate.
  reflexivity.
Defined.

(** ** The response interceptor *)

(** X4: the response interceptor runs a store action for status 401 and
    for no other response, never turns a failure into a success or a
    success into a failure, and hands on the error it was given; an error
    without a response (a network failure) leaves the auth store alone. *)
Theorem response_interceptor_exact (r : Api.Response) (msg : string) :
  (fst (Api.deliver r msg) = [AuthStore.AHandleTokenExpiration] /\ Api.status r = 401
   \/ fst (Api.deliver r msg) = [] /\ Api.status r <> 401) /\
  (200 <= Api.status r < 300 -> snd (Api.deliver r msg) = inr r) /\
  (~ 200 <= Api.status r < 300 ->
     snd (Api.deliver r msg) = inl (Api.mkAxiosError (Some r) msg)) /\
  Api.on_rejected (Api.mkAxiosError None msg) = ([], Api.mkAxiosError None msg).
Proof.
  unfold Api.deliver, Api.on_rejected, Api.status_is. cbn.
  destruct (Z.leb_spec 200 (Api.status r)), (Z.ltb_spec (Api.status r) 300);
    cbn; destruct (Z.eqb_spec (Api.status r) 401); cbn;
    (split; [first [left; split; [reflexivity | lia] | right; split; [reflexivity | lia]] |]);
    (split; [intros; first [reflexivity | lia] |]);
    (split; [intros; first [reflexivity | lia] | reflexivity]).
Qed.

Lemma response_interceptor_exact_witness :
  snd (Api.deliver (Api.mkResponse 204 None) "ok") = inr (Api.mkResponse 204 None) /\
  fst (Api.deliver (Api.mkResponse 403 (Some "Quota exceeded")) "Forbidden") = [].
Proof.
  split.
  - apply (proj1 (proj2 (response_interceptor_exact (Api.mkResponse 204 None) "ok"))).
    cbn. lia.
  - destruct (proj1 (response_interceptor_exact
                       (Api.mkResponse 403 (Some "Quota exceeded")) "Forbidden"))
      as [[_ H] | [H _]]; [discriminate H | exact H].
Defined.

(** X5: a request determines what it asks for: two downloads with the
    same request are for the same history id, and two uploads with the
    same request carry the same file and the same time limit. *)
Theorem requests_determine_arguments :
  (forall a b : Z, Api.downloadPDF a = Api.downloadPDF b -> a = b) /\
  (forall (f g : File) (s t : Z),
      Api.processPDF f s = Api.processPDF g t -> f = g /\ s = t).
Proof.
  split.
  - intros a b H. injection H as H. unfold Js.toString in H.
    change (pretty a = pretty b) in H. now apply (inj pretty) in H.
  - intros f g s t H. injection H as Hf Ht. unfold Js.toString in Ht.
    split; [exact Hf |]. now apply (inj pretty) in Ht.
Qed.

Lemma requests_determine_arguments_witness :
  Api.downloadPDF 4 <> Api.downloadPDF 5.
Proof.
  intros H. apply (proj1 requests_determine_arguments) in H. discriminate H.
Defined.

(** ** The pricing store *)

(** X6: no request action of the pricing store leaves the store loading:
    when a call has settled, with its requests failed or not, isLoading is
    false. *)
Theorem pricing_actions_stop_loading
    (c : PricingActions.Call) (s : PricingActions.Store) :
  PricingActions.isLoading (fst (PricingActions.perform c s)) = false.
Proof.
  destruct c as [o | o | o | o | o | post refresh | post refresh]; cbn;
    try (now destruct o as [e | [body |]]); try (now destruct o).
  - now destruct post.
  - now destruct post.
Qed.

(** X7: after a request action the store's error is null exactly when
    nothing was thrown inside the action: every request it made
    succeeded, and the response of fetchPlans or createSubscription had a
    body to read. fetchPlans, fetchSubscriptionStatus and validateCoupon
    never reject; the other actions reject with the first thing thrown,
    the error of their own request or, for createSubscription on a
    response without a body, the TypeError of reading it, and then the
    store holds 'Failed to create subscription'. verifySubscription
    resolves when only the status refresh failed, and leaves the
    refresh's error in the store. *)
Theorem pricing_actions_errors
    (c : PricingActions.Call) (s : PricingActions.Store) :
  (PricingActions.error (fst (PricingActions.perform c s)) = None <->
   PricingActions.thrown c = []) /\
  (forall t, snd (PricingActions.perform c s) = Some t ->
     head (PricingActions.thrown c) = Some t) /\
  (forall o, snd (PricingActions.perform (PricingActions.FetchPlans o) s) = None) /\
  (forall o,
     snd (PricingActions.perform (PricingActions.FetchSubscriptionStatus o) s)
     = None) /\
  (forall o, snd (PricingActions.perform (PricingActions.ValidateCoupon o) s) = None) /\
  (forall e,
     let after := PricingActions.perform
                    (PricingActions.VerifySubscription (inr tt) (inl e)) s in
     snd after = None /\
     PricingActions.error (fst after) = Some "Failed to load subscription status") /\
  (let after := PricingActions.perform
                  (PricingActions.CreateSubscription (inr None)) s in
   snd after = Some PricingActions.BodyTypeError /\
   PricingActions.error (fst after) = Some "Failed to create subscription") /\
  (let after := PricingActions.perform (PricingActions.FetchPlans (inr None)) s in
   snd after = None /\
   PricingActions.error (fst after) = Some "Failed to load pricing plans" /\
   PricingActions.plans (fst after) = PricingActions.plans s).
Proof.
  split; [| split; [| repeat split]].
  - destruct c as [o | o | o | o | o | post refresh | post refresh]; cbn.
    1, 5: destruct o as [e | [body |]]; cbn; split; (discriminate || reflexivity).
    1, 2, 3: destruct o; cbn; split; (discriminate || reflexivity).
    all: destruct post; cbn; try (split; discriminate);
      destruct refresh; cbn; split; (discriminate || reflexivity).
  - intros t.
    destruct c as [o | o | o | o | o | post refresh | post refresh]; cbn;
      try discriminate.
    + destruct o; cbn; (discriminate || now intros [= ->]).
    + destruct o as [e | [body |]]; cbn; (discriminate || now intros [= ->]).
    + destruct post; cbn; (discriminate || now intros [= ->]).
    + destruct post; cbn; (discriminate || now intros [= ->]).
Qed.

Lemma pricing_actions_errors_witness :
  let e := Api.mkAxiosError (Some (Api.mkResponse 500 None)) "Server error" in
  head (PricingActions.thrown (PricingActions.CreateSubscription (inl e)))
    = Some (PricingActions.RequestError e).
Proof.
  intros e.
  exact (proj1 (proj2 (pricing_actions_errors
                         (PricingActions.CreateSubscription (inl e))
                         PricingActions.initial))
           (PricingActions.RequestError e) eq_refl).
Defined.

(** X8: only fetchUserQuota writes the stored quota: every other action
    leaves it as it was, and so does a fetchUserQuota whose request fails.
    On the fields the quota check reads, fetchUserQuota of the whole store
    acts as the fetchUserQuota that the quota check of the upload uses. *)
Theorem only_fetchUserQuota_writes_quota (s : PricingActions.Store) :
  (forall c, (forall o, c <> PricingActions.FetchUserQuota o) ->
     PricingActions.userQuota (fst (PricingActions.perform c s)) =
     PricingActions.userQuota s) /\
  (forall plan, PricingActions.userQuota (PricingActions.setSelectedPlan plan s) =
                PricingActions.userQuota s) /\
  (forall code, PricingActions.userQuota (PricingActions.setCouponCode code s) =
                PricingActions.userQuota s) /\
  PricingActions.userQuota (PricingActions.clearError s) =
    PricingActions.userQuota s /\
  (forall e, PricingActions.userQuota
               (fst (PricingActions.fetchUserQuota (inl e) s)) =
             PricingActions.userQuota s) /\
  (forall o,
     PricingActions.quota_slice (fst (PricingActions.fetchUserQuota o s)) =
       fst (PricingStore.fetchUserQuota o (PricingActions.quota_slice s)) /\
     snd (PricingActions.fetchUserQuota o s) =
       snd (PricingStore.fetchUserQuota o (PricingActions.quota_slice s))).
Proof.
  split; [| repeat split].
  - intros c Hc.
    destruct c as [o | o | o | o | o | post refresh | post refresh]; cbn;
      try (now destruct o as [e | [body |]]); try (now destruct o).
    + now destruct (Hc o).
    + destruct post; [reflexivity |]. now destruct refresh.
    + destruct post; [reflexivity |]. now destruct refresh.
  - now destruct o.
  - now destruct o.
Qed.

Lemma only_fetchUserQuota_writes_quota_witness :
  let q := PricingStore.mkUserQuota PricingStore.free 2 (Some 3) true "1 left" in
  let s := fst (PricingActions.fetchUserQuota (inr (Some q)) PricingActions.initial) in
  PricingActions.userQuota
    (fst (PricingActions.perform
            (PricingActions.VerifySubscription (inr tt) (inr None)) s)) = Some q.
Proof.
  intros q s.
  assert (Hc : forall o, PricingActions.VerifySubscription (inr tt) (inr None)
                         <> PricingActions.FetchUserQuota o) by discriminate.
  exact (proj1 (only_fetchUserQuota_writes_quota s) _ Hc).
Defined.

(** ** Settings and the page's appearance *)

(** X9: what the page applies to the document root depends only on the
    theme and the font size: toggling dark mode, and setting the reading
    speed, auto-download or notifications, never change it. In particular
    the darkMode flag does not make the page dark. *)
Theorem appearance_ignores_other_settings
    (a : SettingsStore.Action) (s : SettingsStore.UserSettings)
    (prefersDark : bool) :
  (forall t, a <> SettingsStore.SetTheme t) ->
  (forall size, a <> SettingsStore.SetFontSize size) ->
  a <> SettingsStore.ResetSettings ->
  Appearance.apply (SettingsStore.run a s) prefersDark =
  Appearance.apply s prefersDark.
Proof.
  intros Htheme Hsize Hreset. destruct a; try reflexivity.
  - now destruct (Hsize size).
  - now destruct (Htheme t).
  - now destruct Hreset.
Qed.

Lemma appearance_ignores_other_settings_witness :
  let s := SettingsStore.setTheme SettingsStore.light SettingsStore.defaultSettings in
  SettingsStore.darkMode (SettingsStore.toggleDarkMode s) = true /\
  Appearance.dark_class
    (Appearance.apply (SettingsStore.toggleDarkMode s) true) = false.
Proof.
  intros s. split; [reflexivity |].
  assert (H1 : forall t, SettingsStore.ToggleDarkMode <> SettingsStore.SetTheme t)
    by discriminate.
  assert (H2 : forall z, SettingsStore.ToggleDarkMode <> SettingsStore.SetFontSize z)
    by discriminate.
  assert (H3 : SettingsStore.ToggleDarkMode <> SettingsStore.ResetSettings)
    by discriminate.
  change (SettingsStore.toggleDarkMode s)
    with (SettingsStore.run SettingsStore.ToggleDarkMode s).
  rewrite (appearance_ignores_other_settings SettingsStore.ToggleDarkMode s true
             H1 H2 H3).
  reflexivity.
Defined.

(** ** TimeSelector: the buttons *)

Section TimeButtons.
Import TimeSelector.

Lemma render_explicit (sel : option Z) :
  render sel =
    [mkButton 10 (bool_decide (sel = Some 10)) 10 10;
     mkButton 20 (bool_decide (sel = Some 20)) 20 20;
     mkButton 30 (bool_decide (sel = Some 30)) 30 30;
     mkButton 60 (bool_decide (sel = Some 60)) 60 60].
Proof. reflexivity. Qed.

Lemma selected_button (sel : option Z) (b : Button) :
  b ∈ render sel -> isSelected b = true ->
  sel = Some (onClick b) /\ onClick b ∈ [10; 20; 30; 60].
Proof.
  rewrite render_explicit. intros Hb Hsel.
  repeat (apply elem_of_cons in Hb as [-> | Hb]);
    try (cbn in Hsel; apply bool_decide_eq_true in Hsel;
         split; [exact Hsel | cbn; repeat constructor]).
  inversion Hb.
Qed.

End TimeButtons.

(** X10: the four time buttons have distinct keys, at most one of them is
    drawn as selected, one is drawn as selected exactly when the selected
    time is one of 10, 20, 30 and 60, and a click on the selected button
    passes the time that is already selected. *)
Theorem time_buttons_selection (sel : option Z) :
  NoDup (TimeSelector.key <$> TimeSelector.render sel) /\
  (length (List.filter TimeSelector.isSelected (TimeSelector.render sel)) <= 1)%nat /\
  ((exists b, b ∈ TimeSelector.render sel /\ TimeSelector.isSelected b = true) <->
   (exists t, sel = Some t /\ t ∈ [10; 20; 30; 60])) /\
  (forall b, b ∈ TimeSelector.render sel -> TimeSelector.isSelected b = true ->
     sel = Some (TimeSelector.onClick b)).
Proof.
  split; [| split; [| split]].
  - apply (bool_decide_unpack _). vm_compute. exact I.
  - rewrite render_explicit. cbn [List.filter TimeSelector.isSelected].
    repeat case_bool_decide; simplify_eq; cbn; lia.
  - split.
    + intros (b & Hb & Hsel). destruct (selected_button sel b Hb Hsel). eauto.
    + intros (t & -> & Ht). rewrite render_explicit.
      repeat (apply elem_of_cons in Ht as [-> | Ht]); [| | | | inversion Ht].
      * eexists. split; [left | reflexivity].
      * eexists. split; [right; left | reflexivity].
      * eexists. split; [do 2 right; left | reflexivity].
      * eexists. split; [do 3 right; left | reflexivity].
  - intros b Hb Hsel. now destruct (selected_button sel b Hb Hsel).
Qed.

Lemma time_buttons_selection_witness :
  exists b, b ∈ TimeSelector.render (Some 30) /\ TimeSelector.isSelected b = true.
Proof.
  apply (proj2 (proj1 (proj2 (proj2 (time_buttons_selection (Some 30)))))).
  exists 30. split; [reflexivity | do 2 right; left].
Defined.

(** ** StudyPack: expanding sections, badges, download, page frame *)

(** X11: toggling a section flips whether that section is expanded and
    leaves every other section, the quiz switch and the download flag as
    they were; a set without repetition stays one; toggling twice gives
    back the same expanded sections. *)
Theorem toggleSection_flips (index : nat) (s : StudyPack.State) :
  (forall j,
     j ∈ StudyPack.expandedSections (StudyPack.toggleSection index s) <->
     (j <> index /\ j ∈ StudyPack.expandedSections s) \/
     (j = index /\ index ∉ StudyPack.expandedSections s)) /\
  (NoDup (StudyPack.expandedSections s) ->
   NoDup (StudyPack.expandedSections (StudyPack.toggleSection index s))) /\
  StudyPack.showQuiz (StudyPack.toggleSection index s) = StudyPack.showQuiz s /\
  StudyPack.downloading (StudyPack.toggleSection index s) = StudyPack.downloading s /\
  (forall j,
     j ∈ StudyPack.expandedSections
           (StudyPack.toggleSection index (StudyPack.toggleSection index s)) <->
     j ∈ StudyPack.expandedSections s).
Proof.
  assert (Hflip : forall s j,
     j ∈ StudyPack.expandedSections (StudyPack.toggleSection index s) <->
     (j <> index /\ j ∈ StudyPack.expandedSections s) \/
     (j = index /\ index ∉ StudyPack.expandedSections s)).
  { intros s' j. unfold StudyPack.toggleSection. cbn. case_bool_decide as Hin.
    - rewrite list_elem_of_filter. split; [intros [? ?]; now left |].
      intros [[? ?] | [_ ?]]; [done | contradiction].
    - rewrite elem_of_app, list_elem_of_singleton. split.
      + intros [Hj | ->]; [left | now right].
        split; [| exact Hj]. intros ->. contradiction.
      + intros [[_ ?] | [-> _]]; [now left | now right]. }
  split; [apply Hflip |]. split; [| split; [reflexivity | split; [reflexivity |]]].
  - intros Hnd. unfold StudyPack.toggleSection. cbn. case_bool_decide as Hin.
    + now apply NoDup_filter.
    + apply NoDup_app. split; [exact Hnd |]. split; [| apply NoDup_singleton].
      intros x Hx ->%list_elem_of_singleton. contradiction.
  - intros j. rewrite Hflip, (Hflip s index), (Hflip s j).
    destruct (decide (j = index)) as [-> | Hne];
      destruct (decide (index ∈ StudyPack.expandedSections s)); tauto.
Qed.

Lemma toggleSection_flips_witness :
  NoDup (StudyPack.expandedSections
           (StudyPack.toggleSection 2 StudyPack.initial)) /\
  StudyPack.expandedSections (StudyPack.toggleSection 0 StudyPack.initial) = [].
Proof.
  split; [| reflexivity].
  apply (proj1 (proj2 (toggleSection_flips 2 StudyPack.initial))).
  apply NoDup_singleton.
Defined.

Section Badges.
Import StudyPack.

Lemma colour_of_tier (x : float) :
  (getImportanceColor (importance_of x) = "bg-red-100 text-red-700 border-red-200"
   <-> importance_of x = "High") /\
  (getImportanceColor (importance_of x) = "bg-yellow-100 text-yellow-700 border-yellow-200"
   <-> importance_of x = "Medium") /\
  (getImportanceColor (importance_of x) = "bg-green-100 text-green-700 border-green-200"
   <-> importance_of x = "Low") /\
  getImportanceColor (importance_of x) <> "bg-gray-100 text-gray-700 border-gray-200".
Proof.
  unfold importance_of.
  destruct (PrimFloat.ltb 0.7 x); [| destruct (PrimFloat.ltb 0.4 x)];
    cbn; repeat split; (discriminate || reflexivity).
Qed.

End Badges.

(** X12: the badge of a section built from a response chunk never takes
    the fallback gray: it is red exactly when the score is above 0.7,
    yellow exactly when it is above 0.4 and at most 0.7, and green
    otherwise. *)
Theorem badge_colour_by_score
    (st : StudyPack.State) (i : nat) (chunk : Wire.Chunk) :
  let badge := StudyPack.sv_badge
                 (StudyPack.view_section st i (StudyPack.section_of i chunk)) in
  let score := Wire.importance_score chunk in
  badge <> "bg-gray-100 text-gray-700 border-gray-200" /\
  (badge = "bg-red-100 text-red-700 border-red-200" <->
     (0.7 <? score)%float = true) /\
  (badge = "bg-yellow-100 text-yellow-700 border-yellow-200" <->
     (0.4 <? score)%float = true /\ (score <=? 0.7)%float = true) /\
  (badge = "bg-green-100 text-green-700 border-green-200" <->
     (0.7 <? score)%float <> true /\
     ~ ((0.4 <? score)%float = true /\ (score <=? 0.7)%float = true)).
Proof.
  cbv zeta. cbn [StudyPack.view_section StudyPack.sv_badge
                 StudyPack.section_of StudyPack.importance].
  destruct (colour_of_tier (Wire.importance_score chunk)) as (Hr & Hy & Hg & Hgray).
  destruct (importance_of_cases (Wire.importance_score chunk)) as (Hh & Hm & Hl).
  split; [exact Hgray |].
  split; [now rewrite Hr |]. split; [now rewrite Hy | now rewrite Hg].
Qed.

(** X13: the download button is enabled exactly when no download is in
    progress, the history id is present and not 0, and the quota is not
    one of a free plan; a quota that has not been loaded does not disable
    it. *)
Theorem download_enabled_iff
    (downloading : bool) (historyId : option Z)
    (userQuota : option PricingStore.UserQuota) :
  StudyPack.download_disabled downloading historyId userQuota = false <->
  downloading = false /\
  (exists hid, historyId = Some hid /\ hid <> 0) /\
  (forall q, userQuota = Some q -> PricingStore.plan_type q <> PricingStore.free).
Proof.
  unfold StudyPack.download_disabled, Js.truthy_opt_num, Js.truthy_num,
    PricingStore.is_free.
  rewrite !orb_false_iff, negb_false_iff. split.
  - intros [[Hd Hh] Hq]. split; [exact Hd |]. split.
    + destruct historyId as [hid |]; [| discriminate].
      exists hid. split; [reflexivity |].
      apply negb_true_iff, Z.eqb_neq in Hh. exact Hh.
    + intros q ->. now apply bool_decide_eq_false in Hq.
  - intros (Hd & (hid & -> & Hne) & Hq). split; [split; [exact Hd |] |].
    + now apply negb_true_iff, Z.eqb_neq.
    + destruct userQuota as [q |]; [| reflexivity].
      apply bool_decide_eq_false. now apply Hq.
Qed.

Lemma download_enabled_iff_witness :
  StudyPack.download_disabled false (Some 12) None = false.
Proof.
  apply (proj2 (download_enabled_iff false (Some 12) None)).
  split; [reflexivity |]. split; [exists 12; split; [reflexivity | lia] |].
  intros q Hq. discriminate Hq.
Defined.

(** X14: when handleDownload raises the downloading flag it always lowers
    it again as its last step, after exactly one request, whether the
    request succeeded or failed; a failed request is reported by the alert
    'Failed to download PDF' and saves nothing; and a file is saved only
    after a request with a history id succeeded. *)
Theorem handleDownload_lowers_flag
    (historyId : option Z) (o : Api.AxiosError + unit) :
  let t := StudyPack.handleDownload historyId o in
  (StudyPack.SetDownloading true ∈ t ->
     last t = Some (StudyPack.SetDownloading false) /\
     length (StudyPack.requests t) = 1%nat) /\
  (forall e, o = inl e -> StudyPack.SetDownloading true ∈ t ->
     StudyPack.Alert "Failed to download PDF" ∈ t /\ StudyPack.SaveBlob ∉ t) /\
  (StudyPack.SaveBlob ∈ t ->
     exists hid, historyId = Some hid /\ hid <> 0 /\ o = inr tt).
Proof.
  cbv zeta. unfold StudyPack.handleDownload.
  destruct historyId as [hid |].
  - unfold Js.truthy_num. destruct (Z.eqb_spec hid 0) as [-> | Hne]; cbn.
    + split; [| split].
      * intros H. repeat (apply elem_of_cons in H as [[=] | H]). inversion H.
      * intros e _ H. repeat (apply elem_of_cons in H as [[=] | H]). inversion H.
      * intros H. repeat (apply elem_of_cons in H as [[=] | H]). inversion H.
    + destruct o as [e | []]; cbn.
      * split; [intros _; split; reflexivity |]. split.
        -- intros e' _ _. split; [do 3 right; left |].
           intros H. repeat (apply elem_of_cons in H as [[=] | H]). inversion H.
        -- intros H. repeat (apply elem_of_cons in H as [[=] | H]). inversion H.
      * split; [intros _; split; reflexivity |]. split.
        -- intros e' [=].
        -- intros _. exists hid. repeat split; assumption.
  - split; [| split].
    + intros H. repeat (apply elem_of_cons in H as [[=] | H]). inversion H.
    + intros e _ H. repeat (apply elem_of_cons in H as [[=] | H]). inversion H.
    + intros H. repeat (apply elem_of_cons in H as [[=] | H]). inversion H.
Qed.

Lemma handleDownload_lowers_flag_witness :
  let e := Api.mkAxiosError None "Network Error" in
  last (StudyPack.handleDownload (Some 12) (inl e)) =
    Some (StudyPack.SetDownloading false).
Proof.
  intros e.
  apply (proj1 (handleDownload_lowers_flag (Some 12) (inl e))).
  left.
Defined.

Section PageFrame.
Import StudyPack.

Lemma when_cond (c : bool) (b x : Block) : x ∈ when c b -> c = true.
Proof. destruct c; [reflexivity | intros H; inversion H]. Qed.

Lemma nonempty_inv {A} (l : list A) : nonempty l = true -> l <> [].
Proof. now destruct l. Qed.

End PageFrame.

(** X15: while the quota has not been loaded, the page shows neither the
    Key Takeaways section, nor the quiz section, nor either upgrade
    notice, whatever the response holds. *)
Theorem render_without_quota (p : StudyPack.Props) (st : StudyPack.State) :
  Forall (fun b => StudyPack.is_KeyTakeaways b = false /\
                   StudyPack.is_KnowledgeCheck b = false /\
                   b <> StudyPack.KeyTakeawaysUpgradeNotice /\
                   b <> StudyPack.QuizUpgradeNotice)
    (StudyPack.render p st None).
Proof.
  unfold StudyPack.render. cbn. unfold StudyPack.when.
  destruct (StudyPack.nonempty _); cbn; repeat constructor; discriminate.
Qed.

(** X16: whatever the plan, the page starts with the header, ends with
    the Start Over button, and holds the outline and the section list; the
    processing notes are on the page exactly when the response has at
    least one note, and then all of them are. *)
Theorem render_frame
    (p : StudyPack.Props) (st : StudyPack.State)
    (q : option PricingStore.UserQuota) :
  let page := StudyPack.render p st q in
  let pd := StudyPack.processedData p in
  (exists disabled label hint,
      head page = Some (StudyPack.Header (StudyPack.fileName p) disabled label hint)) /\
  last page = Some StudyPack.StartOverButton /\
  StudyPack.StudyOutline (StudyPack.outline pd) ∈ page /\
  (exists views,
      StudyPack.MustReadSections views ∈ page /\
      StudyPack.sv_section <$> views = StudyPack.sections pd) /\
  (forall notes,
      StudyPack.ProcessingNotes notes ∈ page <->
      notes = StudyPack.processingNotes pd /\ notes <> []).
Proof.
  cbv zeta. unfold StudyPack.render.
  split; [cbn; eauto |].
  split; [rewrite !app_assoc; apply last_snoc |].
  split; [cbn; right; left |].
  split.
  { eexists. split; [cbn; do 2 right; left | apply view_section_forgets]. }
  intros notes. split.
  - rewrite !elem_of_app, !elem_of_cons.
    intros [[H | [H | [H | H]]] | [H | [H | [H | [H | [H | H]]]]]];
      try discriminate H; try (now inversion H);
      try (apply elem_of_when in H; discriminate H).
    pose proof (when_cond _ _ _ H) as Hc. apply elem_of_when in H.
    injection H as ->. split; [reflexivity |]. now apply nonempty_inv.
  - intros [-> Hne]. rewrite (nonempty_true _ Hne).
    rewrite !elem_of_app. right. right. right. left. left.
Qed.

Lemma render_frame_witness :
  let pd := Wire.mkProcessedData None None None None 0 None "thermo.pdf"
              (Some ["Processed for 20 minute reading time"]) None in
  let p := StudyPack.mkProps "thermo.pdf" (Some pd) None in
  StudyPack.ProcessingNotes ["Processed for 20 minute reading time"]
    ∈ StudyPack.render p StudyPack.initial None.
Proof.
  intros pd p.
  apply (proj2 (proj2 (proj2 (proj2 (proj2 (render_frame p StudyPack.initial None))))
                  ["Processed for 20 minute reading time"])).
  split; [reflexivity | discriminate].
Defined.

(** ** ProcessingLoader: how a run ends *)

Section LoaderRuns.
Import ProcessingLoader LoaderTrace.

Lemma or_str_nonempty (a : option string) (b : string) :
  b <> "" -> Js.or_str a b <> "".
Proof. intros Hb. destruct a as [[| c s] |]; cbn; auto; discriminate. Qed.

Lemma on_catch_reads (err : Api.AxiosError) :
  requests (on_catch err) = [] /\
  completions (on_catch err) = [] /\
  last (on_catch err) = Some (SetIsProcessing false) /\
  (forall before, modal_flag_after (on_catch err) before
                  = Api.status_is 403 err || before) /\
  forall error : option string,
    exists msg,
      fold_left (fun error e => match e with SetError x => x | _ => error end)
        (on_catch err) error = Some msg /\ msg <> "".
Proof.
  unfold on_catch. destruct (Api.status_is 403 err); cbn; repeat split;
    intros _; eexists; (split; [reflexivity |]); apply or_str_nonempty.
  - discriminate.
  - destruct (Api.err_message err); cbn; discriminate.
Qed.

Lemma loader_completions uq file t f1 up f2 :
  completions (processPDF uq file t f1 up f2) =
    match f1, up, f2 with
    | inr _, inr data, inr _ =>
        if PricingStore.out_of_free_pdfs uq then [] else [data]
    | _, _, _ => []
    end.
Proof.
  unfold processPDF. destruct f1 as [e | q]; [reflexivity |]. cbn.
  destruct (PricingStore.out_of_free_pdfs uq) eqn:Hq.
  - destruct up as [|data]; [reflexivity |]. now destruct f2.
  - cbn. destruct up as [err | data].
    + apply on_catch_reads.
    + cbn. destruct f2 as [err | q2]; [apply on_catch_reads | reflexivity].
Qed.

End LoaderRuns.

(** X17: a run of the loader hands a result to onComplete exactly when
    the captured quota is not exhausted and the quota request, the upload
    and the quota refresh after it all succeed, and then it is the
    upload's response, handed over once, after the one upload request. A
    successful upload whose quota refresh fails is not handed over. *)
Theorem loader_completes_once
    (uq : option PricingStore.UserQuota) (file : File) (t : Z)
    (f1 : PricingStore.FetchOutcome)
    (up : Api.AxiosError + Wire.ProcessedData)
    (f2 : PricingStore.FetchOutcome) :
  let trace := ProcessingLoader.processPDF uq file t f1 up f2 in
  (forall data,
     data ∈ LoaderTrace.completions trace <->
     PricingStore.out_of_free_pdfs uq = false /\ up = inr data /\
     (exists q1, f1 = inr q1) /\ (exists q2, f2 = inr q2)) /\
  (length (LoaderTrace.completions trace) <= 1)%nat /\
  (length (ProcessingLoader.requests trace) <= 1)%nat /\
  (LoaderTrace.completions trace <> [] ->
     ProcessingLoader.requests trace = [Api.processPDF file t]).
Proof.
  cbv zeta. rewrite loader_completions, loader_requests.
  destruct f1 as [e1 | q1], up as [eu | data], f2 as [e2 | q2],
    (PricingStore.out_of_free_pdfs uq); cbn;
    (split; [intros d; split;
       [intros H; try (now inversion H);
        apply list_elem_of_singleton in H as ->; eauto 10
       | intros (? & ? & (? & ?) & (? & ?)); try discriminate; simplify_eq; left]
     | repeat split; try lia; try congruence]).
Qed.

Lemma loader_completes_once_witness :
  let file := mkFile "thermo.pdf" "application/pdf" 90000 in
  let pd := Wire.mkProcessedData None None None None 0 None "thermo.pdf" None None in
  let e := Api.mkAxiosError None "Network Error" in
  ProcessingLoader.requests
    (ProcessingLoader.processPDF None file 20 (inr None) (inr pd) (inr None))
    = [Api.processPDF file 20] /\
  LoaderTrace.completions
    (ProcessingLoader.processPDF None file 20 (inr None) (inr pd) (inl e)) = [].
Proof.
  intros file pd e. split; [| reflexivity].
  apply (proj2 (proj2 (proj2 (loader_completes_once None file 20
                                (inr None) (inr pd) (inr None))))).
  discriminate.
Defined.

(** X18: when a run has sent the upload and hands no result over, it ends
    by clearing the processing flag and has set an error message that is
    not empty, so what the component returns is the Processing Failed
    screen with that message. The run sets showSubscribeModal exactly
    when the call that failed was answered with status 403; the modal is
    not drawn then either, the failure screen being returned before the
    modal's markup. *)
Theorem loader_failure_is_shown
    (uq : option PricingStore.UserQuota) (file : File) (t : Z)
    (f1 : PricingStore.FetchOutcome)
    (up : Api.AxiosError + Wire.ProcessedData)
    (f2 : PricingStore.FetchOutcome) (before : bool) :
  let trace := ProcessingLoader.processPDF uq file t f1 up f2 in
  ProcessingLoader.requests trace <> [] ->
  LoaderTrace.completions trace = [] ->
  (exists msg,
      LoaderTrace.error_after trace = Some msg /\ msg <> "" /\
      LoaderTrace.render (LoaderTrace.error_after trace)
        (LoaderTrace.modal_flag_after trace before)
      = LoaderTrace.ProcessingFailed msg) /\
  LoaderTimers.shows_failure (LoaderTrace.error_after trace) = true /\
  last trace = Some (ProcessingLoader.SetIsProcessing false) /\
  (forall err,
     up = inl err \/ (exists data, up = inr data /\ f2 = inl err) ->
     LoaderTrace.modal_flag_after trace before = Api.status_is 403 err || before).
Proof.
  cbv zeta. rewrite loader_completions, loader_requests.
  destruct f1 as [e1 | q1]; [intros H; now destruct H |].
  destruct (PricingStore.out_of_free_pdfs uq) eqn:Hq; [intros H; now destruct H |].
  intros _ Hnone.
  assert (Hcatch : exists err,
    ProcessingLoader.processPDF uq file t (inr q1) up f2 =
      [ProcessingLoader.SetError None; ProcessingLoader.FetchUserQuota;
       ProcessingLoader.Send (Api.processPDF file t)] ++
      match up with
      | inl _ => []
      | inr _ => [ProcessingLoader.SetProgress 100;
                  ProcessingLoader.SetCurrentStep 3;
                  ProcessingLoader.FetchUserQuota]
      end ++ ProcessingLoader.on_catch err /\
    (forall err', up = inl err' \/ (exists data, up = inr data /\ f2 = inl err') ->
       err' = err)).
  { unfold ProcessingLoader.processPDF. rewrite Hq.
    destruct up as [err | data].
    - exists err. split; [reflexivity |].
      intros err' [[= ->] | (d & [=] & _)]. reflexivity.
    - destruct f2 as [err | q2]; [| discriminate Hnone].
      exists err. split; [reflexivity |].
      intros err' [[=] | (d & _ & [= ->])]. reflexivity. }
  destruct Hcatch as (err & -> & Hsame).
  destruct (on_catch_reads err) as (_ & _ & Hlast & Hmodal & Herr).
  assert (Hmsg : exists msg,
    LoaderTrace.error_after
      ([ProcessingLoader.SetError None; ProcessingLoader.FetchUserQuota;
        ProcessingLoader.Send (Api.processPDF file t)] ++
       match up with
       | inl _ => []
       | inr _ => [ProcessingLoader.SetProgress 100;
                   ProcessingLoader.SetCurrentStep 3;
                   ProcessingLoader.FetchUserQuota]
       end ++ ProcessingLoader.on_catch err) = Some msg /\ msg <> "").
  { unfold LoaderTrace.error_after. rewrite !fold_left_app. apply Herr. }
  destruct Hmsg as (msg & Hmsg & Hne). rewrite Hmsg.
  split; [| split; [| split]].
  - exists msg. split; [reflexivity |]. split; [exact Hne |].
    destruct msg; [now destruct Hne | reflexivity].
  - cbn. now destruct msg.
  - rewrite !app_assoc. rewrite last_app, Hlast. reflexivity.
  - intros err' H. rewrite (Hsame err' H).
    unfold LoaderTrace.modal_flag_after in *. rewrite !fold_left_app, Hmodal.
    now destruct up.
Qed.

Lemma loader_failure_is_shown_witness :
  let file := mkFile "thermo.pdf" "application/pdf" 90000 in
  let e := Api.mkAxiosError (Some (Api.mkResponse 403 (Some "Quota exceeded"))) "" in
  let trace :=
    ProcessingLoader.processPDF None file 20 (inr None) (inl e) (inr None) in
  LoaderTrace.modal_flag_after trace false = true /\
  LoaderTrace.render (LoaderTrace.error_after trace)
    (LoaderTrace.modal_flag_after trace false)
  = LoaderTrace.ProcessingFailed "Quota exceeded".
Proof.
  intros file e trace.
  assert (H1 : ProcessingLoader.requests trace <> []) by discriminate.
  destruct (loader_failure_is_shown None file 20 (inr None) (inl e) (inr None)
              false H1 eq_refl) as ((msg & Hmsg & _ & Hrender) & _ & _ & Hflag).
  split; [exact (Hflag e (or_introl eq_refl)) |].
  fold trace in Hrender, Hmsg. rewrite Hrender. f_equal.
  vm_compute in Hmsg. now injection Hmsg as <-.
Defined.

(** ** ProcessingLoader: the progress bar and the steps *)

Section Timers.
Import LoaderTimers.

Lemma run_snoc (es : list Event) (e : Event) (st : State) :
  run (es ++ [e]) st = step e (run es st).
Proof. unfold run. now rewrite fold_left_app. Qed.

Lemma progress_after_ticks (n : nat) :
  let st := run (replicate n ProgressTick) initial in
  progress st = Z.min (2 * Z.of_nat n) 90 /\
  progress_timer st = bool_decide (n <= 45)%nat /\
  currentStep st = 0 /\ step_timer st = true.
Proof.
  induction n as [| n IH]; [cbn; repeat split |].
  cbv zeta in *. rewrite replicate_S_end, run_snoc.
  destruct IH as (Hp & Ht & Hs & Hst).
  destruct (run (replicate n ProgressTick) initial) as [p pt cs stt].
  cbn in *. subst.
  case_bool_decide as Hn; cbn.
  - destruct (Z.geb_spec (Z.min (2 * Z.of_nat n) 90) 90) as [Hge | Hlt]; cbn.
    + assert (n = 45%nat) as -> by lia. repeat split.
    + repeat split; [lia |]. symmetry. apply bool_decide_eq_true. lia.
  - repeat split; [lia |]. symmetry. apply bool_decide_eq_false. lia.
Qed.

(** Without a completion the bar stays at or under 90 and the step at or
    under 2; in any case the bar is an even number within 0..100 and the
    step is within 0..3. *)
Lemma timers_bounds (es : list Event) :
  let st := run es initial in
  0 <= progress st <= 100 /\ progress st mod 2 = 0 /\
  0 <= currentStep st <= 3 /\
  (UploadCompleted ∉ es -> progress st <= 90 /\ currentStep st <= 2).
Proof.
  induction es as [| e es IH] using rev_ind; [cbn; repeat split; (Z.div_mod_to_equations; lia) |].
  cbv zeta in *. rewrite run_snoc. destruct IH as (Hp & Heven & Hs & Hno).
  destruct (run es initial) as [p pt cs stt]. cbn in *.
  rewrite not_elem_of_app.
  destruct e; cbn -[Z.of_nat Z.sub].
  - destruct pt; [destruct (Z.geb_spec p 90) |]; cbn;
      (split; [(Z.div_mod_to_equations; lia) |]); (split; [(Z.div_mod_to_equations; lia) |]); (split; [(Z.div_mod_to_equations; lia) |]);
      intros [Hnot _]; destruct (Hno Hnot); (Z.div_mod_to_equations; lia).
  - change (Z.of_nat 4 - 2) with 2.
    destruct stt; [destruct (Z.ltb_spec cs 2) |]; cbn;
      (split; [(Z.div_mod_to_equations; lia) |]); (split; [(Z.div_mod_to_equations; lia) |]); (split; [(Z.div_mod_to_equations; lia) |]);
      intros [Hnot _]; destruct (Hno Hnot); (Z.div_mod_to_equations; lia).
  - split; [(Z.div_mod_to_equations; lia) |]. split; [reflexivity |]. split; [(Z.div_mod_to_equations; lia) |].
    intros [_ Hnot]. exfalso. apply Hnot. left.
Qed.

End Timers.

(** X19: after n ticks of its timer the progress bar stands at 2n per
    cent, capped at 90; and as long as the upload has not completed,
    whatever ticks have fired, the bar is at most 90 and the step shown is
    never the last one, 'Ready to Study!'. *)
Theorem timers_wait_for_upload :
  (forall n : nat,
      LoaderTimers.progress
        (LoaderTimers.run (replicate n LoaderTimers.ProgressTick)
           LoaderTimers.initial)
      = Z.min (2 * Z.of_nat n) 90) /\
  (forall es : list LoaderTimers.Event,
      LoaderTimers.UploadCompleted ∉ es ->
      LoaderTimers.progress (LoaderTimers.run es LoaderTimers.initial) <= 90 /\
      LoaderTimers.currentStep (LoaderTimers.run es LoaderTimers.initial)
        < Z.of_nat (length LoaderTimers.steps) - 1).
Proof.
  split.
  - intros n. apply (progress_after_ticks n).
  - intros es Hes. destruct (timers_bounds es) as (_ & _ & _ & H).
    destruct (H Hes). cbn. lia.
Qed.

Lemma timers_wait_for_upload_witness :
  LoaderTimers.progress
    (LoaderTimers.run
       [LoaderTimers.ProgressTick; LoaderTimers.StepTick; LoaderTimers.StepTick;
        LoaderTimers.StepTick; LoaderTimers.StepTick]
       LoaderTimers.initial) <= 90.
Proof.
  apply (proj2 timers_wait_for_upload).
  intros H. repeat (apply elem_of_cons in H as [[=] | H]). inversion H.
Defined.

(** X20: when the upload completes while the progress timer is still
    running, that is within its first 45 ticks, the bar is set to 100 and
    the next tick of the timer takes it back to 90, where it stays, the
    timer being cleared; the step, once set to the last one, stays
    there. *)
Theorem completed_bar_falls_back (n : nat) (later : list LoaderTimers.Event) :
  (n <= 45)%nat ->
  LoaderTimers.UploadCompleted ∉ later ->
  let done :=
    LoaderTimers.run
      (replicate n LoaderTimers.ProgressTick ++ [LoaderTimers.UploadCompleted])
      LoaderTimers.initial in
  LoaderTimers.progress done = 100 /\
  LoaderTimers.progress
    (LoaderTimers.run (LoaderTimers.ProgressTick :: later) done) = 90 /\
  LoaderTimers.currentStep
    (LoaderTimers.run (LoaderTimers.ProgressTick :: later) done) = 3.
Proof.
  intros Hn Hlater. cbv zeta. rewrite run_snoc.
  destruct (progress_after_ticks n) as (Hp & Ht & Hs & Hst).
  rewrite bool_decide_eq_true_2 in Ht by exact Hn.
  destruct (LoaderTimers.run (replicate n LoaderTimers.ProgressTick)
              LoaderTimers.initial) as [p pt cs stt].
  cbn in Hp, Ht, Hs, Hst. subst. cbn.
  split; [reflexivity |].
  assert (Hstay : forall es stt,
    LoaderTimers.UploadCompleted ∉ es ->
    let st := LoaderTimers.run es (LoaderTimers.mkState 90 false 3 stt) in
    LoaderTimers.progress st = 90 /\ LoaderTimers.currentStep st = 3).
  { clear. intros es. induction es as [| e es IH]; intros stt Hes; [now cbn |].
    apply not_elem_of_cons in Hes as [He Hes].
    destruct e; [| | contradiction]; cbn.
    - now apply IH.
    - destruct stt; cbn; now apply IH. }
  apply (Hstay later true Hlater).
Qed.

Lemma completed_bar_falls_back_witness :
  LoaderTimers.progress
    (LoaderTimers.run
       (replicate 10 LoaderTimers.ProgressTick ++
        [LoaderTimers.UploadCompleted; LoaderTimers.ProgressTick])
       LoaderTimers.initial) = 90.
Proof.
  assert (Hn : (10 <= 45)%nat) by lia.
  assert (Hl : LoaderTimers.UploadCompleted ∉ ([] : list LoaderTimers.Event))
    by (intros H; inversion H).
  pose proof (proj1 (proj2 (completed_bar_falls_back 10 [] Hn Hl))) as H.
  unfold LoaderTimers.run in *. rewrite fold_left_app. exact H.
Defined.

(** ** App: what the screens can rely on *)

Section Screens.
Import App.

(** The facts that the transitions keep: a file on the time-select
    screen, a file and one of the four times on the processing screen, a
    response on the results screen. *)
Lemma step_keeps_screen_facts (e : Event) (w : World) :
  (forall i, e = TimeButtonClicked i -> Screen.time_selector_shown w = true) ->
  ((currentState (app w) = time_select -> is_Some (selectedFile (app w))) /\
   (currentState (app w) = processing ->
      is_Some (selectedFile (app w)) /\
      exists t, selectedTime (app w) = Some t /\ t ∈ [10; 20; 30; 60]) /\
   (currentState (app w) = results -> is_Some (processedData (app w)))) ->
  (currentState (app (step e w)) = time_select ->
     is_Some (selectedFile (app (step e w)))) /\
  (currentState (app (step e w)) = processing ->
     is_Some (selectedFile (app (step e w))) /\
     exists t, selectedTime (app (step e w)) = Some t /\ t ∈ [10; 20; 30; 60]) /\
  (currentState (app (step e w)) = results ->
     is_Some (processedData (app (step e w)))).
Proof.
  intros Hguard (Hts & Hpr & Hrs).
  assert (Hkeep : forall c f t d,
    c = currentState (app w) -> f = selectedFile (app w) ->
    t = selectedTime (app w) -> d = processedData (app w) ->
    (c = time_select -> is_Some f) /\
    (c = processing ->
       is_Some f /\ exists t', t = Some t' /\ t' ∈ [10; 20; 30; 60]) /\
    (c = results -> is_Some d)).
  { intros c f t d -> -> -> ->. auto. }
  assert (Hleave : forall c (f : option File) (t : option Z)
                          (d : option Wire.ProcessedData),
    c <> time_select -> c <> processing -> c <> results ->
    (c = time_select -> is_Some f) /\
    (c = processing ->
       is_Some f /\ exists t', t = Some t' /\ t' ∈ [10; 20; 30; 60]) /\
    (c = results -> is_Some d)).
  { intros c f t d H1 H2 H3. repeat split; intros; contradiction. }
  destruct e; cbn;
    try (apply Hkeep; reflexivity); try (apply Hleave; discriminate).
  - (* FileSelected *)
    unfold handleFileSelect.
    destruct o as [err | q]; cbn; [now apply Hkeep |].
    destruct (PricingStore.out_of_free_pdfs q); cbn; [now apply Hkeep |].
    destruct (AuthStore.isAuthenticated (auth w)); cbn;
      [| apply Hleave; discriminate].
    split; [cbn; eauto | split; discriminate].
  - (* TimeButtonClicked *)
    destruct (TimeSelector.click _ i) as [time |] eqn:Hclick; cbn;
      [| now apply Hkeep].
    specialize (Hguard i eq_refl). unfold Screen.time_selector_shown in Hguard.
    apply andb_true_iff in Hguard as [Hstate _].
    apply bool_decide_eq_true in Hstate.
    split; [discriminate |]. split; [| discriminate].
    intros _. split; [now apply Hts |].
    exists time. split; [reflexivity |]. exact (click_in_options _ _ _ Hclick).
  - (* ProcessingCompleted *)
    split; [discriminate |]. split; [discriminate | cbn; eauto].
  - (* ShowHistoryClicked *)
    unfold handleShowHistory.
    destruct (AuthStore.isAuthenticated (auth w)); cbn; apply Hleave; discriminate.
  - (* HistoryItemLoaded *)
    unfold loadHistoryItem.
    destruct (Js.truthy_opt_num _); [| now apply Hkeep].
    destruct o; cbn; [apply Hleave; discriminate | now apply Hkeep].
  - (* AuthSucceeded *)
    unfold handleAuthSuccess.
    destruct (selectedFile (app w)) eqn:Hfile; cbn; [| apply Hleave; discriminate].
    split; [cbn; rewrite Hfile; eauto | split; discriminate].
  - (* GoTo *)
    unfold inline_target.
    destruct c; cbn; first [now apply Hkeep | apply Hleave; discriminate].
  - (* PricingClicked *)
    destruct hasActiveSubscription; cbn; apply Hleave; discriminate.
Qed.

Lemma reachable_screen_facts (w : World) :
  Screen.reachable w ->
  (currentState (app w) = time_select -> is_Some (selectedFile (app w))) /\
  (currentState (app w) = processing ->
     is_Some (selectedFile (app w)) /\
     exists t, selectedTime (app w) = Some t /\ t ∈ [10; 20; 30; 60]) /\
  (currentState (app w) = results -> is_Some (processedData (app w))).
Proof.
  induction 1 as [| e w Hw IH Hguard].
  - cbn. repeat split; discriminate.
  - now apply step_keeps_screen_facts.
Qed.

Lemma option_time_nonzero (t : Z) : t ∈ [10; 20; 30; 60] -> Js.truthy_num t = true.
Proof.
  intros H. repeat (apply elem_of_cons in H as [-> | H]); try reflexivity.
  inversion H.
Qed.

End Screens.

(** X21: in every state the page can reach, the time-select screen has a
    selected file, the processing screen mounts the loader (it has a
    selected file and a non-zero selected time), and the results screen
    has a response to show. *)
Theorem screens_have_their_data (w : App.World) :
  Screen.reachable w ->
  (App.currentState (App.app w) = App.time_select ->
     is_Some (App.selectedFile (App.app w))) /\
  (App.currentState (App.app w) = App.processing ->
     is_Some (App.mounted_loader w)) /\
  (App.currentState (App.app w) = App.results ->
     is_Some (App.processedData (App.app w))).
Proof.
  intros Hw. destruct (reachable_screen_facts w Hw) as (Hts & Hpr & Hrs).
  split; [exact Hts |]. split; [| exact Hrs].
  intros Hstate. destruct (Hpr Hstate) as ([file Hfile] & t & Htime & Ht).
  unfold App.mounted_loader. rewrite Hstate, Hfile, Htime.
  rewrite (option_time_nonzero t Ht). eauto.
Qed.

Lemma screens_have_their_data_witness :
  let file := mkFile "thermo.pdf" "application/pdf" 90000 in
  let q := PricingStore.mkUserQuota PricingStore.starter 1 (Some 15) true "" in
  let w0 := App.step
              (App.AuthChanged
                 (AuthStore.ALogin
                    (AuthStore.mkUser 7 "ada@example.org" "Ada" None "2025-01-01")
                    "eyJhbGciOi"))
              App.initial_world in
  let w1 := App.step (App.FileSelected file (inr (Some q))) w0 in
  let w2 := App.step (App.TimeButtonClicked 3) w1 in
  App.currentState (App.app w2) = App.processing /\
  is_Some (App.mounted_loader w2).
Proof.
  intros file q w0 w1 w2.
  assert (Hstate : App.currentState (App.app w2) = App.processing) by reflexivity.
  split; [exact Hstate |].
  assert (H0 : Screen.reachable w0).
  { apply Screen.reachable_step; [apply Screen.reachable_initial | discriminate]. }
  assert (H1 : Screen.reachable w1).
  { apply Screen.reachable_step; [exact H0 | discriminate]. }
  assert (H2 : Screen.reachable w2).
  { apply Screen.reachable_step; [exact H1 | reflexivity]. }
  exact (proj1 (proj2 (screens_have_their_data w2 H2)) Hstate).
Defined.

(** X22: a file chosen before signing in is not lost. When the quota
    allows it and the user is not authenticated, the page keeps the file
    and asks to sign in; when the sign-in then succeeds, the auth store
    holds the returned user and token with no error and no loading flag,
    the page shows the time selector for the same file, and a click on a
    time button mounts the loader with that file. *)
Theorem file_survives_sign_in
    (w : App.World) (file : File) (q : option PricingStore.UserQuota)
    (result : GoogleLogin.AuthResult) (i : nat) (t : Z) :
  AuthStore.isAuthenticated (App.auth w) = false ->
  PricingStore.out_of_free_pdfs q = false ->
  let w1 := App.handleFileSelect file (inr q) w in
  let w2 := Screen.credential_response (inr result) w1 in
  (App.currentState (App.app w1) = App.auth_required /\
   App.selectedFile (App.app w1) = Some file) /\
  (AuthStore.isAuthenticated (App.auth w2) = true /\
   AuthStore.user (App.auth w2) = Some (GoogleLogin.result_user result) /\
   AuthStore.token (App.auth w2) = Some (GoogleLogin.access_token result) /\
   AuthStore.isLoading (App.auth w2) = false /\
   AuthStore.error (App.auth w2) = None) /\
  (App.currentState (App.app w2) = App.time_select /\
   App.selectedFile (App.app w2) = Some file) /\
  (TimeSelector.click (App.selectedTime (App.app w2)) i = Some t ->
   App.mounted_loader (App.step (App.TimeButtonClicked i) w2) = Some (q, file, t)).
Proof.
  intros Hauth Hq w1 w2.
  assert (H1 : App.app w1 =
            App.setCurrentState App.auth_required
              (App.setSelectedFile (Some file) (App.app w)) /\
          App.quota w1 = PricingStore.mkState q false None /\
          App.auth w1 = App.auth w).
  { unfold w1, App.handleFileSelect. cbn -[PricingStore.out_of_free_pdfs].
    rewrite Hq, Hauth. now cbn. }
  destruct H1 as (Happ1 & Hquota1 & Hauth1). clearbody w1.
  assert (H2 : App.app w2 = App.setCurrentState App.time_select (App.app w1) /\
          App.quota w2 = App.quota w1 /\
          App.auth w2 =
            AuthStore.mkAuthState (Some (GoogleLogin.result_user result))
              (Some (GoogleLogin.access_token result)) true false None).
  { unfold w2, Screen.credential_response. cbn.
    unfold App.handleAuthSuccess. rewrite Happ1. now cbn. }
  destruct H2 as (Happ2 & Hquota2 & Hauth2). clearbody w2.
  split; [now rewrite Happ1 |].
  split; [now rewrite Hauth2 |].
  split; [now rewrite Happ2, Happ1 |].
  intros Hclick. unfold App.step. rewrite Hclick. unfold App.mounted_loader.
  cbn. rewrite Happ2, Happ1, Hquota2, Hquota1. cbn.
  rewrite (option_time_nonzero t (click_in_options _ _ _ Hclick)). reflexivity.
Qed.

Lemma file_survives_sign_in_witness :
  let file := mkFile "thermo.pdf" "application/pdf" 90000 in
  let q := PricingStore.mkUserQuota PricingStore.free 1 (Some 3) true "2 left" in
  let result := GoogleLogin.mkAuthResult
                  (AuthStore.mkUser 7 "ada@example.org" "Ada" None "2025-01-01")
                  "eyJhbGciOi" in
  let w1 := App.handleFileSelect file (inr (Some q)) App.initial_world in
  let w2 := Screen.credential_response (inr result) w1 in
  App.mounted_loader (App.step (App.TimeButtonClicked 0) w2) = Some (Some q, file, 10).
Proof.
  intros file q result w1 w2.
  exact (proj2 (proj2 (proj2 (file_survives_sign_in App.initial_world file (Some q)
                                result 0 10 eq_refl eq_refl))) eq_refl).
Defined.

(** X23: a sign-in that fails with anything but status 401 (which the
    response interceptor handles besides) changes neither the user, the
    token nor the authenticated flag, leaves a non-empty error message
    (the server's detail, or 'Authentication failed') with the loading
    flag down, does not call onSuccess, and leaves the page where it
    was. *)
Theorem failed_sign_in_changes_nothing
    (w : App.World) (e : Api.AxiosError) :
  Api.status_is 401 e = false ->
  let w' := Screen.credential_response (inl e) w in
  snd (GoogleLogin.handleCredentialResponse (inl e) true) = false /\
  App.app w' = App.app w /\
  App.quota w' = App.quota w /\
  AuthStore.partialize (App.auth w') = AuthStore.partialize (App.auth w) /\
  AuthStore.isLoading (App.auth w') = false /\
  (exists msg, AuthStore.error (App.auth w') = Some msg /\ msg <> "") /\
  (forall d, Api.response e ≫= Api.detail = Some d -> d <> "" ->
     AuthStore.error (App.auth w') = Some d).
Proof.
  intros _. cbv zeta. unfold Screen.credential_response. cbn.
  repeat split.
  - eexists. split; [reflexivity |]. apply or_str_nonempty. discriminate.
  - intros d -> Hd. cbn. now destruct d.
Qed.

Lemma failed_sign_in_changes_nothing_witness :
  let e := Api.mkAxiosError (Some (Api.mkResponse 400 (Some "Invalid Google token")))
             "Request failed with status code 400" in
  AuthStore.error (App.auth (Screen.credential_response (inl e) App.initial_world))
  = Some "Invalid Google token".
Proof.
  intros e.
  apply (proj2 (proj2 (proj2 (proj2 (proj2 (proj2
           (failed_sign_in_changes_nothing App.initial_world e eq_refl))))))
           "Invalid Google token"); [reflexivity | discriminate].
Defined.

(** ** StudyPack: cleanEquation *)

Example cleanEquation_joins_once :
  CleanEquation.cleanEquation
    ("E   =  m" +:+ String "010"%char ("c^2" +:+ String "010"%char
       ("x" +:+ String "010"%char " y")))
  = "E = m c^2" +:+ String "010"%char ("x" +:+ String "010"%char " y").
Proof. reflexivity. Qed.

Section Cleaning.
Import CleanEquation.

Lemma collapse_single_spaced (b : bool) (s : string) :
  single_spaced b (collapse_spaces b s) = true.
Proof.
  revert b. induction s as [| c s IH]; intros b; [reflexivity |].
  cbn. destruct (is_space c) eqn:Hc.
  - destruct b; [apply IH |]. cbn. rewrite Hc. cbn. apply IH.
  - cbn. rewrite Hc. apply IH.
Qed.

Lemma collapse_length (b : bool) (s : string) :
  (String.length (collapse_spaces b s) <= String.length s)%nat.
Proof.
  revert b. induction s as [| c s IH]; intros b; [reflexivity |].
  pose proof (IH true). pose proof (IH false).
  cbn. destruct (is_space c); [destruct b |]; cbn; lia.
Qed.

Lemma equation_char_not_space (c : Ascii.ascii) :
  is_equation_char c = true -> is_space c = false.
Proof.
  unfold is_space. destruct (Ascii.eqb_spec c " "%char) as [-> |]; [| reflexivity].
  vm_compute. discriminate.
Qed.

Lemma newline_not_space (c : Ascii.ascii) : is_newline c = true -> is_space c = false.
Proof.
  unfold is_space, is_newline.
  destruct (Ascii.eqb_spec c "010"%char) as [-> |]; [reflexivity | discriminate].
Qed.

Lemma join_length (m : Mode) (s : string) :
  String.length (join_lines m s) = String.length s.
Proof.
  revert m. induction s as [| c s IH]; intros m; [reflexivity |].
  cbn. destruct (is_equation_char c); [cbn; now rewrite IH |].
  destruct (_ && _ && _); cbn; now rewrite IH.
Qed.

(** Joining lines keeps a text single-spaced: a space is written only
    between two equation characters. *)
Lemma join_single_spaced (m : Mode) (b : bool) (s : string) :
  (m = InRun -> b = false) ->
  single_spaced b s = true -> single_spaced b (join_lines m s) = true.
Proof.
  revert m b. induction s as [| c s IH]; intros m b Hm; [reflexivity |].
  cbn [join_lines].
  destruct (is_equation_char c) eqn:Hc.
  - cbn [single_spaced]. rewrite (equation_char_not_space c Hc).
    apply IH. intros _. reflexivity.
  - assert (Hplain : single_spaced b (String c s) = true ->
                     single_spaced b (String c (join_lines Outside s)) = true).
    { cbn [single_spaced]. destruct (is_space c).
      - intros [-> H]%andb_true_iff. cbn [andb]. now apply IH.
      - now apply IH. }
    destruct (is_newline c) eqn:Hn; cbn [andb]; [| exact Hplain].
    destruct m; cbn [andb]; try exact Hplain.
    destruct s as [| c' s']; [exact Hplain |].
    destruct (is_equation_char c') eqn:Hc'; [| exact Hplain].
    rewrite (Hm eq_refl). cbn [single_spaced].
    rewrite (newline_not_space c Hn).
    change (is_space " "%char) with true. cbn [negb andb].
    rewrite (equation_char_not_space c' Hc'). intros H.
    apply (IH InJoined true); [discriminate |].
    cbn [single_spaced]. now rewrite (equation_char_not_space c' Hc').
Qed.

Lemma collapse_id (b : bool) (s : string) :
  single_spaced b s = true -> collapse_spaces b s = s.
Proof.
  revert b. induction s as [| c s IH]; intros b; [reflexivity |].
  cbn. destruct (is_space c).
  - intros [Hb H]%andb_true_iff. apply negb_true_iff in Hb as ->.
    now rewrite IH.
  - intros H. now rewrite IH.
Qed.

Lemma join_id (m : Mode) (s : string) :
  one_line s = true -> join_lines m s = s.
Proof.
  revert m. induction s as [| c s IH]; intros m; [reflexivity |].
  cbn. intros [Hc H]%andb_true_iff. apply negb_true_iff in Hc.
  rewrite Hc. cbn. destruct (is_equation_char c); now rewrite IH.
Qed.

End Cleaning.

(** X24: the text that cleanEquation returns never has two spaces in a
    row and is never longer than the text it was given; and a text that
    has no two spaces in a row and no line feed is returned as it is. *)
Theorem cleanEquation_single_spaced (text : string) :
  CleanEquation.single_spaced false (CleanEquation.cleanEquation text) = true /\
  (String.length (CleanEquation.cleanEquation text) <= String.length text)%nat /\
  (CleanEquation.single_spaced false text = true ->
   CleanEquation.one_line text = true ->
   CleanEquation.cleanEquation text = text).
Proof.
  unfold CleanEquation.cleanEquation. split; [| split].
  - apply join_single_spaced; [discriminate | apply collapse_single_spaced].
  - rewrite join_length. apply collapse_length.
  - intros Hs Hl. rewrite (collapse_id false text Hs). now apply join_id.
Qed.

Lemma cleanEquation_single_spaced_witness :
  CleanEquation.cleanEquation "x = 2 (y + 1)" = "x = 2 (y + 1)".
Proof.
  exact (proj2 (proj2 (cleanEquation_single_spaced "x = 2 (y + 1)"))
           eq_refl eq_refl).
Defined.

(** ** History: a failed load *)

Section HistoryLoads.
Import HistoryList.

Lemma loadHistory_settles o s : loading (loadHistory o s) = false.
Proof. now destruct o. Qed.

Lemma loadHistory_error o s :
  error (loadHistory o s) =
    match o with
    | inl err => Some (Js.or_str (Api.response err ≫= Api.detail)
                         "Failed to load history")
    | inr _ => error s
    end.
Proof. now destruct o. Qed.

Lemma history_run_snoc os o s : run (os ++ [o]) s = loadHistory o (run os s).
Proof. unfold run. now rewrite fold_left_app. Qed.

(** Once a message is stored, every later load leaves one stored. *)
Lemma error_stays os s :
  (exists msg, error s = Some msg /\ msg <> "") ->
  exists msg, error (run os s) = Some msg /\ msg <> "".
Proof.
  revert s. induction os as [| o os IH]; intros s Hs; [exact Hs |].
  apply (IH (loadHistory o s)). rewrite loadHistory_error.
  destruct o as [err | items]; [| exact Hs].
  eexists. split; [reflexivity |]. apply or_str_nonempty. discriminate.
Qed.

Lemma failure_leaves_error os s :
  existsb is_failure os = true ->
  exists msg, error (run os s) = Some msg /\ msg <> "".
Proof.
  revert s. induction os as [| o os IH]; intros s; [discriminate |].
  cbn [existsb]. destruct o as [err | items]; cbn [is_failure orb].
  - intros _. apply (error_stays os). cbn.
    eexists. split; [reflexivity |]. apply or_str_nonempty. discriminate.
  - intros H. apply (IH _ H).
Qed.

Lemma successes_keep_error os s :
  existsb is_failure os = false -> error (run os s) = error s.
Proof.
  revert s. induction os as [| o os IH]; intros s; [reflexivity |].
  cbn [existsb]. destruct o as [err | items]; cbn [is_failure orb];
    [discriminate |].
  intros H. change (run (inr items :: os) s) with (run os (loadHistory (inr items) s)).
  now rewrite (IH _ H).
Qed.

End HistoryLoads.

(** X25: the History list never clears its error. Once one load has
    failed, after any later loads, successful or not, the component shows
    the error screen with a non-empty message and not the list; when no
    load has failed, it shows the list of the last response. While a
    request is pending it shows the spinner. *)
Theorem history_error_persists
    (os : list (Api.AxiosError + list HistoryList.HistoryItem))
    (o : Api.AxiosError + list HistoryList.HistoryItem) :
  let s := HistoryList.run (os ++ [o]) HistoryList.initial in
  (existsb HistoryList.is_failure (os ++ [o]) = true ->
     exists msg, HistoryList.render s = HistoryList.ErrorView msg /\ msg <> "") /\
  (existsb HistoryList.is_failure (os ++ [o]) = false ->
     exists items, o = inr items /\
                   HistoryList.render s = HistoryList.ListView items) /\
  HistoryList.render (HistoryList.pending s) = HistoryList.Spinner.
Proof.
  cbv zeta. split; [| split; [| reflexivity]].
  - intros H.
    destruct (failure_leaves_error _ HistoryList.initial H) as (msg & Hmsg & Hne).
    exists msg. split; [| exact Hne]. unfold HistoryList.render.
    rewrite Hmsg, history_run_snoc, loadHistory_settles.
    now rewrite (truthy_str_nonempty msg Hne).
  - intros H. pose proof (successes_keep_error _ HistoryList.initial H) as Herr.
    rewrite existsb_app, orb_false_iff in H. destruct H as [_ Ho].
    destruct o as [err | items]; [discriminate Ho |].
    exists items. split; [reflexivity |]. unfold HistoryList.render.
    rewrite Herr, history_run_snoc. reflexivity.
Qed.

Lemma history_error_persists_witness :
  let e := Api.mkAxiosError None "Network Error" in
  let item := HistoryList.mkHistoryItem 4 "thermo.pdf" 20 18.5 4200 "2025-01-01" in
  exists msg,
    HistoryList.render
      (HistoryList.run ([inl e] ++ [inr [item]]) HistoryList.initial)
    = HistoryList.ErrorView msg /\ msg <> "".
Proof.
  intros e item.
  exact (proj1 (history_error_persists [inl e] (inr [item])) eq_refl).
Defined.

(** ** Subscription: cancelling *)

(** X26: cancelling reports on the cancel request, not on the refresh
    that follows it. The alert says the subscription was cancelled exactly
    when the cancel request succeeded, and then the confirmation modal is
    closed; if the refresh of the status then failed, the page shows the
    error screen 'Failed to load subscription status'; if it succeeded,
    the page shows the refreshed status. When the cancel request failed,
    the alert says so, the page shows 'Failed to cancel subscription', and
    the Retry button of that screen, once its request succeeds, brings
    back the page with the status it fetched. The page is never left
    loading. *)
Theorem cancel_reports_cancel_request
    (cancelAtPeriodEnd : bool) (post : Api.AxiosError + unit)
    (refresh : Api.AxiosError + option PricingActions.SubscriptionStatus)
    (s : Subscription.State) :
  let after := fst (Subscription.handleCancelSubscription
                      cancelAtPeriodEnd post refresh s) in
  let alert := snd (Subscription.handleCancelSubscription
                      cancelAtPeriodEnd post refresh s) in
  (alert <> Subscription.cancel_failed <-> post = inr tt) /\
  (post = inr tt ->
     alert = (if cancelAtPeriodEnd then Subscription.cancelled_at_period_end
              else Subscription.cancelled_immediately) /\
     Subscription.showCancelConfirm after = false /\
     (forall e, refresh = inl e ->
        Subscription.render after =
          Subscription.ErrorScreen "Failed to load subscription status") /\
     (forall st, refresh = inr (Some st) ->
        Subscription.render after =
          Subscription.Page st (Subscription.card_buttons st) [])) /\
  (forall e, post = inl e ->
     Subscription.render after =
       Subscription.ErrorScreen "Failed to cancel subscription" /\
     Subscription.showCancelConfirm after = Subscription.showCancelConfirm s /\
     forall st, Subscription.showCancelConfirm s = false ->
       Subscription.render (Subscription.retry (inr (Some st)) after) =
         Subscription.Page st (Subscription.card_buttons st) []) /\
  Subscription.render after <> Subscription.Loading.
Proof.
  cbv zeta. unfold Subscription.handleCancelSubscription.
  destruct post as [e | []]; cbn.
  - split; [split; [intros H; now destruct H | discriminate] |].
    split; [discriminate |]. split; [| discriminate].
    intros e' _. split; [reflexivity |]. split; [reflexivity |].
    intros st ->. reflexivity.
  - split.
    { split; [reflexivity |]. intros _. destruct cancelAtPeriodEnd; discriminate. }
    split.
    + intros _. split; [reflexivity |]. split; [reflexivity |]. split.
      * intros e ->. reflexivity.
      * intros st ->. reflexivity.
    + split; [discriminate |].
      destruct refresh as [e | [st |]]; cbn; discriminate.
Qed.

Lemma cancel_reports_cancel_request_witness :
  let e := Api.mkAxiosError (Some (Api.mkResponse 500 None)) "Server error" in
  let st := PricingActions.mkSubscriptionStatus true "starter" (Some "active")
              None None (Some false) (Some 12) "Active" in
  let s := Subscription.mkState
             (PricingActions.fetchSubscriptionStatus (inr (Some st))
                PricingActions.initial) true in
  snd (Subscription.handleCancelSubscription true (inr tt) (inl e) s)
    = Subscription.cancelled_at_period_end /\
  Subscription.render
    (fst (Subscription.handleCancelSubscription true (inr tt) (inl e) s))
    = Subscription.ErrorScreen "Failed to load subscription status".
Proof.
  intros e st s.
  destruct (proj1 (proj2 (cancel_reports_cancel_request true (inr tt) (inl e) s))
              eq_refl) as (Halert & _ & Herr & _).
  split; [exact Halert | exact (Herr e eq_refl)].
Defined.

(** ** Pricing: starting a payment *)

(** X27: handlePayment asks the store for a subscription only for a
    signed-in user, once, for the plan it was given and never with an
    empty coupon code. When it raises the processing flag it lowers it
    again as its last step, also when it has opened the checkout, which
    it opens only for an order that is not free, with the order's key and
    subscription id, the payment handler and the dismiss callback. In its
    own steps it clears the selected plan only after a free order, and
    then refreshes the subscription status. The payment handler, which
    the checkout calls after a payment, asks for the verification of the
    plan it was made for, and clears the selected plan exactly when it
    was given a response and the verification was not rejected. *)
Theorem handlePayment_lowers_flag
    (user : option AuthStore.User) (plan : PricingActions.PricingPlan)
    (couponCode : string)
    (created : PricingActions.Thrown + PricingActions.SubscriptionOrder)
    (checkout_loaded : bool) :
  let t := Pricing.handlePayment user plan couponCode created checkout_loaded in
  (forall p c, Pricing.CreateSubscription p c ∈ t ->
     is_Some user /\ p = PricingActions.plan_id plan /\ c <> Some "" /\
     length (List.filter
               (fun e => match e with
                         | Pricing.CreateSubscription _ _ => true
                         | _ => false
                         end) t) = 1%nat) /\
  (Pricing.SetIsProcessingPayment true ∈ t ->
     last t = Some (Pricing.SetIsProcessingPayment false)) /\
  (forall k sid d pf handler ondismiss,
     Pricing.OpenCheckout k sid d pf handler ondismiss ∈ t ->
     exists order,
       created = inr order /\ Pricing.order_is_free order = false /\
       k = PricingActions.key order /\
       sid = PricingActions.subscription_id order /\
       handler = Pricing.payment_handler plan /\
       ondismiss = [Pricing.SetIsProcessingPayment false] /\
       last t = Some (Pricing.SetIsProcessingPayment false)) /\
  (Pricing.SetSelectedPlan "" ∈ t ->
     Pricing.FetchSubscriptionStatus ∈ t /\
     exists order, created = inr order /\ Pricing.order_is_free order = true) /\
  (forall response rejected,
     (Pricing.SetSelectedPlan "" ∈ Pricing.payment_handler plan response rejected
      <-> is_Some response /\ rejected = None) /\
     (forall a b c p,
        Pricing.VerifySubscription a b c p
          ∈ Pricing.payment_handler plan response rejected ->
        p = PricingActions.plan_id plan)).
Proof.
  cbv zeta.
  assert (Hhandler : forall response rejected,
     (Pricing.SetSelectedPlan "" ∈ Pricing.payment_handler plan response rejected
      <-> is_Some response /\ rejected = None) /\
     (forall a b c p,
        Pricing.VerifySubscription a b c p
          ∈ Pricing.payment_handler plan response rejected ->
        p = PricingActions.plan_id plan)).
  { intros response rejected. split; [split |].
    - intros H. destruct response as [r |], rejected as [e |]; cbn in H;
        repeat (apply elem_of_cons in H as [[=] | H]); try (now inversion H).
      split; [eauto | reflexivity].
    - intros [[r ->] ->]. cbn. do 2 right. left.
    - intros a b c p H. destruct response as [r |], rejected as [e |]; cbn in H;
        repeat (apply elem_of_cons in H as [[=] | H]); try (now inversion H);
        subst; reflexivity. }
  unfold Pricing.handlePayment.
  assert (Hcoupon : Pricing.coupon_argument couponCode <> Some "").
  { unfold Pricing.coupon_argument. destruct couponCode; cbn; discriminate. }
  destruct user as [u |].
  2:{ (split; [| split; [| split; [| split; [| exact Hhandler]]]]); intros;
        repeat match goal with
               | H : _ ∈ _ :: _ |- _ => apply elem_of_cons in H as [[=] | H]
               | H : _ ∈ [] |- _ => inversion H
               end. }
  destruct created as [e | order]; [| destruct (Pricing.order_is_free order) eqn:Hfree;
                                      [| destruct checkout_loaded]];
    cbn; (split; [| split; [| split; [| split; [| exact Hhandler]]]]).
  all: try (intros _; reflexivity).
  all: try (intros p c H;
            repeat (apply elem_of_cons in H as [[=] | H]); try (now inversion H);
            subst; repeat split; eauto; fail).
  all: try (intros k sid d pf handler ondismiss H;
            repeat (apply elem_of_cons in H as [[=] | H]); try (now inversion H);
            subst; eauto 12; fail).
  all: try (intros H;
            repeat (apply elem_of_cons in H as [[=] | H]); try (now inversion H);
            fail).
  all: intros _; split; [do 7 right; left | eauto].
Qed.

Lemma handlePayment_lowers_flag_witness :
  let u := AuthStore.mkUser 7 "ada@example.org" "Ada" None "2025-01-01" in
  let plan := PricingActions.mkPricingPlan "starter" "Starter" 9900 (Some 15) [] true in
  let order := PricingActions.mkSubscriptionOrder (Some "sub_1") None None None
                 None None (Some "rzp_key") None None None None in
  let paid := Pricing.mkCheckoutResponse (Some "pay_1") (Some "sub_1") (Some "sig") in
  last (Pricing.handlePayment (Some u) plan "" (inr order) true)
    = Some (Pricing.SetIsProcessingPayment false) /\
  Pricing.SetSelectedPlan "" ∈ Pricing.payment_handler plan (Some paid) None.
Proof.
  intros u plan order paid.
  pose proof (handlePayment_lowers_flag (Some u) plan "" (inr order) true)
    as (_ & Hflag & _ & _ & Hhandler).
  split.
  - apply Hflag. left.
  - apply (proj1 (Hhandler (Some paid) None)). split; [eauto | reflexivity].
Defined.
